(** * compressed-fhir: the bundle-entry DTO layer over the compressed container

    A shallow embedding of
      - [compressedfhir/fhir/fhir_bundle_entry_request.py]
      - [compressedfhir/fhir/fhir_bundle_entry_response.py]
      - [compressedfhir/fhir/fhir_bundle_entry.py]
    Python objects with identity (entries, requests, responses, containers,
    lists) live in a store indexed by locations; an exception is [None] in
    the result of a computation. *)

From Stdlib Require Import ZArith Floats.SpecFloat.
From stdpp Require Import base option list strings gmap pretty.


(** ** Python values *)

Class DatetimeOps := {
  datetime : Type;
  (** [datetime.isoformat()] *)
  isoformat : datetime → string;
  (** [datetime.fromisoformat(s)]; [None] is the [ValueError] *)
  fromisoformat : string → option datetime
}.

Section values.
Context `{DatetimeOps}.

(** The values that flow through the DTO layer: the JSON-like ones (null,
    booleans, numbers, strings, ordered lists, key-ordered mappings) and
    [datetime] objects. A mapping is an association list: insertion order is
    part of the value. *)
#[local] Unset Elimination Schemes.
Inductive value : Type :=
  | VNone
  | VBool (b : bool)
  | VInt (n : Z)
  | VFloat (f : spec_float)
  | VStr (s : string)
  | VDatetime (t : datetime)
  | VList (xs : list value)
  | VDict (kvs : list (string * value)).
#[local] Set Elimination Schemes.

Definition odict : Type := list (string * value).

Section value_rect.
Variable P : value → Prop.
Hypothesis Pnone : P VNone.
Hypothesis Pbool : ∀ b, P (VBool b).
Hypothesis Pint : ∀ n, P (VInt n).
Hypothesis Pfloat : ∀ f, P (VFloat f).
Hypothesis Pstr : ∀ s, P (VStr s).
Hypothesis Pdatetime : ∀ t, P (VDatetime t).
Hypothesis Plist : ∀ xs, Forall P xs → P (VList xs).
Hypothesis Pdict : ∀ kvs, Forall (λ kv, P kv.2) kvs → P (VDict kvs).

Fixpoint value_ind' (v : value) : P v :=
  match v with
  | VNone => Pnone
  | VBool b => Pbool b
  | VInt n => Pint n
  | VFloat f => Pfloat f
  | VStr s => Pstr s
  | VDatetime t => Pdatetime t
  | VList xs =>
      Plist xs ((fix go (l : list value) : Forall P l :=
                   match l with
                   | [] => Forall_nil_2 P
                   | x :: l' => Forall_cons_2 P x l' (value_ind' x) (go l')
                   end) xs)
  | VDict kvs =>
      Pdict kvs ((fix go (l : list (string * value)) : Forall (λ kv, P kv.2) l :=
                    match l with
                    | [] => Forall_nil_2 _
                    | kv :: l' => Forall_cons_2 _ kv l' (value_ind' kv.2) (go l')
                    end) kvs)
  end.
End value_rect.

(** *** Ordered mappings *)

Definition keys (d : odict) : list string := d.*1.

(** [k in d] *)
Definition contains (d : odict) (k : string) : bool := bool_decide (k ∈ keys d).

(** [d[k]]; [None] is the [KeyError] *)
Fixpoint getitem (d : odict) (k : string) : option value :=
  match d with
  | [] => None
  | (k', v) :: d' => if decide (k = k') then Some v else getitem d' k
  end.

(** [d.get(k, default)] *)
Definition get (d : odict) (k : string) (default : value) : value :=
  match getitem d k with Some v => v | None => default end.

(** [d[k] = v]: an existing key keeps its position, a new key goes last *)
Fixpoint setitem (d : odict) (k : string) (v : value) : odict :=
  match d with
  | [] => [(k, v)]
  | (k', v') :: d' => if decide (k = k') then (k, v) :: d' else (k', v') :: setitem d' k v
  end.

(** *** Truth value and tests *)

(** [bool(v)] *)
Definition truthy (v : value) : bool :=
  match v with
  | VNone => false
  | VBool b => b
  | VInt n => negb (n =? 0)%Z
  | VFloat (S754_zero _) => false
  | VFloat _ => true
  | VStr s => negb (String.eqb s "")
  | VDatetime _ => true
  | VList [] | VDict [] => false
  | VList _ | VDict _ => true
  end.

(** [a or b] *)
Definition py_or (a b : value) : value := if truthy a then a else b.

(** [v is not None] *)
Definition is_not_none (v : value) : bool :=
  match v with VNone => false | _ => true end.

(** [isinstance(v, int)]; [bool] is a subclass of [int] *)
Definition isinstance_int (v : value) : bool :=
  match v with VInt _ | VBool _ => true | _ => false end.


(** [str(v)] for an instance of [int] *)
Definition str_int (v : value) : string :=
  match v with
  | VBool true => "True"
  | VBool false => "False"
  | VInt n => pretty n
  | _ => ""
  end.

(** *** Membership and subscripting on every value *)

(** [k in s] for two strings: [k] occurs in [s] *)
Fixpoint is_substring (k s : string) : bool :=
  String.prefix k s
  || match s with
     | EmptyString => false
     | String _ s' => is_substring k s'
     end.

(** [v == k] for a string [k] *)
Definition is_str (k : string) (v : value) : bool :=
  match v with VStr s => String.eqb s k | _ => false end.

(** [k in v] for a string [k]: a key of a mapping, a substring of a string,
    an element of a list; [None] is the [TypeError] of a value that is no
    container. *)
Definition py_in (k : string) (v : value) : option bool :=
  match v with
  | VDict d => Some (contains d k)
  | VStr s => Some (is_substring k s)
  | VList xs => Some (existsb (is_str k) xs)
  | _ => None
  end.

(** [v[k]] for a string [k]: the item of a mapping ([None] is the
    [KeyError]); a string and a list take integers only and the other
    values are not subscriptable ([None] is the [TypeError]). *)
Definition py_getitem (v : value) (k : string) : option value :=
  match v with VDict d => getitem d k | _ => None end.

End values.

(** [d[k] if k in d else default] *)
Definition item_or `{DatetimeOps} (d : odict) (k : string) (default : value) : value :=
  if contains d k then get d k default else default.

(** [v[k] if k in v else default] on every value *)
Definition item_or_any `{DatetimeOps} (v : value) (k : string) (default : value)
    : option value :=
  found ← py_in k v;
  if found : bool then py_getitem v k else Some default.

(** ** The JSON helper shared by every [dict()] *)

Module FhirClientJsonHelpers.
Section helpers.
Context `{DatetimeOps}.

(** Modelled from the spec: the test of
    [FhirClientJsonHelpers.remove_empty_elements_from_ordered_dict], whose
    source is not part of the files at hand. The callers of [dict()] "drop
    empty/absent optional fields": a value is empty when it is [None], an
    empty mapping or an empty list. *)
Definition empty (v : value) : bool :=
  match v with
  | VNone | VList [] | VDict [] => true
  | _ => false
  end.

(** Modelled from the spec: the recursion of
    [FhirClientJsonHelpers.remove_empty_elements_from_ordered_dict]. Empty
    elements are dropped from every mapping and list, innermost first, so
    that a mapping or list left empty by the removal is dropped as well;
    other values are returned as they are and the order of what remains is
    kept. *)
Fixpoint remove_empty_elements (v : value) : value :=
  match v with
  | VList xs =>
      VList (filter (λ x, negb (empty x)) (remove_empty_elements <$> xs))
  | VDict kvs =>
      VDict (filter (λ kv, negb (empty kv.2))
               ((λ kv, (kv.1, remove_empty_elements kv.2)) <$> kvs))
  | _ => v
  end.

(** Modelled from the spec:
    [FhirClientJsonHelpers.remove_empty_elements_from_ordered_dict] applied to
    an ordered mapping. *)
Definition remove_empty_elements_from_ordered_dict (d : odict) : odict :=
  filter (λ kv, negb (empty kv.2))
    ((λ kv, (kv.1, remove_empty_elements kv.2)) <$> d).

End helpers.
End FhirClientJsonHelpers.

(** ** [FhirBundleEntryRequest] *)

Module FhirBundleEntryRequest.
Import FhirClientJsonHelpers.
Section request.
Context `{DatetimeOps}.

(** The slots of the class. [url], [method], [ifNoneMatch] and [ifNoneExist]
    hold whatever value the caller passed ([VNone] for [None]); the code
    calls [isoformat()] on [ifModifiedSince], which is a [datetime] or
    [None]. *)
Record t := mk {
  url : value;
  method : value;
  ifModifiedSince : option datetime;
  ifNoneMatch : value;
  ifNoneExist : value
}.

(** [__init__(self, *, url, method="GET", ifNoneMatch=None, ifModifiedSince=None,
    ifNoneExist=None)] *)
Definition init (url method ifNoneMatch : value)
    (ifModifiedSince : option datetime) (ifNoneExist : value) : t :=
  {| url := py_or url (VStr "https://example.com");
     method := py_or method (VStr "GET");
     ifModifiedSince := ifModifiedSince;
     ifNoneMatch := ifNoneMatch;
     ifNoneExist := ifNoneExist |}.

Definition dict (self : t) : odict :=
  let result := [("url", url self); ("method", method self)] in
  let result :=
    match ifModifiedSince self with
    | Some t => setitem result "ifModifiedSince" (VStr (isoformat t))
    | None => result
    end in
  let result :=
    if is_not_none (ifNoneMatch self)
    then setitem result "ifNoneMatch" (ifNoneMatch self) else result in
  let result :=
    if is_not_none (ifNoneExist self)
    then setitem result "ifNoneExist" (ifNoneExist self) else result in
  remove_empty_elements_from_ordered_dict result.

(** The timestamp read by [from_dict]: a [datetime] is taken as it is, a
    string goes through [fromisoformat] (the outer [None] is its
    [ValueError]), anything else leaves the field unset. *)
Definition parse_timestamp (d : odict) (k : string) : option (option datetime) :=
  if contains d k then
    match get d k VNone with
    | VDatetime t => Some (Some t)
    | VStr s => Some <$> fromisoformat s
    | _ => Some None
    end
  else Some None.

Definition from_dict (d : odict) : option t :=
  date_if_modified_since ← parse_timestamp d "ifModifiedSince";
  Some (init (get d "url" (VStr "https://example.com"))
             (get d "method" (VStr "GET"))
             (item_or d "ifNoneMatch" VNone)
             date_if_modified_since
             (item_or d "ifNoneExist" VNone)).

(** [__deepcopy__]: a new object built by [__init__] from the slots *)
Definition deepcopy (self : t) : t :=
  init (url self) (method self) (ifNoneMatch self) (ifModifiedSince self)
       (ifNoneExist self).

End request.
End FhirBundleEntryRequest.

(** ** [FhirBundleEntryResponse] *)

Module FhirBundleEntryResponse.
Import FhirClientJsonHelpers.
Section response.
Context `{DatetimeOps}.

Record t := mk {
  status : value;
  lastModified : option datetime;
  etag : value;
  location : value
}.

(** [__init__(self, *, status="200", etag=None, lastModified=None, location=None)] *)
Definition init (status etag : value) (lastModified : option datetime)
    (location : value) : t :=
  let self_status := py_or status (VStr "200") in
  let self_status :=
    if isinstance_int status then VStr (str_int status) else self_status in
  {| status := self_status;
     lastModified := lastModified;
     etag := etag;
     location := location |}.

Definition dict (self : t) : odict :=
  let result := [("status", status self)] in
  let result :=
    match lastModified self with
    | Some t => setitem result "lastModified" (VStr (isoformat t))
    | None => result
    end in
  let result :=
    if is_not_none (etag self) then setitem result "etag" (etag self) else result in
  let result :=
    if is_not_none (location self)
    then setitem result "location" (location self) else result in
  remove_empty_elements_from_ordered_dict result.

Definition from_dict (d : odict) : option t :=
  date_last_modified ← FhirBundleEntryRequest.parse_timestamp d "lastModified";
  Some (init (item_or d "status" (VStr "200"))
             (item_or d "etag" VNone)
             date_last_modified
             (item_or d "location" VNone)).

(** [from_dict(d)] called with whatever value [d]: the statements of
    [from_dict], with [in] and the subscript as every value has them. On a
    mapping it is [from_dict]; on a string or a list in which none of the
    four keys occurs every [in] is false and the response of the empty
    mapping is returned; on a value that is no container the first [in]
    raises. *)
Definition from_dict_any (d : value) : option t :=
  found ← py_in "lastModified" d;
  date_last_modified ←
    (if found : bool then
       x ← py_getitem d "lastModified";
       match x with
       | VDatetime t => Some (Some t)
       | VStr s => Some <$> fromisoformat s
       | _ => Some None
       end
     else Some None);
  status ← item_or_any d "status" (VStr "200");
  etag ← item_or_any d "etag" VNone;
  location ← item_or_any d "location" VNone;
  Some (init status etag date_last_modified location).

Definition deepcopy (self : t) : t :=
  init (status self) (etag self) (lastModified self) (location self).

End response.
End FhirBundleEntryResponse.

(** ** Storage mode and codec *)

Module CompressedDictStorageMode.

(** Modelled from the spec: [CompressedDictStorageMode], whose source is not
    part of the files at hand. "A closed set of variants (at minimum: Raw,
    Compressed)" that "carries no payload itself, only selects behavior";
    the dict-of-lists variant is the third one the spec names. *)
Inductive t : Set := Raw | Compressed | CompressedDictOfLists.

(** Modelled from the spec: [CompressedDictStorageMode.default()], "a single
    authoritative default() accessor returning the process-wide default
    (configurable once at process start, stable thereafter)". Python
    evaluates the default of a parameter once, when the function is defined;
    with a stable process-wide default both readings give this value. *)
Class Default := default : t.

End CompressedDictStorageMode.

Abbreviation storage_mode_t := CompressedDictStorageMode.t.

(** Modelled from the spec: the codec capability, "a pluggable serialize
    ordered mapping → compact bytes / bytes → ordered mapping capability
    (e.g., pack+compress, or identity)", selected by the storage mode. The
    wire format is opaque: [payload] is any type. Decoding a payload that the
    codec does not understand is the [CorruptPayloadError] ([None]). *)
Class Codec `{DatetimeOps} := {
  payload : Type;
  encode : storage_mode_t → odict → payload;
  decode : storage_mode_t → payload → option odict
}.

Section supported.
Context `{DatetimeOps}.

(** Modelled from the spec: the "supported JSON-like value set": "string,
    number, boolean, null, nested mapping, ordered list". Of the values of
    the DTO layer only [datetime] objects and what contains them are outside
    of it. *)
Fixpoint supported_value (v : value) : bool :=
  match v with
  | VDatetime _ => false
  | VList xs => forallb supported_value xs
  | VDict kvs => forallb (λ kv, supported_value kv.2) kvs
  | _ => true
  end.

Definition supported (d : odict) : bool := supported_value (VDict d).

End supported.

(** Modelled from the spec: the codec's contract, "decode(encode(x)) == x for
    every representable document x, and key order is preserved". *)
Class CodecLossless `{Codec} : Prop :=
  decode_encode : ∀ m d, supported d = true → decode m (encode m d) = Some d.

(** ** The container: [CompressedDict] / [FhirResource] *)

Module CompressedDict.
Import CompressedDictStorageMode.
Section container.
Context `{Codec}.

(** Modelled from the spec: the two representations of a container, "a tagged
    variant (Materialized(mapping) | Compact(bytes, key_index))". *)
Inductive representation : Type :=
  | Materialized (m : odict)
  | Compact (p : payload) (key_index : list string).

(** Modelled from the spec: the state of a [CompressedDict] (of which
    [FhirResource] is the typed view): its representation, its storage mode,
    fixed at construction, and the "explicit integer pin counter owned by the
    container" of the open transaction scopes. *)
Record t := mk {
  state : representation;
  storage_mode : storage_mode_t;
  pins : nat
}.

(** Modelled from the spec: the representation held at rest under a mode:
    [Raw] keeps the mapping, the other modes keep the encoded payload and the
    "cached list of top-level keys". *)
Definition at_rest (m : storage_mode_t) (d : odict) : representation :=
  match m with
  | Raw => Materialized d
  | _ => Compact (encode m d) (keys d)
  end.

(** Modelled from the spec: [construct(initial_mapping, mode)], which "fails
    with InvalidDocumentError if the initial value contains a type outside
    the supported JSON-like value set". *)
Definition construct (initial_dict : odict) (m : storage_mode_t) : option t :=
  if supported initial_dict
  then Some {| state := at_rest m initial_dict; storage_mode := m; pins := 0 |}
  else None.

(** Modelled from the spec: [dict()], "materializing transiently if currently
    compact; does not mutate stored representation". *)
Definition dict (self : t) : option odict :=
  match state self with
  | Materialized m => Some m
  | Compact p _ => decode (storage_mode self) p
  end.

(** Modelled from the spec: [replace(value)], "total replacement of contents;
    re-derives representation per current mode", failing as construction
    does. A pinned container stays materialized. *)
Definition replace (self : t) (value : odict) : option t :=
  if supported value
  then Some {| state := match pins self with
                        | O => at_rest (storage_mode self) value
                        | S _ => Materialized value
                        end;
               storage_mode := storage_mode self;
               pins := pins self |}
  else None.

(** Modelled from the spec: [get_keys()], served "from the cached key index"
    when compact. *)
Definition get_keys (self : t) : list string :=
  match state self with
  | Materialized m => keys m
  | Compact _ key_index => key_index
  end.

(** Modelled from the spec: the truth value of the "dictionary-like
    container", that of a mapping: false when it holds no key. *)
Definition bool (self : t) : Datatypes.bool :=
  match get_keys self with [] => false | _ => true end.

(** Modelled from the spec: [deep_copy()], "a new, independently owned
    container with the same current representation and content"; the mode is
    "propagated by value whenever a container is copied". The new container
    is under no scope. *)
Definition deep_copy (self : t) : t :=
  {| state := state self; storage_mode := storage_mode self; pins := 0 |}.

(** Modelled from the spec: entering a [TransactionScope]: "if the container
    is compact, decode once into materialized form; increment a pin
    counter". *)
Definition enter (self : t) : option t :=
  m ← dict self;
  Some {| state := Materialized m; storage_mode := storage_mode self;
          pins := S (pins self) |}.

(** Modelled from the spec: a field write inside a scope, "direct mutable
    field access" that needs the container pinned ([IllegalScopeStateError]
    otherwise) and a supported value. *)
Definition setfield (self : t) (k : string) (v : value) : option t :=
  match pins self, state self with
  | S _, Materialized m =>
      if supported_value v
      then Some {| state := Materialized (setitem m k v);
                   storage_mode := storage_mode self; pins := pins self |}
      else None
  | _, _ => None
  end.

(** Modelled from the spec: leaving a scope: "decrement pin counter; if it
    reaches zero and the container's mode is Compressed, re-encode once; if
    Raw, leave materialized". *)
Definition exit (self : t) : option t :=
  match pins self, state self with
  | 1, Materialized m =>
      Some {| state := at_rest (storage_mode self) m;
              storage_mode := storage_mode self; pins := 0 |}
  | S n, st => Some {| state := st; storage_mode := storage_mode self; pins := n |}
  | O, _ => None
  end.

End container.
End CompressedDict.

(** ** The DTOs the entry refers to *)

(** What [FhirBundleEntry] uses of a DTO class: [dict()], [from_dict(d)]
    ([None] is an exception) and [copy.deepcopy], which gives the state of
    the new object. [FhirLink] and [FhirBundleEntrySearch] enter the
    development through this interface only. *)
Class Dto `{DatetimeOps} (T : Type) := {
  dto_dict : T → odict;
  dto_from_dict : odict → option T;
  dto_deepcopy : T → T
}.

#[export] Instance request_dto `{DatetimeOps} : Dto FhirBundleEntryRequest.t := {|
  dto_dict := FhirBundleEntryRequest.dict;
  dto_from_dict := FhirBundleEntryRequest.from_dict;
  dto_deepcopy := FhirBundleEntryRequest.deepcopy
|}.

#[export] Instance response_dto `{DatetimeOps} : Dto FhirBundleEntryResponse.t := {|
  dto_dict := FhirBundleEntryResponse.dict;
  dto_from_dict := FhirBundleEntryResponse.from_dict;
  dto_deepcopy := FhirBundleEntryResponse.deepcopy
|}.

(** The two classes of the repository that the entry refers to and whose
    source is not part of the files at hand. Nothing is assumed of them
    beyond the interface. *)
Class EntryDtos `{DatetimeOps} := {
  FhirLink : Type;
  FhirBundleEntrySearch : Type;
  #[export] link_dto :: Dto FhirLink;
  #[export] search_dto :: Dto FhirBundleEntrySearch
}.

(** ** The store of Python objects *)

Abbreviation loc := positive.

Module Heap.
Section heap.
Context `{Codec} `{!EntryDtos}.

(** The slots of [FhirBundleEntry]. Every object-valued slot holds a
    reference: [_resource] to a container, [request] and [response] to the
    DTO objects, [link] to a Python list of references to [FhirLink]
    objects, [search] to a [FhirBundleEntrySearch]. *)
Record entry := mk_entry {
  _resource : option loc;
  request : option loc;
  response : option loc;
  fullUrl : value;
  link : option loc;
  search : option loc;
  storage_mode : storage_mode_t
}.

Inductive obj : Type :=
  | OResource (c : CompressedDict.t)
  | ORequest (r : FhirBundleEntryRequest.t)
  | OResponse (r : FhirBundleEntryResponse.t)
  | OLink (l : FhirLink)
  | OSearch (s : FhirBundleEntrySearch)
  | OList (items : list loc)
  | OEntry (e : entry).

(** Typed reads; [None] where the reference is dangling or of another
    class. *)
Definition resource_at (h : gmap loc obj) (l : loc) : option CompressedDict.t :=
  match h !! l with Some (OResource c) => Some c | _ => None end.
Definition request_at (h : gmap loc obj) (l : loc) : option FhirBundleEntryRequest.t :=
  match h !! l with Some (ORequest r) => Some r | _ => None end.
Definition response_at (h : gmap loc obj) (l : loc) : option FhirBundleEntryResponse.t :=
  match h !! l with Some (OResponse r) => Some r | _ => None end.
Definition link_at (h : gmap loc obj) (l : loc) : option FhirLink :=
  match h !! l with Some (OLink x) => Some x | _ => None end.
Definition search_at (h : gmap loc obj) (l : loc) : option FhirBundleEntrySearch :=
  match h !! l with Some (OSearch x) => Some x | _ => None end.
Definition list_at (h : gmap loc obj) (l : loc) : option (list loc) :=
  match h !! l with Some (OList x) => Some x | _ => None end.
Definition entry_at (h : gmap loc obj) (l : loc) : option entry :=
  match h !! l with Some (OEntry x) => Some x | _ => None end.

(** Computations over the store that may raise *)
Definition M (A : Type) : Type := gmap loc obj → option (A * gmap loc obj).

Definition ret {A} (a : A) : M A := λ h, Some (a, h).
Definition bind {A B} (c : M A) (k : A → M B) : M B :=
  λ h, match c h with Some (a, h') => k a h' | None => None end.
Definition raise {A} : M A := λ _, None.
Definition lift {A} (o : option A) : M A :=
  λ h, match o with Some a => Some (a, h) | None => None end.
Definition read {A} (f : gmap loc obj → option A) : M A := λ h, lift (f h) h.

(** A new object gets a location that no object of the store has *)
Definition alloc (o : obj) : M loc :=
  λ h, let l := fresh (dom h) in Some (l, <[l:=o]> h).

(** Assignment to the state of an existing object *)
Definition write (l : loc) (o : obj) : M unit :=
  λ h, match h !! l with Some _ => Some (tt, <[l:=o]> h) | None => None end.

End heap.

End Heap.

Notation "x <- c1 ;; c2" := (Heap.bind c1 (λ x, c2))
  (at level 100, c1 at next level, right associativity, only parsing).

(** ** [FhirBundleEntry] *)

Module FhirBundleEntry.
Import Heap FhirClientJsonHelpers.

Abbreviation t := entry.

(** What a caller may pass as [resource]:
    [Dict[str, Any] | FhirResource | OrderedDict[str, Any] | None]. A
    [FhirResource] is passed by reference. *)
Inductive resource_arg `{DatetimeOps} : Type :=
  | ResNone
  | ResDict (d : odict)
  | ResContainer (c : loc).

Section entry.
Context `{Codec} `{!EntryDtos} `{!CompressedDictStorageMode.Default}.

(** [FhirResource(initial_dict=d, storage_mode=m)]: a new container *)
Definition FhirResource (initial_dict : odict) (m : storage_mode_t) : M loc :=
  c <- lift (CompressedDict.construct initial_dict m) ;;
  alloc (OResource c).

(** [__init__(self, *, fullUrl=None, resource, request=None, response=None,
    link=None, search=None, storage_mode=CompressedDictStorageMode.default())];
    [storage_mode = None] is the call that leaves the argument out. *)
Definition init (fullUrl : value) (resource : resource_arg)
    (request response link search : option loc)
    (storage_mode : option storage_mode_t) : M loc :=
  let storage_mode :=
    from_option id CompressedDictStorageMode.default storage_mode in
  _resource <- match resource with
               | ResContainer c => ret (Some c)
               | ResDict d => c <- FhirResource d storage_mode ;; ret (Some c)
               | ResNone => ret None
               end ;;
  alloc (OEntry {| _resource := _resource;
                   request := request;
                   response := response;
                   fullUrl := fullUrl;
                   link := link;
                   search := search;
                   storage_mode := storage_mode |}).

Definition construct (fullUrl : value) (resource : resource_arg)
    (request response link search : option loc)
    (storage_mode : option storage_mode_t) : M loc :=
  init fullUrl resource request response link search storage_mode.

(** The [resource] property *)
Definition resource (h : gmap loc obj) (self : loc) : option (option loc) :=
  e ← entry_at h self; Some (_resource e).

(** The setter of the [resource] property *)
Definition set_resource (self : loc) (value : resource_arg) : M unit :=
  e <- read (λ h, entry_at h self) ;;
  let assign (r : option loc) :=
    write self (OEntry {| _resource := r;
                          request := request e;
                          response := response e;
                          fullUrl := fullUrl e;
                          link := link e;
                          search := search e;
                          storage_mode := storage_mode e |}) in
  match value with
  | ResContainer c => assign (Some c)
  | ResDict d =>
      match _resource e with
      | None => c <- FhirResource d (storage_mode e) ;; assign (Some c)
      | Some c =>
          r <- read (λ h, resource_at h c) ;;
          r' <- lift (CompressedDict.replace r d) ;;
          write c (OResource r')
      end
  | ResNone => assign None
  end.

Definition dict (h : gmap loc obj) (self : loc) : option odict :=
  e ← entry_at h self;
  let result : odict := [] in
  let result :=
    if is_not_none (fullUrl e) then setitem result "fullUrl" (fullUrl e)
    else result in
  result ← match _resource e with
           | Some c =>
               r ← resource_at h c;
               d ← CompressedDict.dict r;
               Some (setitem result "resource" (VDict d))
           | None => Some result
           end;
  result ← match request e with
           | Some l =>
               r ← request_at h l;
               Some (setitem result "request" (VDict (FhirBundleEntryRequest.dict r)))
           | None => Some result
           end;
  result ← match response e with
           | Some l =>
               r ← response_at h l;
               Some (setitem result "response" (VDict (FhirBundleEntryResponse.dict r)))
           | None => Some result
           end;
  result ← match link e with
           | Some l =>
               items ← list_at h l;
               ds ← mapM (λ i, x ← link_at h i; Some (VDict (dto_dict x))) items;
               Some (setitem result "link" (VList ds))
           | None => Some result
           end;
  result ← match search e with
           | Some l =>
               s ← search_at h l;
               Some (setitem result "search" (VDict (dto_dict s)))
           | None => Some result
           end;
  Some (remove_empty_elements_from_ordered_dict result).

(** A mapping passed where the callee needs one, as
    [FhirBundleEntryRequest.from_dict], which calls [d.get]; anything else
    makes the callee raise. *)
Definition as_mapping (v : value) : option odict :=
  match v with VDict d => Some d | _ => None end.

(** [parse(d[k])] for a callee [parse] that expects a mapping *)
Definition item_as {A} (parse : odict → option A) (d : odict) (k : string)
    : option A :=
  v ← getitem d k; m ← as_mapping v; parse m.

(** [parse(d[k])] for a callee [parse] that takes the item as it is *)
Definition item_with {A} (parse : value → option A) (d : odict) (k : string)
    : option A :=
  v ← getitem d k; parse v.

Fixpoint characters (s : string) : list string :=
  match s with
  | EmptyString => []
  | String c s' => String c EmptyString :: characters s'
  end.

(** [for x in v]: the elements of a list, the keys of a mapping, the
    characters of a string; other values are not iterable. *)
Definition iterate (v : value) : option (list value) :=
  match v with
  | VList xs => Some xs
  | VDict kvs => Some (VStr <$> keys kvs)
  | VStr s => Some (VStr <$> characters s)
  | _ => None
  end.

(** A list comprehension whose body allocates *)
Fixpoint for_each {A B} (f : A → M B) (l : list A) : M (list B) :=
  match l with
  | [] => ret []
  | x :: l' => y <- f x ;; ys <- for_each f l' ;; ret (y :: ys)
  end.

Definition from_dict (d : odict) (storage_mode : storage_mode_t) : M loc :=
  let fullUrl := item_or d "fullUrl" VNone in
  resource <- (if contains d "resource" then
                 r <- lift (item_as Some d "resource") ;;
                 c <- FhirResource r storage_mode ;;
                 ret (ResContainer c)
               else ret ResNone) ;;
  request <- (if contains d "request" then
                r <- lift (item_as FhirBundleEntryRequest.from_dict d "request") ;;
                l <- alloc (ORequest r) ;;
                ret (Some l)
              else ret None) ;;
  response <- (if contains d "response" then
                 r <- lift (item_with FhirBundleEntryResponse.from_dict_any
                              d "response") ;;
                 l <- alloc (OResponse r) ;;
                 ret (Some l)
               else ret None) ;;
  link <- (if contains d "link" then
             items <- lift (mbind (M:=option) iterate (getitem d "link")) ;;
             ls <- for_each (λ v, x <- lift (mbind (M:=option) (dto_from_dict (T:=FhirLink))
                                               (as_mapping v)) ;;
                                  alloc (OLink x)) items ;;
             l <- alloc (OList ls) ;;
             ret (Some l)
           else ret None) ;;
  search <- (if contains d "search" then
               s <- lift (item_as (dto_from_dict (T:=FhirBundleEntrySearch))
                            d "search") ;;
               l <- alloc (OSearch s) ;;
               ret (Some l)
             else ret None) ;;
  init fullUrl resource request response link search (Some storage_mode).

(** [copy.deepcopy(x) if x else None] for a slot holding a reference to an
    object of a class without [__bool__] or [__len__] *)
Definition deepcopy_slot {A} (at_ : gmap loc obj → loc → option A)
    (copy_of : A → obj) (slot : option loc) : M (option loc) :=
  match slot with
  | Some l => x <- read (λ h, at_ h l) ;; l' <- alloc (copy_of x) ;; ret (Some l')
  | None => ret None
  end.

Definition deepcopy (self : loc) : M loc :=
  e <- read (λ h, entry_at h self) ;;
  resource <- match _resource e with
              | Some c =>
                  r <- read (λ h, resource_at h c) ;;
                  if CompressedDict.bool r then
                    c' <- alloc (OResource (CompressedDict.deep_copy r)) ;;
                    ret (ResContainer c')
                  else ret ResNone
              | None => ret ResNone
              end ;;
  request <- deepcopy_slot request_at (λ r, ORequest (dto_deepcopy r)) (request e) ;;
  response <- deepcopy_slot response_at (λ r, OResponse (dto_deepcopy r)) (response e) ;;
  link <- match link e with
          | Some l =>
              items <- read (λ h, list_at h l) ;;
              match items with
              | [] => ret None
              | _ =>
                  ls <- for_each (λ i, x <- read (λ h, link_at h i) ;;
                                       alloc (OLink (dto_deepcopy x))) items ;;
                  l' <- alloc (OList ls) ;;
                  ret (Some l')
              end
          | None => ret None
          end ;;
  search <- deepcopy_slot search_at (λ s, OSearch (dto_deepcopy s)) (search e) ;;
  init (fullUrl e) resource request response link search (Some (storage_mode e)).

Definition copy (self : loc) : M loc := deepcopy self.

End entry.
End FhirBundleEntry.

(** ** A write to a container under a transaction scope *)

Section scoped_write.
Context `{Codec} `{!EntryDtos}.
Import Heap.

(** Modelled from the spec: [with c.transaction(): c[k] = v], the scope
    entered, one field written, the scope left, on the container object at
    [c]. *)
Definition transaction_setitem (c : loc) (k : string) (v : value) : M unit :=
  r <- read (λ h, resource_at h c) ;;
  r <- lift (CompressedDict.enter r) ;;
  r <- lift (CompressedDict.setfield r k v) ;;
  r <- lift (CompressedDict.exit r) ;;
  write c (OResource r).

End scoped_write.

(** ** Concrete collaborators

    The simplest inhabitants of the interfaces above; the examples and the
    instances of the theorems at concrete inputs run on them. *)

(** A [datetime] kept as its ISO-8601 text, seconds precision.
    [fromisoformat] reads "YYYY-MM-DDTHH:MM:SS", and a date alone as
    midnight of that day. *)
Definition iso_text_datetime : DatetimeOps := {|
  datetime := string;
  isoformat := id;
  fromisoformat := λ s,
    if decide (String.length s = 19) then Some s
    else if decide (String.length s = 10) then Some (s +:+ "T00:00:00")
    else None
|}.

(** The identity codec that the spec names: the payload is the mapping. *)
Definition identity_codec `{DatetimeOps} : Codec := {|
  payload := odict;
  encode := λ _ d, d;
  decode := λ _ p, Some p
|}.

Definition identity_codec_lossless `{DatetimeOps} :
    @CodecLossless _ identity_codec :=
  λ _ _ _, eq_refl.

(** Links and search blocks that keep the mapping they were built from. *)
Definition mapping_dtos `{DatetimeOps} : EntryDtos := {|
  FhirLink := odict;
  FhirBundleEntrySearch := odict;
  link_dto := {| dto_dict := id; dto_from_dict := Some; dto_deepcopy := id |};
  search_dto := {| dto_dict := id; dto_from_dict := Some; dto_deepcopy := id |}
|}.

(** A process whose default mode is [Compressed] *)
Definition compressed_by_default : CompressedDictStorageMode.Default :=
  CompressedDictStorageMode.Compressed.

(** The mapping of [test_from_dict_full], with a fixed timestamp *)
Definition full_entry_dict `{DatetimeOps} : odict :=
  [("fullUrl", VStr "https://example.com/Patient/123");
   ("resource", VDict [("resourceType", VStr "Patient"); ("id", VStr "123")]);
   ("request", VDict [("url", VStr "https://example.com"); ("method", VStr "GET")]);
   ("response", VDict [("status", VStr "200");
                       ("lastModified", VStr "2024-05-17T08:30:00");
                       ("etag", VStr "W/abc")])].

(** *** A run on the concrete collaborators

    The entry built by [from_dict] from [full_entry_dict] in the empty store,
    its copy, and the store after the original's container was written under
    a transaction scope. *)
Section demo.
#[local] Existing Instances iso_text_datetime identity_codec mapping_dtos
  compressed_by_default.
Import Heap CompressedDictStorageMode.

Definition demo_built : option (loc * gmap loc obj) :=
  Eval vm_compute in FhirBundleEntry.from_dict full_entry_dict Compressed ∅.
Definition demo_self : loc :=
  Eval vm_compute in from_option fst 1%positive demo_built.
Definition demo_store : gmap loc obj :=
  Eval vm_compute in from_option snd ∅ demo_built.
Definition demo_entry : entry :=
  {| _resource := Some 1%positive; request := Some 2%positive;
     response := Some 3%positive;
     fullUrl := VStr "https://example.com/Patient/123";
     link := None; search := None; storage_mode := Compressed |}.

Definition demo_copied : option (loc * gmap loc obj) :=
  Eval vm_compute in FhirBundleEntry.copy demo_self demo_store.
Definition demo_copy : loc :=
  Eval vm_compute in from_option fst 1%positive demo_copied.
Definition demo_store_copied : gmap loc obj :=
  Eval vm_compute in from_option snd ∅ demo_copied.
Definition demo_store_written : gmap loc obj :=
  Eval vm_compute in
    from_option snd ∅
      (transaction_setitem 1%positive "id" (VStr "456") demo_store_copied).

(** A caller builds a [Raw] container and passes it, by reference, to the
    constructor of two entries, the first time with
    [storage_mode=Compressed], the second time leaving [storage_mode] out;
    then the first entry is copied. *)
Definition patient : odict :=
  [("resourceType", VStr "Patient"); ("id", VStr "123")].

Definition shared_store_one : gmap loc obj :=
  Eval vm_compute in
    from_option snd ∅
      ((c <- FhirBundleEntry.FhirResource patient Raw ;;
        FhirBundleEntry.init VNone (FhirBundleEntry.ResContainer c)
          None None None None (Some Compressed)) ∅).
Definition shared_store_two : gmap loc obj :=
  Eval vm_compute in
    from_option snd ∅
      (FhirBundleEntry.init VNone (FhirBundleEntry.ResContainer 1%positive)
         None None None None None shared_store_one).
Definition shared_store_copied : gmap loc obj :=
  Eval vm_compute in
    from_option snd ∅ (FhirBundleEntry.copy 2%positive shared_store_one).

(** An entry constructed from a plain mapping, [storage_mode] left out *)
Definition defaulted_store : gmap loc obj :=
  Eval vm_compute in
    from_option snd ∅
      (FhirBundleEntry.init VNone (FhirBundleEntry.ResDict patient)
         None None None None None ∅).

(** A mapping whose request has no [method], and the store after
    [from_dict] on it *)
Definition partial_request_dict : odict :=
  [("request", VDict [("url", VStr "Patient/1")])].
Definition defaulting_store : gmap loc obj :=
  Eval vm_compute in
    from_option snd ∅
      (FhirBundleEntry.from_dict partial_request_dict Compressed ∅).

(** The store of [demo_store] after [None] was assigned to the [resource]
    of its entry, and after a plain mapping was assigned to it; the
    container that the entry holds in [demo_store]. *)
Definition patient_renamed : odict :=
  [("resourceType", VStr "Patient"); ("id", VStr "456")].
Definition demo_store_cleared : gmap loc obj :=
  Eval vm_compute in
    from_option snd ∅
      (FhirBundleEntry.set_resource demo_self FhirBundleEntry.ResNone demo_store).
Definition demo_store_replaced : gmap loc obj :=
  Eval vm_compute in
    from_option snd ∅
      (FhirBundleEntry.set_resource demo_self
         (FhirBundleEntry.ResDict patient_renamed) demo_store).
Definition demo_container : CompressedDict.t :=
  {| CompressedDict.state := CompressedDict.Compact patient ["resourceType"; "id"];
     CompressedDict.storage_mode := Compressed;
     CompressedDict.pins := 0 |}.

(** The store after [from_dict] on a mapping whose response is a string *)
Definition status_text_dict : odict := [("response", VStr "200")].
Definition status_text_store : gmap loc obj :=
  Eval vm_compute in
    from_option snd ∅ (FhirBundleEntry.from_dict status_text_dict Raw ∅).

(** An entry with an empty list of links, built by [from_dict], and the
    store after it was copied *)
Definition unlinked_dict : odict := [("link", VList [])].
Definition unlinked_store : gmap loc obj :=
  Eval vm_compute in
    from_option snd ∅ (FhirBundleEntry.from_dict unlinked_dict Raw ∅).
Definition unlinked_store_copied : gmap loc obj :=
  Eval vm_compute in
    from_option snd ∅ (FhirBundleEntry.copy 2%positive unlinked_store).

End demo.

(** ** Auxiliary definitions of the statements *)

Section statement_defs.
Context `{DatetimeOps}.
Import FhirClientJsonHelpers.

(** What the helper leaves of a single entry [k: v] *)
Definition emitted (k : string) (v : value) : odict :=
  if empty (remove_empty_elements v) then [] else [(k, remove_empty_elements v)].

(** A value that is neither a list nor a mapping *)
Definition is_scalar (v : value) : bool :=
  match v with VList _ | VDict _ => false | _ => true end.



(** A value without empty elements at any depth, itself not empty *)
Fixpoint clean (v : value) : bool :=
  match v with
  | VNone | VList [] | VDict [] => false
  | VList xs => forallb clean xs
  | VDict kvs => forallb (λ kv, clean kv.2) kvs
  | _ => true
  end.

(** The entry under key [k] of a mapping that nests the mapping [d]: none
    when [d] is empty *)
Definition nested (d : odict) : option value :=
  match d with [] => None | _ => Some (VDict d) end.

End statement_defs.

(** *** Mappings of the declared shapes, in the form [dict()] returns

    The mappings that survive [from_dict] followed by [dict()] unchanged:
    the keys in the declared order, no [None] or empty value, the fields
    that the constructors default present and not empty, the timestamps as
    the ISO text that [isoformat] gives back. *)
Section shapes.
Context `{DatetimeOps}.

Definition field (k : string) (o : option value) : odict :=
  match o with Some v => [(k, v)] | None => [] end.

(** An ISO text that [isoformat] reproduces after [fromisoformat] *)
Definition iso_canonical (s : string) : bool :=
  match fromisoformat s with
  | Some t => bool_decide (isoformat t = s)
  | None => false
  end.

Record request_shape := {
  q_url : string;
  q_method : string;
  q_ifModifiedSince : option string;
  q_ifNoneMatch : option string;
  q_ifNoneExist : option string
}.

Definition request_mapping (q : request_shape) : odict :=
  [("url", VStr (q_url q)); ("method", VStr (q_method q))]
  ++ field "ifModifiedSince" (VStr <$> q_ifModifiedSince q)
  ++ field "ifNoneMatch" (VStr <$> q_ifNoneMatch q)
  ++ field "ifNoneExist" (VStr <$> q_ifNoneExist q).

Definition request_valid (q : request_shape) : bool :=
  negb (String.eqb (q_url q) "") && negb (String.eqb (q_method q) "")
  && from_option iso_canonical true (q_ifModifiedSince q).

Record response_shape := {
  p_status : string;
  p_lastModified : option string;
  p_etag : option string;
  p_location : option string
}.

Definition response_mapping (p : response_shape) : odict :=
  [("status", VStr (p_status p))]
  ++ field "lastModified" (VStr <$> p_lastModified p)
  ++ field "etag" (VStr <$> p_etag p)
  ++ field "location" (VStr <$> p_location p).

Definition response_valid (p : response_shape) : bool :=
  negb (String.eqb (p_status p) "")
  && from_option iso_canonical true (p_lastModified p).

Record entry_shape := {
  s_fullUrl : option string;
  s_resource : option odict;
  s_request : option request_shape;
  s_response : option response_shape;
  s_link : option (list odict);
  s_search : option odict
}.

Definition entry_mapping (s : entry_shape) : odict :=
  field "fullUrl" (VStr <$> s_fullUrl s)
  ++ field "resource" (VDict <$> s_resource s)
  ++ field "request" ((λ q, VDict (request_mapping q)) <$> s_request s)
  ++ field "response" ((λ p, VDict (response_mapping p)) <$> s_response s)
  ++ field "link" ((λ ls, VList (VDict <$> ls)) <$> s_link s)
  ++ field "search" (VDict <$> s_search s).

(** A mapping that the class [T] reproduces, without empty elements *)
Definition reproduced (T : Type) `{!Dto T} (d : odict) : Prop :=
  clean (VDict d) = true ∧ ∃ x : T, dto_from_dict d = Some x ∧ dto_dict x = d.

Definition entry_valid `{!EntryDtos} (s : entry_shape) : Prop :=
  from_option (λ r, supported r = true ∧ clean (VDict r) = true) True
    (s_resource s) ∧
  from_option (λ q, request_valid q = true) True (s_request s) ∧
  from_option (λ p, response_valid p = true) True (s_response s) ∧
  from_option (λ ls, ls ≠ [] ∧ Forall (reproduced FhirLink) ls) True
    (s_link s) ∧
  from_option (reproduced FhirBundleEntrySearch) True (s_search s).

End shapes.

Section demo_shape.
#[local] Existing Instances iso_text_datetime.

(** A mapping of the declared shape with all six keys *)
Definition linked_entry_shape : entry_shape :=
  {| s_fullUrl := Some "https://example.com/Patient/123";
     s_resource := Some patient;
     s_request :=
       Some {| q_url := "https://example.com"; q_method := "GET";
               q_ifModifiedSince := Some "2024-05-17T08:30:00";
               q_ifNoneMatch := Some "W/abc"; q_ifNoneExist := None |};
     s_response :=
       Some {| p_status := "200";
               p_lastModified := Some "2024-05-17T08:30:00";
               p_etag := Some "W/abc"; p_location := None |};
     s_link := Some [[("relation", VStr "self");
                      ("url", VStr "https://example.com/Patient/123")]];
     s_search := Some [("mode", VStr "match")] |}.

End demo_shape.

(** The declared order of the keys *)
Definition request_keys : list string :=
  ["url"; "method"; "ifModifiedSince"; "ifNoneMatch"; "ifNoneExist"].
Definition response_keys : list string :=
  ["status"; "lastModified"; "etag"; "location"].
Definition entry_keys : list string :=
  ["fullUrl"; "resource"; "request"; "response"; "link"; "search"].

Section entry_statement_defs.
Context `{Codec} `{!EntryDtos}.
Import Heap.

(** What [FhirBundleEntry.dict] reads through each slot: [None] when the slot
    is unset or the read raises. *)
Definition resource_value (h : gmap loc obj) (slot : option loc) : option value :=
  c ← slot; r ← resource_at h c; d ← CompressedDict.dict r; Some (VDict d).
Definition request_value (h : gmap loc obj) (slot : option loc) : option value :=
  l ← slot; r ← request_at h l; Some (VDict (FhirBundleEntryRequest.dict r)).
Definition response_value (h : gmap loc obj) (slot : option loc) : option value :=
  l ← slot; r ← response_at h l; Some (VDict (FhirBundleEntryResponse.dict r)).
Definition link_value (h : gmap loc obj) (slot : option loc) : option value :=
  l ← slot; items ← list_at h l;
  ds ← mapM (λ i, x ← link_at h i; Some (VDict (dto_dict x))) items;
  Some (VList ds).
Definition search_value (h : gmap loc obj) (slot : option loc) : option value :=
  l ← slot; s ← search_at h l; Some (VDict (dto_dict s)).

(** The entries that [dict()] returns for an entry whose reads succeed *)
Definition entry_emitted (h : gmap loc obj) (e : entry) : odict :=
  emitted "fullUrl" (fullUrl e)
  ++ from_option (emitted "resource") [] (resource_value h (_resource e))
  ++ from_option (emitted "request") [] (request_value h (request e))
  ++ from_option (emitted "response") [] (response_value h (response e))
  ++ from_option (emitted "link") [] (link_value h (link e))
  ++ from_option (emitted "search") [] (search_value h (search e)).

(** No read of [FhirBundleEntry.dict] through a set slot raises *)
Definition slot_ok (slot : option loc) (v : option value) : bool :=
  match slot, v with Some _, None => false | _, _ => true end.
Definition readable (h : gmap loc obj) (e : entry) : bool :=
  slot_ok (_resource e) (resource_value h (_resource e))
  && slot_ok (request e) (request_value h (request e))
  && slot_ok (response e) (response_value h (response e))
  && slot_ok (link e) (link_value h (link e))
  && slot_ok (search e) (search_value h (search e)).

(** The objects an entry refers to: those its slots name and the elements of
    its list of links *)
Definition refs (h : gmap loc obj) (e : entry) : list loc :=
  option_list (_resource e) ++ option_list (request e)
  ++ option_list (response e) ++ option_list (search e)
  ++ option_list (link e)
  ++ from_option (λ l, default [] (list_at h l)) [] (link e).

(** How [__deepcopy__] relates the slots of the copy to those of the
    original, both read in the store [h] after the copy: every object the
    copy refers to holds the state that [copy.deepcopy] gives and is not
    among [old], the objects that existed before. *)
Definition slot_copied {A} (at_ : gmap loc obj → loc → option A) (cp : A → A)
    (old : gset loc) (h : gmap loc obj) (slot slot' : option loc) : Prop :=
  match slot with
  | None => slot' = None
  | Some l =>
      ∃ l' x, slot' = Some l' ∧ at_ h l = Some x ∧ at_ h l' = Some (cp x) ∧
              (l' ∉ old)
  end.

Definition resource_copied (old : gset loc) (h : gmap loc obj)
    (slot slot' : option loc) : Prop :=
  match slot with
  | None => slot' = None
  | Some c =>
      ∃ r, resource_at h c = Some r ∧
           if CompressedDict.bool r
           then ∃ c', slot' = Some c' ∧
                      resource_at h c' = Some (CompressedDict.deep_copy r) ∧
                      (c' ∉ old)
           else slot' = None
  end.

Definition links_copied (old : gset loc) (h : gmap loc obj)
    (slot slot' : option loc) : Prop :=
  match slot with
  | None => slot' = None
  | Some l =>
      ∃ items, list_at h l = Some items ∧
        match items with
        | [] => slot' = None
        | _ => ∃ l' items',
                 slot' = Some l' ∧ list_at h l' = Some items' ∧ (l' ∉ old) ∧
                 Forall2 (λ i i', ∃ x, link_at h i = Some x ∧
                                       link_at h i' = Some (dto_deepcopy x) ∧
                                       (i' ∉ old)) items items'
        end
  end.

Definition copied (old : gset loc) (h : gmap loc obj) (e e' : entry) : Prop :=
  fullUrl e' = fullUrl e ∧
  storage_mode e' = storage_mode e ∧
  resource_copied old h (_resource e) (_resource e') ∧
  slot_copied request_at dto_deepcopy old h (request e) (request e') ∧
  slot_copied response_at dto_deepcopy old h (response e) (response e') ∧
  links_copied old h (link e) (link e') ∧
  slot_copied search_at dto_deepcopy old h (search e) (search e').

(** The state in which the constructors leave the parts of an entry: a
    request with truthy [url] and [method], a response whose [status] is
    truthy and no [int], a container whose key index lists the keys of its
    content; links and search blocks whose deep copy has the same [dict()]. *)
Definition request_settled (r : FhirBundleEntryRequest.t) : bool :=
  truthy (FhirBundleEntryRequest.url r) && truthy (FhirBundleEntryRequest.method r).
Definition response_settled (r : FhirBundleEntryResponse.t) : bool :=
  truthy (FhirBundleEntryResponse.status r)
  && negb (isinstance_int (FhirBundleEntryResponse.status r)).
Definition index_consistent (r : CompressedDict.t) : Prop :=
  ∀ d, CompressedDict.dict r = Some d → CompressedDict.get_keys r = keys d.
Definition settled (h : gmap loc obj) (e : entry) : Prop :=
  (∀ l r, request e = Some l → request_at h l = Some r →
          request_settled r = true) ∧
  (∀ l r, response e = Some l → response_at h l = Some r →
          response_settled r = true) ∧
  (∀ c r, _resource e = Some c → resource_at h c = Some r →
          index_consistent r) ∧
  (∀ l items i x, link e = Some l → list_at h l = Some items → i ∈ items →
          link_at h i = Some x → dto_dict (dto_deepcopy x) = dto_dict x) ∧
  (∀ l x, search e = Some l → search_at h l = Some x →
          dto_dict (dto_deepcopy x) = dto_dict x).

(** Entry [e] holds the container [c] *)
Definition holds (h : gmap loc obj) (e c : loc) : Prop :=
  ∃ ent, entry_at h e = Some ent ∧ _resource ent = Some c.

(** No container is held by two entries *)
Definition exclusively_owned (h : gmap loc obj) : Prop :=
  ∀ e1 e2 c, holds h e1 c → holds h e2 c → e1 = e2.

(** Every container that an entry holds is an object of the store *)
Definition containers_live (h : gmap loc obj) : Prop :=
  ∀ e c, holds h e c → c ∈ dom h.

(** The mode of the container that entry [e] holds is the entry's own *)
Definition mode_inherited (h : gmap loc obj) (e : loc) : Prop :=
  ∀ ent c r, entry_at h e = Some ent → _resource ent = Some c →
             resource_at h c = Some r →
             CompressedDict.storage_mode r = storage_mode ent.

(** A computation that returns in every store *)
Definition total {A} (c : M A) : Prop := ∀ h, is_Some (c h).

(** A computation that leaves the entries of the store as they are, and one
    that adds the entry it returns and leaves the others as they are *)
Definition keeps_entries {A} (c : M A) : Prop :=
  ∀ h a h', c h = Some (a, h') → ∀ l, entry_at h' l = entry_at h l.

Definition adds_entry (c : M loc) : Prop :=
  ∀ h a h', c h = Some (a, h') → ∀ l, l ≠ a → entry_at h' l = entry_at h l.

Definition is_entry (o : obj) : bool :=
  match o with OEntry _ => true | _ => false end.

(** How [from_dict] relates the entry it returns, read in the store [h]
    after the call, to the mapping [d]: every key that [d] has gives a new
    object built from its value. *)
Definition built_from (d : odict) (m : storage_mode_t) (old : gset loc)
    (h : gmap loc obj) (e : entry) : Prop :=
  fullUrl e = item_or d "fullUrl" VNone ∧
  storage_mode e = m ∧
  (if contains d "resource"
   then ∃ c rd r, _resource e = Some c ∧ (c ∉ old) ∧
                  FhirBundleEntry.item_as Some d "resource" = Some rd ∧
                  CompressedDict.construct rd m = Some r ∧
                  resource_at h c = Some r
   else _resource e = None) ∧
  (if contains d "request"
   then ∃ l r, request e = Some l ∧
               FhirBundleEntry.item_as FhirBundleEntryRequest.from_dict d "request"
                 = Some r ∧
               request_at h l = Some r
   else request e = None) ∧
  (if contains d "response"
   then ∃ l r, response e = Some l ∧
               FhirBundleEntry.item_with FhirBundleEntryResponse.from_dict_any
                 d "response" = Some r ∧
               response_at h l = Some r
   else response e = None) ∧
  (if contains d "link"
   then ∃ l vs items,
          link e = Some l ∧
          (v ← getitem d "link"; FhirBundleEntry.iterate v) = Some vs ∧
          list_at h l = Some items ∧
          Forall2 (λ v i, ∃ x, (m ← FhirBundleEntry.as_mapping v; dto_from_dict m)
                                 = Some x ∧
                               link_at h i = Some x) vs items
   else link e = None) ∧
  (if contains d "search"
   then ∃ l s, search e = Some l ∧
               FhirBundleEntry.item_as dto_from_dict d "search" = Some s ∧
               search_at h l = Some s
   else search e = None).

(** Two stores with the same requests, responses, links, search blocks and
    lists: they differ in entries and containers at most. *)
Definition same_dtos (h h' : gmap loc obj) : Prop :=
  (∀ l, request_at h' l = request_at h l) ∧
  (∀ l, response_at h' l = response_at h l) ∧
  (∀ l, link_at h' l = link_at h l) ∧
  (∀ l, search_at h' l = search_at h l) ∧
  (∀ l, list_at h' l = list_at h l).

End entry_statement_defs.

(** * Properties *)

(** ** The helper and the normal form of [dict()] *)

Section helper_facts.
Context `{DatetimeOps}.
Import FhirClientJsonHelpers.

Lemma remove_empty_cons k v (d : odict) :
  remove_empty_elements_from_ordered_dict ((k, v) :: d) =
  emitted k v ++ remove_empty_elements_from_ordered_dict d.
Proof.
  unfold remove_empty_elements_from_ordered_dict, emitted.
  rewrite fmap_cons, filter_cons; simpl.
  by destruct (empty (remove_empty_elements v)).
Qed.

Lemma remove_empty_nil : remove_empty_elements_from_ordered_dict [] = [].
Proof. done. Qed.

Lemma emitted_none k : emitted k VNone = [].
Proof. done. Qed.

Lemma is_not_none_false v : is_not_none v = false → v = VNone.
Proof. by destruct v. Qed.

Lemma is_not_none_true v : is_not_none v = true ↔ v ≠ VNone.
Proof. destruct v; simpl; split; congruence. Qed.

Lemma emitted_scalar k v :
  is_scalar v = true → emitted k v = if is_not_none v then [(k, v)] else [].
Proof. by destruct v. Qed.

Lemma keys_emitted k v : keys (emitted k v) `sublist_of` [k].
Proof.
  unfold emitted. destruct (empty _); simpl; [apply sublist_nil_l | done].
Qed.

Lemma elem_of_keys_emitted k' k v :
  k' ∈ keys (emitted k v) → k' = k ∧ v ≠ VNone.
Proof.
  unfold emitted. destruct (empty (remove_empty_elements v)) eqn:E; simpl.
  - by intros ?%elem_of_nil.
  - rewrite list_elem_of_singleton. intros ->. split; [done|]. by intros ->.
Qed.

Lemma elem_of_emitted k' v' k v : (k', v') ∈ emitted k v → empty v' = false.
Proof.
  unfold emitted. destruct (empty (remove_empty_elements v)) eqn:E; simpl.
  - by intros ?%elem_of_nil.
  - rewrite list_elem_of_singleton. by intros [= -> ->].
Qed.

Lemma elem_of_remove_empty k v (d : odict) :
  (k, v) ∈ remove_empty_elements_from_ordered_dict d → empty v = false.
Proof.
  unfold remove_empty_elements_from_ordered_dict.
  rewrite list_elem_of_filter; simpl. intros [Hv _]. by destruct (empty v).
Qed.

Lemma keys_app (d1 d2 : odict) : keys (d1 ++ d2) = keys d1 ++ keys d2.
Proof. unfold keys. apply fmap_app. Qed.

(** Nothing is removed from a clean value *)
Lemma clean_not_empty v : clean v = true → empty v = false.
Proof. by destruct v as [| | | | | |[|]|[|]]. Qed.

Lemma remove_empty_elements_clean v :
  clean v = true → remove_empty_elements v = v.
Proof.
  induction v as [| | | | | |xs IH|kvs IH] using value_ind'; try done.
  - intros Hc. assert (forallb clean xs = true) as Hxs by (by destruct xs).
    change (VList (filter (λ x, negb (empty x)) (remove_empty_elements <$> xs))
            = VList xs).
    f_equal. clear Hc. induction IH as [|y l Hy _ IHl]; [done|].
    apply andb_true_iff in Hxs as [Hcy Hl].
    rewrite fmap_cons, filter_cons, Hy by done.
    rewrite decide_True by (by rewrite clean_not_empty).
    f_equal; auto.
  - intros Hc.
    assert (forallb (λ kv, clean kv.2) kvs = true) as Hkvs by (by destruct kvs).
    change (VDict (filter (λ kv, negb (empty kv.2))
                     ((λ kv, (kv.1, remove_empty_elements kv.2)) <$> kvs))
            = VDict kvs).
    f_equal. clear Hc. induction IH as [|[k y] l Hy _ IHl]; [done|].
    apply andb_true_iff in Hkvs as [Hcy Hl]. simpl in *.
    rewrite filter_cons; simpl. rewrite Hy by done.
    rewrite decide_True by (by rewrite clean_not_empty).
    f_equal; auto.
Qed.

Lemma emitted_clean k v : clean v = true → emitted k v = [(k, v)].
Proof.
  intros Hc. unfold emitted.
  by rewrite remove_empty_elements_clean, clean_not_empty.
Qed.

Lemma remove_empty_dict_clean (d : odict) :
  forallb (λ kv, clean kv.2) d = true →
  remove_empty_elements_from_ordered_dict d = d.
Proof.
  induction d as [|[k v] d IH]; [done|]; simpl.
  rewrite andb_true_iff. intros [Hv Hd].
  rewrite remove_empty_cons, emitted_clean, IH; done.
Qed.

End helper_facts.

(** ** Lookups in ordered mappings *)

Section lookup_facts.
Context `{DatetimeOps}.
Import FhirClientJsonHelpers.

Lemma contains_getitem (d : odict) k :
  contains d k = true ↔ is_Some (getitem d k).
Proof.
  unfold contains, keys. rewrite bool_decide_eq_true.
  induction d as [|[k' v] d IH]; simpl.
  - split; [by intros ?%elem_of_nil|by intros [? ?]].
  - rewrite elem_of_cons. case_decide as Hk.
    + split; [by eauto|by left].
    + rewrite <- IH. split; [by intros [?|?]|by right].
Qed.

Lemma contains_false_getitem (d : odict) k :
  contains d k = false ↔ getitem d k = None.
Proof.
  rewrite <- not_true_iff_false, contains_getitem, eq_None_not_Some. done.
Qed.

Lemma item_or_getitem (d : odict) k dflt :
  item_or d k dflt = default dflt (getitem d k).
Proof.
  unfold item_or, get. destruct (contains d k) eqn:Hc; [done|].
  apply contains_false_getitem in Hc. by rewrite Hc.
Qed.

Lemma getitem_app (d1 d2 : odict) k :
  getitem (d1 ++ d2) k =
    match getitem d1 k with Some v => Some v | None => getitem d2 k end.
Proof.
  induction d1 as [|[k' v] d1 IH]; simpl; [done|]. by case_decide.
Qed.

Lemma getitem_emitted_ne k k' v : k ≠ k' → getitem (emitted k' v) k = None.
Proof.
  intros Hk. unfold emitted.
  destruct (empty (remove_empty_elements v)); simpl; [done|]. by case_decide.
Qed.

Lemma getitem_emitted_eq k v :
  getitem (emitted k v) k =
    if empty (remove_empty_elements v) then None
    else Some (remove_empty_elements v).
Proof.
  unfold emitted.
  destruct (empty (remove_empty_elements v)); simpl; [done|]. by case_decide.
Qed.

Lemma getitem_timestamp k k' (o : option datetime) :
  getitem (from_option (λ t, [(k', VStr (isoformat t))]) [] o) k =
    if decide (k = k') then (λ t, VStr (isoformat t)) <$> o else None.
Proof. destruct o; simpl; by repeat case_decide. Qed.

(** The timestamp that [from_dict] reads, by the item found under the key *)
Lemma parse_timestamp_getitem (d : odict) k :
  FhirBundleEntryRequest.parse_timestamp d k =
    match getitem d k with
    | Some (VDatetime t) => Some (Some t)
    | Some (VStr s) => Some <$> fromisoformat s
    | _ => Some None
    end.
Proof.
  unfold FhirBundleEntryRequest.parse_timestamp, get.
  destruct (contains d k) eqn:Hc.
  - apply contains_getitem in Hc as [v Hv]. by rewrite Hv.
  - apply contains_false_getitem in Hc. by rewrite Hc.
Qed.

End lookup_facts.

(** ** Requests and responses *)

(** Membership of a key in a concatenation of single emissions *)
Ltac split_keys H :=
  rewrite ?keys_app, ?elem_of_app in H;
  repeat match type of H with
    | _ ∨ _ => destruct H as [H|H]
    | _ ∈ keys (emitted _ _) => apply elem_of_keys_emitted in H as [? ?]
    | _ ∈ keys (from_option _ [] ?o) =>
        destruct o; simpl in H;
        [apply list_elem_of_singleton in H | apply elem_of_nil in H]
    end.

Section request_response_facts.
Context `{DatetimeOps}.
Import FhirClientJsonHelpers.

Lemma request_dict_emitted (r : FhirBundleEntryRequest.t) :
  FhirBundleEntryRequest.dict r =
    emitted "url" (FhirBundleEntryRequest.url r)
    ++ emitted "method" (FhirBundleEntryRequest.method r)
    ++ from_option (λ t, [("ifModifiedSince", VStr (isoformat t))]) []
         (FhirBundleEntryRequest.ifModifiedSince r)
    ++ emitted "ifNoneMatch" (FhirBundleEntryRequest.ifNoneMatch r)
    ++ emitted "ifNoneExist" (FhirBundleEntryRequest.ifNoneExist r).
Proof.
  destruct r as [u m ims inm ine]. unfold FhirBundleEntryRequest.dict; simpl.
  destruct ims as [t|], (is_not_none inm) eqn:Em, (is_not_none ine) eqn:Ee;
    simpl; rewrite ?remove_empty_cons, ?remove_empty_nil;
    rewrite ?(is_not_none_false _ Em), ?(is_not_none_false _ Ee), ?emitted_none;
    by rewrite ?app_nil_r.
Qed.

Lemma response_dict_emitted (r : FhirBundleEntryResponse.t) :
  FhirBundleEntryResponse.dict r =
    emitted "status" (FhirBundleEntryResponse.status r)
    ++ from_option (λ t, [("lastModified", VStr (isoformat t))]) []
         (FhirBundleEntryResponse.lastModified r)
    ++ emitted "etag" (FhirBundleEntryResponse.etag r)
    ++ emitted "location" (FhirBundleEntryResponse.location r).
Proof.
  destruct r as [s lm e l]. unfold FhirBundleEntryResponse.dict; simpl.
  destruct lm as [t|], (is_not_none e) eqn:Ee, (is_not_none l) eqn:El;
    simpl; rewrite ?remove_empty_cons, ?remove_empty_nil;
    rewrite ?(is_not_none_false _ Ee), ?(is_not_none_false _ El), ?emitted_none;
    by rewrite ?app_nil_r.
Qed.

Lemma keys_timestamp k (o : option datetime) :
  keys (from_option (λ t, [(k, VStr (isoformat t))]) [] o) `sublist_of` [k].
Proof. destruct o; simpl; [done | apply sublist_nil_l]. Qed.

Lemma sublist_head_app (l k : list string) x rest :
  l `sublist_of` [x] → k `sublist_of` rest → l ++ k `sublist_of` x :: rest.
Proof. apply (sublist_app _ [x]). Qed.

Lemma request_keys_ordered (r : FhirBundleEntryRequest.t) :
  keys (FhirBundleEntryRequest.dict r) `sublist_of` request_keys.
Proof.
  rewrite request_dict_emitted, !keys_app.
  repeat (apply sublist_head_app;
          [first [apply keys_emitted | apply keys_timestamp]|]).
  apply keys_emitted.
Qed.

Lemma response_keys_ordered (r : FhirBundleEntryResponse.t) :
  keys (FhirBundleEntryResponse.dict r) `sublist_of` response_keys.
Proof.
  rewrite response_dict_emitted, !keys_app.
  repeat (apply sublist_head_app;
          [first [apply keys_emitted | apply keys_timestamp]|]).
  apply keys_emitted.
Qed.

Lemma request_optional_keys (r : FhirBundleEntryRequest.t) :
  ("ifModifiedSince" ∈ keys (FhirBundleEntryRequest.dict r) →
     FhirBundleEntryRequest.ifModifiedSince r ≠ None) ∧
  ("ifNoneMatch" ∈ keys (FhirBundleEntryRequest.dict r) →
     FhirBundleEntryRequest.ifNoneMatch r ≠ VNone) ∧
  ("ifNoneExist" ∈ keys (FhirBundleEntryRequest.dict r) →
     FhirBundleEntryRequest.ifNoneExist r ≠ VNone).
Proof.
  rewrite request_dict_emitted.
  repeat split; intros Hk; split_keys Hk; done.
Qed.

Lemma response_optional_keys (r : FhirBundleEntryResponse.t) :
  ("lastModified" ∈ keys (FhirBundleEntryResponse.dict r) →
     FhirBundleEntryResponse.lastModified r ≠ None) ∧
  ("etag" ∈ keys (FhirBundleEntryResponse.dict r) →
     FhirBundleEntryResponse.etag r ≠ VNone) ∧
  ("location" ∈ keys (FhirBundleEntryResponse.dict r) →
     FhirBundleEntryResponse.location r ≠ VNone).
Proof.
  rewrite response_dict_emitted.
  repeat split; intros Hk; split_keys Hk; done.
Qed.


Lemma truthy_py_or a b : truthy b = true → truthy (py_or a b) = true.
Proof. unfold py_or. by destruct (truthy a) eqn:E. Qed.

Lemma is_scalar_py_or a b :
  is_scalar a = true → is_scalar b = true → is_scalar (py_or a b) = true.
Proof. unfold py_or. by destruct (truthy a). Qed.

Lemma truthy_is_not_none v : truthy v = true → is_not_none v = true.
Proof. by destruct v. Qed.

Lemma emitted_truthy_scalar k v :
  is_scalar v = true → truthy v = true → emitted k v = [(k, v)].
Proof.
  intros Hs Ht. by rewrite emitted_scalar, truthy_is_not_none.
Qed.

Lemma request_dict_url_method (r : FhirBundleEntryRequest.t) :
  let u := FhirBundleEntryRequest.url r in
  let m := FhirBundleEntryRequest.method r in
  is_scalar u = true → truthy u = true →
  is_scalar m = true → truthy m = true →
  getitem (FhirBundleEntryRequest.dict r) "url" = Some u ∧
  getitem (FhirBundleEntryRequest.dict r) "method" = Some m.
Proof.
  intros u m Hsu Htu Hsm Htm. rewrite request_dict_emitted.
  fold u m. rewrite !emitted_truthy_scalar by done. simpl. done.
Qed.

Lemma contains_false_get (d : odict) k dflt :
  contains d k = false → get d k dflt = dflt.
Proof.
  unfold contains, get, keys. intros Hk%bool_decide_eq_false.
  induction d as [|[k' v] d IH]; [done|]; simpl.
  rewrite fmap_cons, elem_of_cons in Hk; simpl in Hk.
  case_decide; [naive_solver|]. apply IH. naive_solver.
Qed.

Lemma request_from_dict_init (d : odict) r :
  FhirBundleEntryRequest.from_dict d = Some r →
  ∃ ims,
    r = FhirBundleEntryRequest.init
          (get d "url" (VStr "https://example.com")) (get d "method" (VStr "GET"))
          (item_or d "ifNoneMatch" VNone) ims (item_or d "ifNoneExist" VNone).
Proof.
  unfold FhirBundleEntryRequest.from_dict.
  destruct (FhirBundleEntryRequest.parse_timestamp d "ifModifiedSince")
    as [ims|]; simpl; [|done].
  intros [= <-]. by exists ims.
Qed.

(** C9. The [url] and [method] stored by the constructor are never empty or
    [None]: a falsy [url] becomes ["https://example.com"], a falsy [method]
    becomes ["GET"], any other value is kept. [from_dict] builds the object
    through the constructor and supplies the same defaults for absent keys.
    Hence [dict()] of a constructed request carries both entries, with the
    stored (non-empty) values, whenever they are not lists or mappings as the
    declared type [str] has it. *)
Theorem request_url_method_never_empty :
  (∀ u m inm ims ine,
     let r := FhirBundleEntryRequest.init u m inm ims ine in
     truthy (FhirBundleEntryRequest.url r) = true ∧
     truthy (FhirBundleEntryRequest.method r) = true ∧
     FhirBundleEntryRequest.url r =
       (if truthy u then u else VStr "https://example.com") ∧
     FhirBundleEntryRequest.method r = (if truthy m then m else VStr "GET") ∧
     (is_scalar u = true → is_scalar m = true →
        getitem (FhirBundleEntryRequest.dict r) "url"
          = Some (FhirBundleEntryRequest.url r) ∧
        getitem (FhirBundleEntryRequest.dict r) "method"
          = Some (FhirBundleEntryRequest.method r))) ∧
  (∀ d r,
     FhirBundleEntryRequest.from_dict d = Some r →
     truthy (FhirBundleEntryRequest.url r) = true ∧
     truthy (FhirBundleEntryRequest.method r) = true ∧
     (contains d "url" = false →
        FhirBundleEntryRequest.url r = VStr "https://example.com") ∧
     (contains d "method" = false →
        FhirBundleEntryRequest.method r = VStr "GET") ∧
     (is_scalar (get d "url" VNone) = true →
      is_scalar (get d "method" VNone) = true →
        getitem (FhirBundleEntryRequest.dict r) "url"
          = Some (FhirBundleEntryRequest.url r) ∧
        getitem (FhirBundleEntryRequest.dict r) "method"
          = Some (FhirBundleEntryRequest.method r))).
Proof.
  assert (∀ u m inm ims ine,
     let r := FhirBundleEntryRequest.init u m inm ims ine in
     truthy (FhirBundleEntryRequest.url r) = true ∧
     truthy (FhirBundleEntryRequest.method r) = true ∧
     (is_scalar u = true → is_scalar m = true →
        getitem (FhirBundleEntryRequest.dict r) "url"
          = Some (FhirBundleEntryRequest.url r) ∧
        getitem (FhirBundleEntryRequest.dict r) "method"
          = Some (FhirBundleEntryRequest.method r))) as Hinit.
  { intros u m inm ims ine r.
    assert (truthy (FhirBundleEntryRequest.url r) = true) as Hu
      by (by apply truthy_py_or).
    assert (truthy (FhirBundleEntryRequest.method r) = true) as Hm
      by (by apply truthy_py_or).
    split; [done|]. split; [done|]. intros Hsu Hsm.
    apply request_dict_url_method; [|done| |done]; by apply is_scalar_py_or. }
  split.
  - intros u m inm ims ine r.
    destruct (Hinit u m inm ims ine) as (? & ? & ?).
    split; [done|]. split; [done|]. split; [done|]. split; done.
  - intros d r (ims & ->)%request_from_dict_init.
    match goal with |- context [FhirBundleEntryRequest.init ?u ?m ?a ?b ?c] =>
      destruct (Hinit u m a b c) as (Hu & Hm & Hd) end.
    split; [done|]. split; [done|]. split; [|split].
    + intros Hk. simpl. by rewrite contains_false_get.
    + intros Hk. simpl. by rewrite contains_false_get.
    + intros Hsu Hsm. apply Hd.
      * unfold get in *. by destruct (getitem d "url").
      * unfold get in *. by destruct (getitem d "method").
Qed.









(** On a mapping, [from_dict] with the membership test and the subscript of
    every value is [from_dict] *)
Lemma item_or_any_mapping (d : odict) k dflt :
  item_or_any (VDict d) k dflt = Some (item_or d k dflt).
Proof.
  unfold item_or_any, item_or, get; simpl.
  destruct (contains d k) eqn:Hc; [|done].
  apply contains_getitem in Hc as [v Hv]. by rewrite Hv.
Qed.

Lemma response_from_dict_any_mapping (d : odict) :
  FhirBundleEntryResponse.from_dict_any (VDict d)
    = FhirBundleEntryResponse.from_dict d.
Proof.
  unfold FhirBundleEntryResponse.from_dict_any,
    FhirBundleEntryResponse.from_dict.
  rewrite parse_timestamp_getitem, !item_or_any_mapping. simpl.
  destruct (contains d "lastModified") eqn:Hc.
  - apply contains_getitem in Hc as [v ->]. by destruct v.
  - apply contains_false_getitem in Hc. by rewrite Hc.
Qed.

(** On a string or a list [from_dict] returns the response of the empty
    mapping, unless one of the four keys occurs in it, in which case the
    subscript raises; on a value that is no container it raises. *)
Lemma response_from_dict_any_cases v :
  FhirBundleEntryResponse.from_dict_any v =
    match v with
    | VDict d => FhirBundleEntryResponse.from_dict d
    | VStr _ | VList _ =>
        if existsb (λ k, default false (py_in k v)) response_keys then None
        else Some (FhirBundleEntryResponse.init (VStr "200") VNone None VNone)
    | _ => None
    end.
Proof.
  destruct v as [| | | |s| |xs|d]; try done.
  - unfold FhirBundleEntryResponse.from_dict_any, item_or_any,
      response_keys, py_in, py_getitem, existsb, default.
    by destruct (is_substring "lastModified" s),
      (is_substring "status" s), (is_substring "etag" s),
      (is_substring "location" s).
  - unfold FhirBundleEntryResponse.from_dict_any, item_or_any,
      response_keys, py_in, py_getitem, default.
    assert (∀ f : string → bool,
              existsb f ["status"; "lastModified"; "etag"; "location"]
              = f "status" || (f "lastModified" || (f "etag" || f "location")))
      as -> by (intros f; simpl; by rewrite orb_false_r).
    cbv beta. unfold id.
    by destruct (existsb (is_str "lastModified") xs),
      (existsb (is_str "status") xs), (existsb (is_str "etag") xs),
      (existsb (is_str "location") xs).
  - apply response_from_dict_any_mapping.
Qed.



End request_response_facts.

(** ** The entry: what [dict()] returns *)

Section entry_dict_facts.
Context `{Codec} `{!EntryDtos}.
Import Heap FhirClientJsonHelpers.

Lemma entry_dict_unfold (h : gmap loc obj) self :
  FhirBundleEntry.dict h self =
    e ← entry_at h self;
    if readable h e then Some (entry_emitted h e) else None.
Proof.
  unfold FhirBundleEntry.dict, entry_emitted, readable.
  destruct (entry_at h self) as [e|]; simpl; [|done].
  destruct e as [res req resp fu lnk srch sm]; simpl in *.
  unfold resource_value, request_value, response_value, link_value, search_value.
  destruct res as [c|]; simpl in *;
    [destruct (resource_at h c) as [r|]; simpl in *;
       [destruct (CompressedDict.dict r) as [d|]; simpl in *|]|];
    try done;
  (destruct req as [lq|]; simpl in *;
    [destruct (request_at h lq) as [rq|]; simpl in *|];
    try done);
  (destruct resp as [lp|]; simpl in *;
    [destruct (response_at h lp) as [rp|]; simpl in *|];
    try done);
  (destruct lnk as [ll|]; simpl in *;
    [destruct (list_at h ll) as [items|]; simpl in *;
       [destruct (mapM _ items) as [ds|]; simpl in *|]|];
    try done);
  (destruct srch as [ls|]; simpl in *;
    [destruct (search_at h ls) as [s|]; simpl in *|];
    try done);
  destruct (is_not_none fu) eqn:Ef; simpl; f_equal;
    rewrite ?remove_empty_cons, ?remove_empty_nil,
      ?(is_not_none_false _ Ef), ?emitted_none, ?app_nil_r; done.
Qed.

Lemma entry_dict_emitted (h : gmap loc obj) self od :
  FhirBundleEntry.dict h self = Some od →
  ∃ e, entry_at h self = Some e ∧ od = entry_emitted h e.
Proof.
  rewrite entry_dict_unfold.
  destruct (entry_at h self) as [e|]; simpl; [|done].
  destruct (readable h e); [|done]. intros [= <-]. by exists e.
Qed.

Lemma elem_of_keys_slot k' k (o : option value) :
  k' ∈ keys (from_option (emitted k) [] o) → k' = k ∧ is_Some o.
Proof.
  destruct o as [v|]; simpl; [|by intros ?%elem_of_nil].
  intros [-> _]%elem_of_keys_emitted. eauto.
Qed.

Lemma keys_slot k (o : option value) :
  keys (from_option (emitted k) [] o) `sublist_of` [k].
Proof. destruct o; simpl; [apply keys_emitted | apply sublist_nil_l]. Qed.

Lemma entry_keys_ordered (h : gmap loc obj) e :
  keys (entry_emitted h e) `sublist_of` entry_keys.
Proof.
  unfold entry_emitted. rewrite !keys_app.
  repeat (apply sublist_head_app;
          [first [apply keys_emitted | apply keys_slot]|]).
  apply keys_slot.
Qed.

Lemma entry_optional_keys (h : gmap loc obj) e :
  let od := entry_emitted h e in
  ("fullUrl" ∈ keys od → fullUrl e ≠ VNone) ∧
  ("resource" ∈ keys od → _resource e ≠ None) ∧
  ("request" ∈ keys od → request e ≠ None) ∧
  ("response" ∈ keys od → response e ≠ None) ∧
  ("link" ∈ keys od → link e ≠ None) ∧
  ("search" ∈ keys od → search e ≠ None).
Proof.
  unfold entry_emitted.
  repeat split; intros Hk; rewrite ?keys_app, ?elem_of_app in Hk;
    repeat match type of Hk with
      | _ ∨ _ => destruct Hk as [Hk|Hk]
      | _ ∈ keys (emitted _ _) => apply elem_of_keys_emitted in Hk as [? ?]
      | _ ∈ keys (from_option (emitted _) [] _) =>
          apply elem_of_keys_slot in Hk as [? [? Hv]]
      end; try done;
    intros Hs; rewrite Hs in Hv; done.
Qed.

Lemma elem_of_slot k' v' k (o : option value) :
  (k', v') ∈ from_option (emitted k) [] o → empty v' = false.
Proof.
  destruct o; simpl; [apply elem_of_emitted | by intros ?%elem_of_nil].
Qed.

Lemma entry_emitted_nonempty (h : gmap loc obj) e k v :
  (k, v) ∈ entry_emitted h e → empty v = false.
Proof.
  unfold entry_emitted. rewrite !elem_of_app.
  intros [?|[?|[?|[?|[?|?]]]]]; eauto using elem_of_emitted, elem_of_slot.
Qed.

(** C3. The keys of [dict()] follow the declared order: those of a request
    are a subsequence of url, method, ifModifiedSince, ifNoneMatch,
    ifNoneExist, those of a response a subsequence of status, lastModified,
    etag, location, and those of an entry, whenever [dict()] returns, a
    subsequence of fullUrl, resource, request, response, link, search. *)
Theorem dict_keys_in_declared_order :
  (∀ r : FhirBundleEntryRequest.t,
     keys (FhirBundleEntryRequest.dict r) `sublist_of`
       ["url"; "method"; "ifModifiedSince"; "ifNoneMatch"; "ifNoneExist"]) ∧
  (∀ r : FhirBundleEntryResponse.t,
     keys (FhirBundleEntryResponse.dict r) `sublist_of`
       ["status"; "lastModified"; "etag"; "location"]) ∧
  (∀ (h : gmap loc obj) self od,
     FhirBundleEntry.dict h self = Some od →
     keys od `sublist_of`
       ["fullUrl"; "resource"; "request"; "response"; "link"; "search"]).
Proof.
  split; [apply request_keys_ordered|]. split; [apply response_keys_ordered|].
  intros h self od (e & _ & ->)%entry_dict_emitted. apply entry_keys_ordered.
Qed.

(** C2. A key of an optional field is in the mapping returned by [dict()]
    only if the field is set (not [None]), for requests, responses and
    entries alike; and no value of the returned mapping is [None], an empty
    mapping or an empty list. *)
Theorem absent_optional_fields_omitted :
  (∀ r : FhirBundleEntryRequest.t,
     let od := FhirBundleEntryRequest.dict r in
     ("ifModifiedSince" ∈ keys od → FhirBundleEntryRequest.ifModifiedSince r ≠ None) ∧
     ("ifNoneMatch" ∈ keys od → FhirBundleEntryRequest.ifNoneMatch r ≠ VNone) ∧
     ("ifNoneExist" ∈ keys od → FhirBundleEntryRequest.ifNoneExist r ≠ VNone) ∧
     (∀ k v, (k, v) ∈ od → empty v = false)) ∧
  (∀ r : FhirBundleEntryResponse.t,
     let od := FhirBundleEntryResponse.dict r in
     ("lastModified" ∈ keys od → FhirBundleEntryResponse.lastModified r ≠ None) ∧
     ("etag" ∈ keys od → FhirBundleEntryResponse.etag r ≠ VNone) ∧
     ("location" ∈ keys od → FhirBundleEntryResponse.location r ≠ VNone) ∧
     (∀ k v, (k, v) ∈ od → empty v = false)) ∧
  (∀ (h : gmap loc obj) self e od,
     entry_at h self = Some e →
     FhirBundleEntry.dict h self = Some od →
     ("fullUrl" ∈ keys od → fullUrl e ≠ VNone) ∧
     ("resource" ∈ keys od → _resource e ≠ None) ∧
     ("request" ∈ keys od → request e ≠ None) ∧
     ("response" ∈ keys od → response e ≠ None) ∧
     ("link" ∈ keys od → link e ≠ None) ∧
     ("search" ∈ keys od → search e ≠ None) ∧
     (∀ k v, (k, v) ∈ od → empty v = false)).
Proof.
  split; [|split].
  - intros r od. destruct (request_optional_keys r) as (? & ? & ?).
    repeat (split; [done|]). intros k v. apply elem_of_remove_empty.
  - intros r od. destruct (response_optional_keys r) as (? & ? & ?).
    repeat (split; [done|]). intros k v. apply elem_of_remove_empty.
  - intros h self e od He Hd.
    apply entry_dict_emitted in Hd as (e' & He' & ->).
    assert (e' = e) as -> by congruence.
    destruct (entry_optional_keys h e) as (? & ? & ? & ? & ? & ?).
    repeat (split; [done|]). apply entry_emitted_nonempty.
Qed.

End entry_dict_facts.

(** ** Computations over the store *)

Section store_facts.
Context `{Codec} `{!EntryDtos}.
Import Heap.

Lemma bind_Some {A B} (c : M A) (k : A → M B) h b h' :
  bind c k h = Some (b, h') ↔ ∃ a h1, c h = Some (a, h1) ∧ k a h1 = Some (b, h').
Proof.
  unfold bind. destruct (c h) as [[a h1]|].
  - split; [eauto|]. by intros (? & ? & [= <- <-] & ?).
  - split; [done|]. by intros (? & ? & ? & ?).
Qed.

Lemma ret_Some {A} (a b : A) h h' :
  (ret a : M A) h = Some (b, h') ↔ b = a ∧ h' = h.
Proof. unfold ret. split; [by intros [= <- <-]|by intros [-> ->]]. Qed.

Lemma lift_Some {A} (o : option A) a h h' :
  (lift o : M A) h = Some (a, h') ↔ o = Some a ∧ h' = h.
Proof.
  unfold lift. destruct o.
  - split; [by intros [= <- <-]|by intros [[= ->] ->]].
  - split; [done|by intros [? _]].
Qed.

Lemma read_Some {A} (f : gmap loc obj → option A) a h h' :
  read f h = Some (a, h') ↔ f h = Some a ∧ h' = h.
Proof. unfold read. apply lift_Some. Qed.

Lemma alloc_Some o l h h' :
  alloc o h = Some (l, h') ↔ l = fresh (dom h) ∧ h' = <[l:=o]> h.
Proof. unfold alloc. split; [by intros [= <- <-]|by intros [-> ->]]. Qed.

Lemma write_Some l o u h h' :
  write l o h = Some (u, h') ↔ is_Some (h !! l) ∧ h' = <[l:=o]> h.
Proof.
  unfold write. destruct (h !! l), u.
  - split; [intros [= <-]; eauto|by intros [_ ->]].
  - split; [done|by intros [[] _]].
Qed.

Lemma fresh_None (h : gmap loc obj) : h !! fresh (dom h) = None.
Proof. apply not_elem_of_dom, is_fresh. Qed.

Lemma alloc_spec o l h h' :
  alloc o h = Some (l, h') →
  h !! l = None ∧ h' !! l = Some o ∧ h ⊆ h' ∧ dom h' = {[l]} ∪ dom h.
Proof.
  intros [-> ->]%alloc_Some. pose proof (fresh_None h).
  split; [done|]. split; [by rewrite lookup_insert_eq|].
  split; [by apply insert_subseteq|]. by rewrite dom_insert_L.
Qed.

End store_facts.

Section store_reads.
Context `{Codec} `{!EntryDtos}.
Import Heap.

(** Reads are stable when the store grows *)
Lemma resource_at_weaken (h h' : gmap loc obj) l x :
  h ⊆ h' → resource_at h l = Some x → resource_at h' l = Some x.
Proof.
  unfold resource_at. intros Hh Hl.
  destruct (h !! l) as [o|] eqn:E; [|done].
  by rewrite (lookup_weaken _ _ _ _ E Hh).
Qed.
Lemma request_at_weaken (h h' : gmap loc obj) l x :
  h ⊆ h' → request_at h l = Some x → request_at h' l = Some x.
Proof.
  unfold request_at. intros Hh Hl.
  destruct (h !! l) as [o|] eqn:E; [|done].
  by rewrite (lookup_weaken _ _ _ _ E Hh).
Qed.
Lemma response_at_weaken (h h' : gmap loc obj) l x :
  h ⊆ h' → response_at h l = Some x → response_at h' l = Some x.
Proof.
  unfold response_at. intros Hh Hl.
  destruct (h !! l) as [o|] eqn:E; [|done].
  by rewrite (lookup_weaken _ _ _ _ E Hh).
Qed.
Lemma link_at_weaken (h h' : gmap loc obj) l x :
  h ⊆ h' → link_at h l = Some x → link_at h' l = Some x.
Proof.
  unfold link_at. intros Hh Hl.
  destruct (h !! l) as [o|] eqn:E; [|done].
  by rewrite (lookup_weaken _ _ _ _ E Hh).
Qed.
Lemma search_at_weaken (h h' : gmap loc obj) l x :
  h ⊆ h' → search_at h l = Some x → search_at h' l = Some x.
Proof.
  unfold search_at. intros Hh Hl.
  destruct (h !! l) as [o|] eqn:E; [|done].
  by rewrite (lookup_weaken _ _ _ _ E Hh).
Qed.
Lemma list_at_weaken (h h' : gmap loc obj) l x :
  h ⊆ h' → list_at h l = Some x → list_at h' l = Some x.
Proof.
  unfold list_at. intros Hh Hl.
  destruct (h !! l) as [o|] eqn:E; [|done].
  by rewrite (lookup_weaken _ _ _ _ E Hh).
Qed.
Lemma entry_at_weaken (h h' : gmap loc obj) l x :
  h ⊆ h' → entry_at h l = Some x → entry_at h' l = Some x.
Proof.
  unfold entry_at. intros Hh Hl.
  destruct (h !! l) as [o|] eqn:E; [|done].
  by rewrite (lookup_weaken _ _ _ _ E Hh).
Qed.

Lemma at_Some_dom (h : gmap loc obj) l :
  is_Some (resource_at h l) ∨ is_Some (request_at h l) ∨
  is_Some (response_at h l) ∨ is_Some (link_at h l) ∨
  is_Some (search_at h l) ∨ is_Some (list_at h l) ∨ is_Some (entry_at h l) →
  l ∈ dom h.
Proof.
  unfold resource_at, request_at, response_at, link_at, search_at, list_at,
    entry_at.
  rewrite elem_of_dom. destruct (h !! l); [eauto|].
  intros [[]|[[]|[[]|[[]|[[]|[[]|[]]]]]]]; done.
Qed.

Lemma not_elem_of_dom_weaken (h h' : gmap loc obj) l :
  h ⊆ h' → l ∉ dom h' → l ∉ dom h.
Proof. intros Hh Hl Hd. apply Hl. by apply (subseteq_dom _ _ Hh). Qed.

(** Two stores that agree on what a read looks at *)
Lemma resource_at_agree (h h' : gmap loc obj) l :
  h' !! l = h !! l → resource_at h' l = resource_at h l.
Proof. unfold resource_at. by intros ->. Qed.
Lemma request_at_agree (h h' : gmap loc obj) l :
  h' !! l = h !! l → request_at h' l = request_at h l.
Proof. unfold request_at. by intros ->. Qed.
Lemma response_at_agree (h h' : gmap loc obj) l :
  h' !! l = h !! l → response_at h' l = response_at h l.
Proof. unfold response_at. by intros ->. Qed.
Lemma link_at_agree (h h' : gmap loc obj) l :
  h' !! l = h !! l → link_at h' l = link_at h l.
Proof. unfold link_at. by intros ->. Qed.
Lemma search_at_agree (h h' : gmap loc obj) l :
  h' !! l = h !! l → search_at h' l = search_at h l.
Proof. unfold search_at. by intros ->. Qed.
Lemma list_at_agree (h h' : gmap loc obj) l :
  h' !! l = h !! l → list_at h' l = list_at h l.
Proof. unfold list_at. by intros ->. Qed.
Lemma entry_at_agree (h h' : gmap loc obj) l :
  h' !! l = h !! l → entry_at h' l = entry_at h l.
Proof. unfold entry_at. by intros ->. Qed.

(** [dict()] of an entry reads the entry and the objects it refers to, and
    nothing else. *)
Lemma entry_dict_agree (h h' : gmap loc obj) self :
  h' !! self = h !! self →
  (∀ e, entry_at h self = Some e → ∀ l, l ∈ refs h e → h' !! l = h !! l) →
  FhirBundleEntry.dict h' self = FhirBundleEntry.dict h self.
Proof.
  intros Hself Hrefs. unfold FhirBundleEntry.dict.
  rewrite (entry_at_agree _ _ _ Hself).
  destruct (entry_at h self) as [e|] eqn:He; simpl; [|done].
  specialize (Hrefs e eq_refl). unfold refs in Hrefs.
  destruct e as [res req resp fu lnk srch sm]; simpl in *.
  assert (∀ l, res = Some l → h' !! l = h !! l) as Hres.
  { intros l ->. apply Hrefs. simpl. set_solver. }
  assert (∀ l, req = Some l → h' !! l = h !! l) as Hreq.
  { intros l ->. apply Hrefs. simpl. set_solver. }
  assert (∀ l, resp = Some l → h' !! l = h !! l) as Hresp.
  { intros l ->. apply Hrefs. simpl. set_solver. }
  assert (∀ l, srch = Some l → h' !! l = h !! l) as Hsrch.
  { intros l ->. apply Hrefs. simpl. set_solver. }
  assert (∀ l, lnk = Some l → h' !! l = h !! l) as Hlnk.
  { intros l ->. apply Hrefs. simpl. set_solver. }
  assert (∀ l items i, lnk = Some l → list_at h l = Some items → i ∈ items →
            h' !! i = h !! i) as Hitems.
  { intros l items i -> Hl Hi. apply Hrefs. simpl. rewrite Hl. simpl.
    set_solver. }
  clear Hrefs.
  assert (match res with
          | Some c => resource_at h' c = resource_at h c | None => True
          end) as E1 by (destruct res; auto using resource_at_agree).
  assert (match req with
          | Some c => request_at h' c = request_at h c | None => True
          end) as E2 by (destruct req; auto using request_at_agree).
  assert (match resp with
          | Some c => response_at h' c = response_at h c | None => True
          end) as E3 by (destruct resp; auto using response_at_agree).
  assert (match srch with
          | Some c => search_at h' c = search_at h c | None => True
          end) as E4 by (destruct srch; auto using search_at_agree).
  assert (match lnk with
          | Some c => list_at h' c = list_at h c ∧
              ∀ items, list_at h c = Some items →
                mapM (λ i, x ← link_at h' i; Some (VDict (dto_dict x))) items =
                mapM (λ i, x ← link_at h i; Some (VDict (dto_dict x))) items
          | None => True
          end) as E5.
  { destruct lnk as [l|]; [|done]. split; [auto using list_at_agree|].
    intros items Hl. specialize (Hitems l items).
    assert (∀ i, i ∈ items → h' !! i = h !! i) as Hi by eauto.
    clear -Hi. induction items as [|i items IH]; [done|].
    simpl. rewrite (link_at_agree h h' i) by (apply Hi; set_solver).
    rewrite IH by (intros; apply Hi; set_solver). done. }
  destruct res; [rewrite E1|]; destruct req; [rewrite E2| | rewrite E2|];
    destruct resp; try rewrite E3; destruct srch; try rewrite E4;
    destruct lnk as [l|]; try done;
    destruct E5 as [-> E5]; destruct (list_at h l) as [items|]; try done;
    simpl; rewrite (E5 items eq_refl); done.
Qed.

End store_reads.

(** ** [__deepcopy__] *)

Section deepcopy_facts.
Context `{Codec} `{!EntryDtos} `{!CompressedDictStorageMode.Default}.
Import Heap.

Lemma deepcopy_slot_spec {A} (at_ : gmap loc obj → loc → option A)
    (copy_of : A → obj) slot h o h1 :
  FhirBundleEntry.deepcopy_slot at_ copy_of slot h = Some (o, h1) →
  h ⊆ h1 ∧
  match slot with
  | None => o = None
  | Some l => ∃ l' x, o = Some l' ∧ at_ h l = Some x ∧
                      h1 !! l' = Some (copy_of x) ∧ l' ∉ dom h
  end.
Proof.
  unfold FhirBundleEntry.deepcopy_slot. destruct slot as [l|]; intros Hc.
  - apply bind_Some in Hc as (x & ? & [Hx ->]%read_Some & Hc).
    apply bind_Some in Hc as (l' & ? & Ha & [-> ->]%ret_Some).
    apply alloc_spec in Ha as (Hn & Hl & Hsub & _).
    split; [done|]. exists l', x. repeat split; try done.
    by apply not_elem_of_dom.
  - by apply ret_Some in Hc as [-> ->].
Qed.

Lemma copy_links_spec items (h : gmap loc obj) ls h1 :
  FhirBundleEntry.for_each
    (λ i, x <- read (λ h, link_at h i) ;; alloc (OLink (dto_deepcopy x)))
    items h = Some (ls, h1) →
  h ⊆ h1 ∧
  Forall2 (λ i i', ∃ x, link_at h1 i = Some x ∧
                        link_at h1 i' = Some (dto_deepcopy x) ∧
                        i' ∉ dom h) items ls.
Proof.
  revert h ls h1. induction items as [|i items IH]; intros h ls h1 Hc;
    simpl in Hc.
  - apply ret_Some in Hc as [-> ->]. split; [done|constructor].
  - apply bind_Some in Hc as (l' & ha & Hstep & Hc).
    apply bind_Some in Hstep as (x & ? & [Hx ->]%read_Some & Ha).
    apply bind_Some in Hc as (ls' & hb & Hrest & [-> ->]%ret_Some).
    apply alloc_spec in Ha as (Hn & Hl & Hsub & _).
    apply IH in Hrest as [Hsub' Hall]. split; [by etrans|].
    constructor.
    + exists x. split; [|split].
      * apply (link_at_weaken h); [by etrans|done].
      * apply (link_at_weaken ha); [done|]. unfold link_at. by rewrite Hl.
      * by apply not_elem_of_dom.
    + eapply Forall2_impl; [exact Hall|]. simpl.
      intros i0 i' (y & Hy & Hy' & Hd). exists y.
      split; [done|]. split; [done|]. by eapply not_elem_of_dom_weaken.
Qed.

Lemma FhirResource_spec (d : odict) m (h : gmap loc obj) c h' :
  FhirBundleEntry.FhirResource d m h = Some (c, h') →
  ∃ r, CompressedDict.construct d m = Some r ∧
       h !! c = None ∧ h' = <[c:=OResource r]> h.
Proof.
  unfold FhirBundleEntry.FhirResource. intros Hc.
  apply bind_Some in Hc as (r & ? & [Hr ->]%lift_Some & [-> ->]%alloc_Some).
  exists r. split; [done|]. split; [apply fresh_None|done].
Qed.

(** What the constructor leaves in the store *)
Lemma init_spec fu ra rq rp ln sr sm (h : gmap loc obj) self h' :
  FhirBundleEntry.init fu ra rq rp ln sr sm h = Some (self, h') →
  let m := from_option id CompressedDictStorageMode.default sm in
  ∃ res h1,
    h1 !! self = None ∧
    h' = <[self := OEntry {| _resource := res; request := rq; response := rp;
                             fullUrl := fu; link := ln; search := sr;
                             storage_mode := m |}]> h1 ∧
    match ra with
    | FhirBundleEntry.ResNone => res = None ∧ h1 = h
    | FhirBundleEntry.ResContainer c => res = Some c ∧ h1 = h
    | FhirBundleEntry.ResDict d =>
        ∃ c r, res = Some c ∧ CompressedDict.construct d m = Some r ∧
               h !! c = None ∧ h1 = <[c:=OResource r]> h
    end.
Proof.
  intros Hc. cbv zeta. unfold FhirBundleEntry.init in Hc.
  apply bind_Some in Hc as (res & h1 & Hres & [-> ->]%alloc_Some).
  exists res, h1. split; [apply fresh_None|]. split; [done|].
  destruct ra as [|d|c].
  - by apply ret_Some in Hres as [-> ->].
  - apply bind_Some in Hres as (c & h2 & Hc & [-> ->]%ret_Some).
    apply FhirResource_spec in Hc as (r & Hr & Hn & ->). by exists c, r.
  - by apply ret_Some in Hres as [-> ->].
Qed.

Lemma deepcopy_spec self (h : gmap loc obj) c h' :
  FhirBundleEntry.deepcopy self h = Some (c, h') →
  ∃ e e', entry_at h self = Some e ∧ entry_at h' c = Some e' ∧
          h ⊆ h' ∧ (c ∉ dom h) ∧ copied (dom h) h' e e' ∧
          (∀ c0, _resource e = Some c0 → c0 ∈ dom h).
Proof.
  unfold FhirBundleEntry.deepcopy. intros Hc.
  apply bind_Some in Hc as (e & ? & [He ->]%read_Some & Hc).
  apply bind_Some in Hc as (ra & h1 & Hres & Hc).
  apply bind_Some in Hc as (rq & h2 & Hreq & Hc).
  apply bind_Some in Hc as (rp & h3 & Hresp & Hc).
  apply bind_Some in Hc as (ln & h4 & Hlnk & Hc).
  apply bind_Some in Hc as (sr & h5 & Hsrch & Hc).
  apply deepcopy_slot_spec in Hreq as [S2 Hreq].
  apply deepcopy_slot_spec in Hresp as [S3 Hresp].
  apply deepcopy_slot_spec in Hsrch as [S5 Hsrch].
  assert (h ⊆ h1 ∧
          match _resource e with
          | None => ra = FhirBundleEntry.ResNone
          | Some c0 =>
              ∃ r, resource_at h c0 = Some r ∧
                   if CompressedDict.bool r
                   then ∃ c', ra = FhirBundleEntry.ResContainer c' ∧
                              h1 !! c' = Some (OResource (CompressedDict.deep_copy r)) ∧
                              c' ∉ dom h
                   else ra = FhirBundleEntry.ResNone
          end) as [S1 Hra].
  { destruct (_resource e) as [c0|].
    - apply bind_Some in Hres as (r & ? & [Hr ->]%read_Some & Hres).
      destruct (CompressedDict.bool r) eqn:Eb.
      + apply bind_Some in Hres as (c' & ? & Ha & [-> ->]%ret_Some).
        apply alloc_spec in Ha as (Hn & Hl & Hsub & _).
        split; [done|]. exists r. rewrite Eb. split; [done|].
        exists c'. repeat split; try done. by apply not_elem_of_dom.
      + apply ret_Some in Hres as [-> ->]. split; [done|].
        exists r. by rewrite Eb.
    - by apply ret_Some in Hres as [-> ->]. }
  assert (h3 ⊆ h4 ∧
          match link e with
          | None => ln = None
          | Some l =>
              ∃ items, list_at h3 l = Some items ∧
                match items with
                | [] => ln = None
                | _ => ∃ l' items',
                    ln = Some l' ∧ h4 !! l' = Some (OList items') ∧
                    (l' ∉ dom h3) ∧
                    Forall2 (λ i i', ∃ x, link_at h4 i = Some x ∧
                                       link_at h4 i' = Some (dto_deepcopy x) ∧
                                       i' ∉ dom h3) items items'
                end
          end) as [S4 Hln].
  { destruct (link e) as [l|].
    - apply bind_Some in Hlnk as (items & ? & [Hitems ->]%read_Some & Hlnk).
      destruct items as [|i items].
      + apply ret_Some in Hlnk as [-> ->]. split; [done|]. by exists [].
      + apply bind_Some in Hlnk as (ls & ha & Hls & Hlnk).
        apply bind_Some in Hlnk as (l' & ? & Ha & [-> ->]%ret_Some).
        apply copy_links_spec in Hls as [Hsub Hall].
        apply alloc_spec in Ha as (Hn & Hl & Hsub' & _).
        split; [by etrans|]. exists (i :: items). split; [done|].
        exists l', ls. repeat split; try done.
        * eapply not_elem_of_dom_weaken; [exact Hsub|]. by apply not_elem_of_dom.
        * eapply Forall2_impl; [exact Hall|]. simpl.
          intros i0 i' (y & Hy & Hy' & Hd). exists y.
          eauto using link_at_weaken.
    - by apply ret_Some in Hlnk as [-> ->]. }
  apply init_spec in Hc as (res & hx & Hn & -> & Hc). simpl in Hc.
  assert (res = match ra with
                | FhirBundleEntry.ResContainer c' => Some c' | _ => None
                end ∧ hx = h5) as [-> ->].
  { destruct ra as [|d|c']; try (by destruct Hc).
    exfalso. destruct (_resource e) as [c0|]; [|done].
    destruct Hra as (r & _ & Hra). destruct (CompressedDict.bool r); [|done].
    by destruct Hra as (? & ? & _). }
  clear Hc.
  assert (h5 ⊆ <[c:=OEntry
             {| _resource := match ra with
                             | FhirBundleEntry.ResContainer c' => Some c'
                             | _ => None
                             end;
                request := rq; response := rp; fullUrl := fullUrl e;
                link := ln; search := sr; storage_mode := storage_mode e |}]> h5)
    as S6 by (by apply insert_subseteq).
  set (h' := <[c:=_]> h5) in *.
  assert (h ⊆ h2) as T2 by (by etrans).
  assert (h ⊆ h3) as T3 by (by etrans).
  assert (h ⊆ h4) as T4 by (by etrans).
  assert (h ⊆ h5) as T5 by (by etrans).
  assert (h1 ⊆ h') as U1 by (repeat (etrans; [eassumption|]); done).
  assert (h2 ⊆ h') as U2 by (repeat (etrans; [eassumption|]); done).
  assert (h3 ⊆ h') as U3 by (repeat (etrans; [eassumption|]); done).
  assert (h4 ⊆ h') as U4 by (repeat (etrans; [eassumption|]); done).
  assert (h5 ⊆ h') as U5 by done.
  assert (h ⊆ h') as U0 by (by etrans).
  eexists e, _. split; [done|]. split.
  { unfold entry_at, h'. by rewrite lookup_insert_eq. }
  split; [done|]. split.
  { eapply not_elem_of_dom_weaken; [exact T5|]. by apply not_elem_of_dom. }
  split; [|intros c0 Hc0; rewrite Hc0 in Hra; destruct Hra as (r & Hr & _);
           apply at_Some_dom; eauto].
  unfold copied; simpl. split; [done|]. split; [done|].
  split; [|split; [|split; [|split]]].
  - unfold resource_copied. destruct (_resource e) as [c0|]; [|by subst].
    destruct Hra as (r & Hr & Hra). exists r.
    split; [by apply (resource_at_weaken h)|].
    destruct (CompressedDict.bool r); [|by subst].
    destruct Hra as (c' & -> & Hl & Hd). exists c'.
    split; [done|]. split; [|done].
    apply (resource_at_weaken h1); [done|]. unfold resource_at. by rewrite Hl.
  - unfold slot_copied. destruct (request e) as [l|]; [|done].
    destruct Hreq as (l' & x & -> & Hx & Hl & Hd). exists l', x.
    split; [done|]. split; [|split].
    + apply (request_at_weaken h1); [done|exact Hx].
    + apply (request_at_weaken h2); [done|]. unfold request_at. by rewrite Hl.
    + by apply (not_elem_of_dom_weaken h h1).
  - unfold slot_copied. destruct (response e) as [l|]; [|done].
    destruct Hresp as (l' & x & -> & Hx & Hl & Hd). exists l', x.
    split; [done|]. split; [|split].
    + apply (response_at_weaken h2); [done|exact Hx].
    + apply (response_at_weaken h3); [done|]. unfold response_at. by rewrite Hl.
    + by apply (not_elem_of_dom_weaken h h2).
  - unfold links_copied. destruct (link e) as [l|]; [|done].
    destruct Hln as (items & Hitems & Hln). exists items.
    split; [by apply (list_at_weaken h3)|].
    destruct items as [|i items]; [done|].
    destruct Hln as (l' & items' & -> & Hl & Hd & Hall).
    exists l', items'. split; [done|]. split; [|split].
    + apply (list_at_weaken h4); [done|]. unfold list_at. by rewrite Hl.
    + by apply (not_elem_of_dom_weaken h h3).
    + eapply Forall2_impl; [exact Hall|]. simpl.
      intros i0 i' (y & Hy & Hy' & Hd'). exists y.
      split; [by apply (link_at_weaken h4)|].
      split; [by apply (link_at_weaken h4)|].
      by apply (not_elem_of_dom_weaken h h3).
  - unfold slot_copied. destruct (search e) as [l|]; [|done].
    destruct Hsrch as (l' & x & -> & Hx & Hl & Hd). exists l', x.
    split; [done|]. split; [|split].
    + apply (search_at_weaken h4); [done|exact Hx].
    + apply (search_at_weaken h5); [done|]. unfold search_at. by rewrite Hl.
    + by apply (not_elem_of_dom_weaken h h4).
Qed.

End deepcopy_facts.

(** ** The copy is a duplicate made of new objects *)

Section copy_facts.
Context `{Codec} `{!EntryDtos} `{!CompressedDictStorageMode.Default}.
Import Heap.

Lemma py_or_truthy a b : truthy a = true → py_or a b = a.
Proof. unfold py_or. by intros ->. Qed.

Lemma request_deepcopy_settled (r : FhirBundleEntryRequest.t) :
  request_settled r = true → FhirBundleEntryRequest.deepcopy r = r.
Proof.
  destruct r as [u m ims inm ine]. unfold request_settled; simpl.
  intros [Hu Hm]%andb_true_iff.
  unfold FhirBundleEntryRequest.deepcopy, FhirBundleEntryRequest.init; simpl.
  by rewrite !py_or_truthy.
Qed.

Lemma response_deepcopy_settled (r : FhirBundleEntryResponse.t) :
  response_settled r = true → FhirBundleEntryResponse.deepcopy r = r.
Proof.
  destruct r as [s lm e l]. unfold response_settled; simpl.
  intros [Hs Hi%negb_true_iff]%andb_true_iff.
  unfold FhirBundleEntryResponse.deepcopy, FhirBundleEntryResponse.init; simpl.
  by rewrite Hi, py_or_truthy.
Qed.

Lemma request_init_settled u m a b c :
  request_settled (FhirBundleEntryRequest.init u m a b c) = true.
Proof.
  unfold request_settled; simpl. by rewrite !truthy_py_or.
Qed.


Lemma dict_deep_copy (r : CompressedDict.t) :
  CompressedDict.dict (CompressedDict.deep_copy r) = CompressedDict.dict r.
Proof. done. Qed.

Lemma emitted_empty_dict k : emitted k (VDict []) = [].
Proof. done. Qed.

Lemma emitted_empty_list k : emitted k (VList []) = [].
Proof. done. Qed.

Lemma keys_nil_inv (d : odict) : keys d = [] → d = [].
Proof. by destruct d. Qed.

(** Slot by slot: the copy contributes to [dict()] what the original does *)
Lemma resource_slot_duplicate (h h' : gmap loc obj) slot slot' :
  h ⊆ h' →
  resource_copied (dom h) h' slot slot' →
  (∀ c r, slot = Some c → resource_at h c = Some r → index_consistent r) →
  slot_ok slot (resource_value h slot) = true →
  slot_ok slot' (resource_value h' slot') = true ∧
  from_option (emitted "resource") [] (resource_value h' slot')
    = from_option (emitted "resource") [] (resource_value h slot).
Proof.
  intros Hsub Hcp Hidx Hok. unfold resource_copied in Hcp.
  destruct slot as [c|]; [|by subst].
  destruct Hcp as (r & Hr & Hcp). simpl in Hok |- *.
  destruct (resource_at h c) as [r0|] eqn:Hr0; simpl in *; [|done].
  assert (r0 = r) as ->.
  { apply (resource_at_weaken _ _ _ _ Hsub) in Hr0. congruence. }
  destruct (CompressedDict.dict r) as [d|] eqn:Hd; simpl in *; [|done].
  destruct (CompressedDict.bool r) eqn:Hb.
  - destruct Hcp as (c' & -> & Hc' & _). simpl. rewrite Hc'. simpl.
    by rewrite dict_deep_copy, Hd.
  - subst slot'. simpl. split; [done|].
    specialize (Hidx c r eq_refl Hr0 d Hd).
    unfold CompressedDict.bool in Hb. rewrite Hidx in Hb.
    destruct (keys d) eqn:Hk; [|done].
    by rewrite (keys_nil_inv _ Hk).
Qed.

Lemma request_slot_duplicate (h h' : gmap loc obj) slot slot' :
  h ⊆ h' →
  slot_copied request_at dto_deepcopy (dom h) h' slot slot' →
  (∀ l r, slot = Some l → request_at h l = Some r → request_settled r = true) →
  slot_ok slot (request_value h slot) = true →
  slot_ok slot' (request_value h' slot') = true ∧
  request_value h' slot' = request_value h slot.
Proof.
  intros Hsub Hcp Hset Hok. unfold slot_copied in Hcp.
  destruct slot as [l|]; [|by subst].
  destruct Hcp as (l' & x & -> & Hx & Hx' & _). simpl in Hok |- *.
  destruct (request_at h l) as [r0|] eqn:Hr0; simpl in *; [|done].
  assert (r0 = x) as ->.
  { apply (request_at_weaken _ _ _ _ Hsub) in Hr0. congruence. }
  rewrite Hx'. simpl.
  by rewrite (request_deepcopy_settled x (Hset l x eq_refl Hr0)).
Qed.

Lemma response_slot_duplicate (h h' : gmap loc obj) slot slot' :
  h ⊆ h' →
  slot_copied response_at dto_deepcopy (dom h) h' slot slot' →
  (∀ l r, slot = Some l → response_at h l = Some r → response_settled r = true) →
  slot_ok slot (response_value h slot) = true →
  slot_ok slot' (response_value h' slot') = true ∧
  response_value h' slot' = response_value h slot.
Proof.
  intros Hsub Hcp Hset Hok. unfold slot_copied in Hcp.
  destruct slot as [l|]; [|by subst].
  destruct Hcp as (l' & x & -> & Hx & Hx' & _). simpl in Hok |- *.
  destruct (response_at h l) as [r0|] eqn:Hr0; simpl in *; [|done].
  assert (r0 = x) as ->.
  { apply (response_at_weaken _ _ _ _ Hsub) in Hr0. congruence. }
  rewrite Hx'. simpl.
  by rewrite (response_deepcopy_settled x (Hset l x eq_refl Hr0)).
Qed.

Lemma search_slot_duplicate (h h' : gmap loc obj) slot slot' :
  h ⊆ h' →
  slot_copied search_at dto_deepcopy (dom h) h' slot slot' →
  (∀ l x, slot = Some l → search_at h l = Some x →
          dto_dict (dto_deepcopy x) = dto_dict x) →
  slot_ok slot (search_value h slot) = true →
  slot_ok slot' (search_value h' slot') = true ∧
  search_value h' slot' = search_value h slot.
Proof.
  intros Hsub Hcp Hset Hok. unfold slot_copied in Hcp.
  destruct slot as [l|]; [|by subst].
  destruct Hcp as (l' & x & -> & Hx & Hx' & _). simpl in Hok |- *.
  destruct (search_at h l) as [r0|] eqn:Hr0; simpl in *; [|done].
  assert (r0 = x) as ->.
  { apply (search_at_weaken _ _ _ _ Hsub) in Hr0. congruence. }
  rewrite Hx'. simpl. by rewrite (Hset l x eq_refl Hr0).
Qed.

Lemma link_slot_duplicate (h h' : gmap loc obj) slot slot' :
  h ⊆ h' →
  links_copied (dom h) h' slot slot' →
  (∀ l items i x, slot = Some l → list_at h l = Some items → i ∈ items →
          link_at h i = Some x → dto_dict (dto_deepcopy x) = dto_dict x) →
  slot_ok slot (link_value h slot) = true →
  slot_ok slot' (link_value h' slot') = true ∧
  from_option (emitted "link") [] (link_value h' slot')
    = from_option (emitted "link") [] (link_value h slot).
Proof.
  intros Hsub Hcp Hset Hok. unfold links_copied in Hcp.
  destruct slot as [l|]; [|by subst].
  destruct Hcp as (items & Hitems & Hcp). simpl in Hok |- *.
  destruct (list_at h l) as [items0|] eqn:Hl0; simpl in *; [|done].
  assert (items0 = items) as ->.
  { apply (list_at_weaken _ _ _ _ Hsub) in Hl0. congruence. }
  pose proof (λ i x, Hset l items i x eq_refl Hl0) as Hset'. clear Hset.
  destruct (mapM _ items) as [ds|] eqn:Hds; simpl in *; [|done].
  destruct items as [|i items].
  { subst slot'. simpl in Hds. by injection Hds as <-. }
  destruct Hcp as (l' & items' & -> & Hl' & _ & Hall). simpl.
  rewrite Hl'. simpl.
  assert (mapM (λ i, x ← link_at h' i; Some (VDict (dto_dict x))) items'
          = Some ds) as ->; [|done].
  apply mapM_Some in Hds. apply mapM_Some.
  revert Hds Hall Hset'. generalize (i :: items). clear -Hsub.
  intros l Hds. revert items'.
  induction Hds as [|i d l ds Hi Hds IH]; intros items' Hall Hset.
  - inversion Hall. constructor.
  - inversion Hall as [|? i' ? l' (x & Hx & Hx' & _) Hall']; subst.
    constructor.
    + rewrite Hx'. simpl.
      destruct (link_at h i) as [x0|] eqn:Hx0; simpl in Hi; [|done].
      injection Hi as <-.
      assert (x0 = x) as ->.
      { apply (link_at_weaken _ _ _ _ Hsub) in Hx0. congruence. }
      rewrite (Hset i x); [done|set_solver|done].
    + apply IH; [done|]. intros. eapply Hset; eauto. set_solver.
Qed.

End copy_facts.

Section independence_facts.
Context `{Codec} `{!EntryDtos} `{!CompressedDictStorageMode.Default}.
Import Heap.

Lemma elem_of_option_list {A} (x : A) (o : option A) :
  x ∈ option_list o ↔ o = Some x.
Proof.
  destruct o as [y|]; simpl.
  - rewrite list_elem_of_singleton. split; congruence.
  - split; [by intros ?%elem_of_nil|done].
Qed.

Lemma elem_of_refs (h : gmap loc obj) e l :
  l ∈ refs h e ↔
    _resource e = Some l ∨ request e = Some l ∨ response e = Some l ∨
    search e = Some l ∨ link e = Some l ∨
    ∃ ll items, link e = Some ll ∧ list_at h ll = Some items ∧ l ∈ items.
Proof.
  unfold refs. rewrite !elem_of_app, !elem_of_option_list.
  destruct (link e) as [ll|]; simpl.
  - destruct (list_at h ll) as [items|] eqn:Hll; simpl.
    + split.
      * intros [?|[?|[?|[?|[?|?]]]]]; eauto 10.
      * intros [?|[?|[?|[?|[?|(? & ? & [= <-] & Hi & ?)]]]]]; eauto 10.
        rewrite Hll in Hi. injection Hi as <-. eauto 10.
    + rewrite elem_of_nil. split.
      * intros [?|[?|[?|[?|[?|[]]]]]]; eauto 10.
      * intros [?|[?|[?|[?|[?|(? & ? & [= <-] & Hi & ?)]]]]]; eauto 10.
        rewrite Hll in Hi. done.
  - rewrite elem_of_nil. split.
    + intros [?|[?|[?|[?|[?|[]]]]]]; eauto 10.
    + intros [?|[?|[?|[?|[?|(? & ? & ? & ? & ?)]]]]]; eauto 10; done.
Qed.

(** Everything the copy refers to is new *)
Lemma copied_refs_fresh (old : gset loc) (h : gmap loc obj) e e' l :
  copied old h e e' → l ∈ refs h e' → (l ∉ old) ∧ l ∈ dom h.
Proof.
  intros (_ & _ & Hres & Hreq & Hresp & Hlnk & Hsrch).
  rewrite elem_of_refs.
  unfold resource_copied, slot_copied, links_copied in *.
  intros [Hl|[Hl|[Hl|[Hl|[Hl|(ll & items & Hll & Hitems & Hl)]]]]].
  - destruct (_resource e); [|congruence].
    destruct Hres as (r & _ & Hres). destruct (CompressedDict.bool r); [|congruence].
    destruct Hres as (c' & Hc' & Hr & Hf). assert (l = c') as -> by congruence.
    split; [done|]. apply at_Some_dom. eauto.
  - destruct (request e); [|congruence].
    destruct Hreq as (l' & x & Hl' & _ & Hx & Hf).
    assert (l = l') as -> by congruence.
    split; [done|]. apply at_Some_dom. eauto.
  - destruct (response e); [|congruence].
    destruct Hresp as (l' & x & Hl' & _ & Hx & Hf).
    assert (l = l') as -> by congruence.
    split; [done|]. apply at_Some_dom. eauto 10.
  - destruct (search e); [|congruence].
    destruct Hsrch as (l' & x & Hl' & _ & Hx & Hf).
    assert (l = l') as -> by congruence.
    split; [done|]. apply at_Some_dom. eauto 10.
  - destruct (link e); [|congruence].
    destruct Hlnk as (items & _ & Hlnk). destruct items; [congruence|].
    destruct Hlnk as (l' & items' & Hl' & Hx & Hf & _).
    assert (l = l') as -> by congruence.
    split; [done|]. apply at_Some_dom. eauto 10.
  - destruct (link e); [|congruence].
    destruct Hlnk as (items0 & _ & Hlnk). destruct items0; [congruence|].
    destruct Hlnk as (l' & items' & Hl' & Hx & _ & Hall).
    assert (ll = l') as -> by congruence.
    assert (items = items') as -> by congruence.
    apply list_elem_of_lookup in Hl as [n Hn].
    destruct (Forall2_lookup_r _ _ _ _ _ Hall Hn) as (i & _ & x & _ & Hx' & Hf).
    split; [done|]. apply at_Some_dom. eauto 10.
Qed.

(** An entry whose [dict()] returns refers to objects of the store only *)
Lemma readable_refs_dom (h : gmap loc obj) e l :
  readable h e = true → l ∈ refs h e → l ∈ dom h.
Proof.
  unfold readable. rewrite !andb_true_iff.
  intros ((((Hres & Hreq) & Hresp) & Hlnk) & Hsrch).
  rewrite elem_of_refs.
  unfold resource_value, request_value, response_value, link_value,
    search_value in *.
  intros [Hl|[Hl|[Hl|[Hl|[Hl|(ll & items & Hll & Hitems & Hl)]]]]];
    apply at_Some_dom.
  - rewrite Hl in Hres. simpl in Hres.
    destruct (resource_at h l); [eauto|done].
  - rewrite Hl in Hreq. simpl in Hreq.
    destruct (request_at h l); [eauto|done].
  - rewrite Hl in Hresp. simpl in Hresp.
    destruct (response_at h l); [eauto 10|done].
  - rewrite Hl in Hsrch. simpl in Hsrch.
    destruct (search_at h l); [eauto 10|done].
  - rewrite Hl in Hlnk. simpl in Hlnk.
    destruct (list_at h l); [eauto 10|done].
  - rewrite Hll in Hlnk. simpl in Hlnk. rewrite Hitems in Hlnk. simpl in Hlnk.
    destruct (mapM _ items) as [ds|] eqn:Hds; [|done].
    apply mapM_Some in Hds.
    apply list_elem_of_lookup in Hl as [n Hn].
    destruct (Forall2_lookup_l _ _ _ _ _ Hds Hn) as (d & _ & Hd).
    destruct (link_at h l); [eauto 10|done].
Qed.

(** What the setter and a scoped write touch *)
Lemma set_resource_frame self v (h : gmap loc obj) u h' :
  FhirBundleEntry.set_resource self v h = Some (u, h') →
  ∃ e, entry_at h self = Some e ∧
       ∀ l, l ∈ dom h → l ≠ self → _resource e ≠ Some l → h' !! l = h !! l.
Proof.
  unfold FhirBundleEntry.set_resource. intros Hc.
  apply bind_Some in Hc as (e & ? & [He ->]%read_Some & Hc).
  exists e. split; [done|]. intros l Hl Hself Hres.
  assert (∀ r ha hb, write self r ha = Some (u, hb) →
            ha !! l = h !! l → hb !! l = h !! l) as Hw.
  { intros r ha hb [_ ->]%write_Some Ha. by rewrite lookup_insert_ne. }
  destruct v as [|d|c0].
  - by eapply Hw.
  - destruct (_resource e) as [c|].
    + apply bind_Some in Hc as (r & ? & [Hr ->]%read_Some & Hc).
      apply bind_Some in Hc as (r' & ? & [Hr' ->]%lift_Some & Hc).
      apply write_Some in Hc as [_ ->]. rewrite lookup_insert_ne; congruence.
    + apply bind_Some in Hc as (c & ha & Ha & Hc).
      apply FhirResource_spec in Ha as (r & _ & Hn & ->).
      eapply Hw; [exact Hc|]. rewrite lookup_insert_ne; [done|].
      intros ->. apply elem_of_dom in Hl as [? Hl]. congruence.
  - by eapply Hw.
Qed.

Lemma transaction_setitem_frame c k v (h : gmap loc obj) u h' :
  transaction_setitem c k v h = Some (u, h') →
  ∀ l, l ≠ c → h' !! l = h !! l.
Proof.
  unfold transaction_setitem. intros Hc l Hl.
  apply bind_Some in Hc as (r & ? & [Hr ->]%read_Some & Hc).
  apply bind_Some in Hc as (r1 & ? & [Hr1 ->]%lift_Some & Hc).
  apply bind_Some in Hc as (r2 & ? & [Hr2 ->]%lift_Some & Hc).
  apply bind_Some in Hc as (r3 & ? & [Hr3 ->]%lift_Some & Hc).
  apply write_Some in Hc as [_ ->]. by rewrite lookup_insert_ne.
Qed.

Lemma refs_agree (h h' : gmap loc obj) e :
  (∀ l, l ∈ refs h e → h' !! l = h !! l) → refs h' e = refs h e.
Proof.
  intros Hag. unfold refs. do 5 f_equal.
  destruct (link e) as [ll|] eqn:Hll; simpl; [|done].
  rewrite (list_at_agree h h'); [done|].
  apply Hag, elem_of_refs. eauto 10.
Qed.

(** C4. [copy()] (which is [copy.deepcopy]) returns a new entry [c] that
    refers to new objects only and leaves every object of the store as it
    was. It is a duplicate: for an original whose parts are in the state
    their constructors leave them, [dict()] of the copy is [dict()] of the
    original. It is independent: whatever happens to the store, as long as
    the objects of the copy are left alone, the slots of the copy, the
    objects they refer to and [dict()] of the copy stay the same, and so in
    particular after an assignment to the [resource] property of the
    original or a write to its container under a transaction scope. Vice
    versa, whatever leaves the objects that existed before the copy alone,
    such as the same operations on the copy, leaves the slots and [dict()]
    of the original the same. *)
Theorem copy_is_independent_duplicate (h : gmap loc obj) self c h' :
  FhirBundleEntry.copy self h = Some (c, h') →
  ∃ e e',
    entry_at h self = Some e ∧ entry_at h' c = Some e' ∧
    (c ∉ dom h) ∧ (∀ l, l ∈ refs h' e' → l ∉ dom h) ∧
    (∀ l, l ∈ dom h → h' !! l = h !! l) ∧
    (∀ od, settled h e →
       FhirBundleEntry.dict h self = Some od →
       FhirBundleEntry.dict h' c = Some od) ∧
    (∀ h'', (∀ l, l = c ∨ l ∈ refs h' e' → h'' !! l = h' !! l) →
       entry_at h'' c = Some e' ∧ refs h'' e' = refs h' e' ∧
       FhirBundleEntry.dict h'' c = FhirBundleEntry.dict h' c) ∧
    (∀ v u h'', FhirBundleEntry.set_resource self v h' = Some (u, h'') →
       entry_at h'' c = Some e' ∧
       FhirBundleEntry.dict h'' c = FhirBundleEntry.dict h' c) ∧
    (∀ c0 k v u h'', _resource e = Some c0 →
       transaction_setitem c0 k v h' = Some (u, h'') →
       entry_at h'' c = Some e' ∧
       FhirBundleEntry.dict h'' c = FhirBundleEntry.dict h' c) ∧
    (∀ h'', (∀ l, l ∈ dom h → h'' !! l = h' !! l) →
       entry_at h'' self = Some e ∧
       ∀ od, FhirBundleEntry.dict h self = Some od →
             FhirBundleEntry.dict h'' self = Some od) ∧
    (∀ v u h'', FhirBundleEntry.set_resource c v h' = Some (u, h'') →
       entry_at h'' self = Some e ∧
       ∀ od, FhirBundleEntry.dict h self = Some od →
             FhirBundleEntry.dict h'' self = Some od) ∧
    (∀ c' k v u h'', _resource e' = Some c' →
       transaction_setitem c' k v h' = Some (u, h'') →
       entry_at h'' self = Some e ∧
       ∀ od, FhirBundleEntry.dict h self = Some od →
             FhirBundleEntry.dict h'' self = Some od).
Proof.
  unfold FhirBundleEntry.copy.
  intros (e & e' & He & He' & Hsub & Hc & Hcp & Hres0)%deepcopy_spec.
  exists e, e'.
  assert (∀ l, l ∈ refs h' e' → (l ∉ dom h) ∧ l ∈ dom h') as Hfresh
    by (intros l; apply (copied_refs_fresh _ _ e e' l Hcp)).
  assert (∀ l, l ∈ dom h → h' !! l = h !! l) as Hold.
  { intros l [o Hl]%elem_of_dom. rewrite Hl. by apply (lookup_weaken h). }
  assert (self ∈ dom h) as Hself by (apply at_Some_dom; eauto 10).
  assert (c ∈ dom h') as Hcdom by (apply at_Some_dom; eauto 10).
  assert (entry_at h' self = Some e) as He1
    by (by apply (entry_at_weaken h)).
  (* independence of the copy *)
  assert (∀ h'', (∀ l, l = c ∨ l ∈ refs h' e' → h'' !! l = h' !! l) →
       entry_at h'' c = Some e' ∧ refs h'' e' = refs h' e' ∧
       FhirBundleEntry.dict h'' c = FhirBundleEntry.dict h' c) as Hframe.
  { intros h'' Hag. split; [|split].
    - rewrite (entry_at_agree h' h''); [done|]. apply Hag. by left.
    - apply refs_agree. intros l Hl. apply Hag. by right.
    - apply entry_dict_agree; [apply Hag; by left|].
      intros e0 He0 l Hl. apply Hag. right. congruence. }
  (* independence of the original *)
  assert (∀ h'', (∀ l, l ∈ dom h → h'' !! l = h' !! l) →
       entry_at h'' self = Some e ∧
       ∀ od, FhirBundleEntry.dict h self = Some od →
             FhirBundleEntry.dict h'' self = Some od) as Hframe'.
  { intros h'' Hag.
    assert (∀ l, l ∈ dom h → h'' !! l = h !! l) as Hag'
      by (intros l Hl; rewrite Hag, Hold; done).
    split.
    - rewrite (entry_at_agree h h''); [done|]. by apply Hag'.
    - intros od Hd. rewrite <-Hd. apply entry_dict_agree; [by apply Hag'|].
      intros e0 He0 l Hl. apply Hag'.
      rewrite entry_dict_unfold, He0 in Hd. simpl in Hd.
      destruct (readable h e0) eqn:Hr; [|done].
      by eapply readable_refs_dom. }
  split; [done|]. split; [done|]. split; [done|].
  split; [intros l Hl; by apply Hfresh|]. split; [done|].
  split; [|split; [done|split; [|split; [|split; [done|split]]]]].
  - (* duplicate *)
    intros od (Sreq & Sresp & Sres & Slnk & Ssrch) Hd.
    rewrite entry_dict_unfold, He in Hd. simpl in Hd.
    destruct (readable h e) eqn:Hr; [|done]. injection Hd as <-.
    unfold readable in Hr. rewrite !andb_true_iff in Hr.
    destruct Hr as ((((Rres & Rreq) & Rresp) & Rlnk) & Rsrch).
    destruct Hcp as (Hfu & _ & Cres & Creq & Cresp & Clnk & Csrch).
    destruct (resource_slot_duplicate h h' _ _ Hsub Cres Sres Rres) as [O1 E1].
    destruct (request_slot_duplicate h h' _ _ Hsub Creq Sreq Rreq) as [O2 E2].
    destruct (response_slot_duplicate h h' _ _ Hsub Cresp Sresp Rresp) as [O3 E3].
    destruct (link_slot_duplicate h h' _ _ Hsub Clnk Slnk Rlnk) as [O4 E4].
    destruct (search_slot_duplicate h h' _ _ Hsub Csrch Ssrch Rsrch) as [O5 E5].
    rewrite entry_dict_unfold, He'. simpl.
    unfold readable. rewrite O1, O2, O3, O4, O5. simpl.
    unfold entry_emitted. by rewrite Hfu, E1, E2, E3, E4, E5.
  - (* the setter on the original *)
    intros v u h'' (e0 & He0 & Hset)%set_resource_frame.
    assert (e0 = e) as -> by congruence.
    assert (∀ l, l = c ∨ l ∈ refs h' e' → h'' !! l = h' !! l) as Hag.
    { intros l Hl.
      assert ((l ∉ dom h) ∧ l ∈ dom h') as [Hn Hd]
        by (destruct Hl as [->|Hl]; [done|by apply Hfresh]).
      apply Hset; [done|congruence|]. intros Hr. by apply Hn, Hres0. }
    by destruct (Hframe h'' Hag) as (? & _ & ?).
  - (* a scoped write to the container of the original *)
    intros c0 k v u h'' Hc0 Hw.
    assert (∀ l, l = c ∨ l ∈ refs h' e' → h'' !! l = h' !! l) as Hag.
    { intros l Hl.
      assert ((l ∉ dom h) ∧ l ∈ dom h') as [Hn Hd]
        by (destruct Hl as [->|Hl]; [done|by apply Hfresh]).
      apply (transaction_setitem_frame _ _ _ _ _ _ Hw).
      intros ->. by apply Hn, Hres0. }
    by destruct (Hframe h'' Hag) as (? & _ & ?).
  - (* the setter on the copy *)
    intros v u h'' (e0 & He0 & Hset)%set_resource_frame.
    assert (e0 = e') as -> by congruence.
    apply Hframe'. intros l Hl. apply Hset.
    + by apply (subseteq_dom _ _ Hsub).
    + congruence.
    + intros Hr. assert (l ∈ refs h' e') as Hin
        by (apply elem_of_refs; eauto).
      by apply Hfresh in Hin as [Hn _].
  - (* a scoped write to the container of the copy *)
    intros c' k v u h'' Hc' Hw. apply Hframe'. intros l Hl.
    apply (transaction_setitem_frame _ _ _ _ _ _ Hw). intros ->.
    assert (c' ∈ refs h' e') as Hin by (apply elem_of_refs; eauto).
    by apply Hfresh in Hin as [Hn _].
Qed.

End independence_facts.

(** ** Which entries a computation leaves in the store *)

Section entries_facts.
Context `{Codec} `{!EntryDtos} `{!CompressedDictStorageMode.Default}.
Import Heap.

Lemma keeps_ret {A} (a : A) : keeps_entries (ret a).
Proof. by intros h b h' [-> ->]%ret_Some. Qed.

Lemma keeps_lift {A} (o : option A) : keeps_entries (lift o).
Proof. by intros h b h' [_ ->]%lift_Some. Qed.

Lemma keeps_read {A} (f : gmap loc obj → option A) : keeps_entries (read f).
Proof. by intros h b h' [_ ->]%read_Some. Qed.

Lemma keeps_bind {A B} (c : M A) (k : A → M B) :
  keeps_entries c → (∀ a, keeps_entries (k a)) → keeps_entries (bind c k).
Proof.
  intros Hc Hk h b h' (a & h1 & Ha & Hb)%bind_Some l.
  rewrite (Hk a _ _ _ Hb). by apply (Hc _ _ _ Ha).
Qed.

Lemma keeps_alloc o : is_entry o = false → keeps_entries (alloc o).
Proof.
  intros Ho h l h' [-> ->]%alloc_Some l0. unfold entry_at.
  destruct (decide (l0 = fresh (dom h))) as [->|Hne].
  - rewrite lookup_insert_eq, fresh_None. by destruct o.
  - by rewrite lookup_insert_ne.
Qed.

Lemma keeps_for_each {A B} (f : A → M B) l :
  (∀ x, keeps_entries (f x)) → keeps_entries (FhirBundleEntry.for_each f l).
Proof.
  intros Hf. induction l as [|x l IH]; simpl; [apply keeps_ret|].
  apply keeps_bind; [done|]. intros y.
  apply keeps_bind; [done|]. intros ys. apply keeps_ret.
Qed.

Lemma adds_bind {A} (c : M A) (k : A → M loc) :
  keeps_entries c → (∀ a, adds_entry (k a)) → adds_entry (bind c k).
Proof.
  intros Hc Hk h b h' (a & h1 & Ha & Hb)%bind_Some l Hl.
  rewrite (Hk a _ _ _ Hb) by done. by apply (Hc _ _ _ Ha).
Qed.

Lemma adds_alloc o : adds_entry (alloc o).
Proof.
  intros h l h' [-> ->]%alloc_Some l0 Hl0. unfold entry_at.
  by rewrite lookup_insert_ne.
Qed.

End entries_facts.

Ltac solve_keeps :=
  repeat first
    [ apply keeps_ret | apply keeps_lift | apply keeps_read
    | apply keeps_alloc; reflexivity
    | apply keeps_for_each; intros ?
    | apply keeps_bind; [|intros ?]
    | match goal with
      | |- keeps_entries (if ?b then _ else _) => destruct b
      | |- keeps_entries (match ?x with _ => _ end) => destruct x
      end ].

Section entries_of_operations.
Context `{Codec} `{!EntryDtos} `{!CompressedDictStorageMode.Default}.
Import Heap.

Lemma init_adds_entry fu ra rq rp ln sr sm :
  adds_entry (FhirBundleEntry.init fu ra rq rp ln sr sm).
Proof.
  unfold FhirBundleEntry.init. apply adds_bind; [|intros ?; apply adds_alloc].
  unfold FhirBundleEntry.FhirResource. solve_keeps.
Qed.

Lemma from_dict_adds_entry d m : adds_entry (FhirBundleEntry.from_dict d m).
Proof.
  unfold FhirBundleEntry.from_dict.
  do 5 (apply adds_bind;
        [unfold FhirBundleEntry.FhirResource; solve_keeps|intros ?]).
  apply init_adds_entry.
Qed.

Lemma deepcopy_adds_entry self : adds_entry (FhirBundleEntry.deepcopy self).
Proof.
  unfold FhirBundleEntry.deepcopy, FhirBundleEntry.deepcopy_slot.
  do 6 (apply adds_bind; [solve_keeps|intros ?]).
  apply init_adds_entry.
Qed.

End entries_of_operations.

(** ** Who holds a container *)

Section ownership_facts.
Context `{Codec} `{!EntryDtos} `{!CompressedDictStorageMode.Default}.
Import Heap.

Lemma entry_at_insert_entry (h : gmap loc obj) self ent :
  entry_at (<[self:=OEntry ent]> h) self = Some ent.
Proof. unfold entry_at. by rewrite lookup_insert_eq. Qed.

Lemma entry_at_insert_ne (h : gmap loc obj) l o l0 :
  l0 ≠ l → entry_at (<[l:=o]> h) l0 = entry_at h l0.
Proof. intros Hne. unfold entry_at. by rewrite lookup_insert_ne. Qed.

Lemma entry_at_insert_resource (h : gmap loc obj) c r l :
  entry_at h c = None → entry_at (<[c:=OResource r]> h) l = entry_at h l.
Proof.
  intros Hc. destruct (decide (l = c)) as [->|Hne].
  - rewrite Hc. unfold entry_at. by rewrite lookup_insert_eq.
  - by apply entry_at_insert_ne.
Qed.

Lemma entry_at_None_fresh (h : gmap loc obj) l : h !! l = None → entry_at h l = None.
Proof. unfold entry_at. by intros ->. Qed.

Lemma resource_at_entry_at (h : gmap loc obj) c r :
  resource_at h c = Some r → entry_at h c = None.
Proof. unfold resource_at, entry_at. by destruct (h !! c) as [[]|]. Qed.

(** One entry more or changed, holding nothing or a container that did not
    exist before *)
Lemma ownership_add (h h' : gmap loc obj) self ent :
  (∀ l, l ≠ self → entry_at h' l = entry_at h l) →
  entry_at h' self = Some ent →
  dom h ⊆ dom h' →
  (∀ c, _resource ent = Some c → (c ∉ dom h) ∧ c ∈ dom h') →
  containers_live h → exclusively_owned h →
  containers_live h' ∧ exclusively_owned h' ∧
  ∀ c, holds h' self c → c ∉ dom h.
Proof.
  intros Hothers Hself Hdom Hres Hlive Hexcl.
  assert (∀ e c, holds h' e c →
            (e = self ∧ _resource ent = Some c) ∨ (e ≠ self ∧ holds h e c))
    as Hcases.
  { intros e c (ent' & He & Hc). destruct (decide (e = self)) as [->|Hne].
    - left. split; [done|]. congruence.
    - right. split; [done|]. exists ent'. by rewrite <-Hothers. }
  split; [|split].
  - intros e c [[-> Hc]|[_ Hh]]%Hcases.
    + by apply Hres.
    + specialize (Hlive e c Hh). set_solver.
  - intros e1 e2 c [[-> Hc1]|[Hn1 Hh1]]%Hcases [[-> Hc2]|[Hn2 Hh2]]%Hcases.
    + done.
    + destruct (Hres c Hc1) as [Hf _]. exfalso. apply Hf. by apply (Hlive e2 c).
    + destruct (Hres c Hc2) as [Hf _]. exfalso. apply Hf. by apply (Hlive e1 c).
    + by apply (Hexcl e1 e2 c).
  - intros c [[_ Hc]|[Hn _]]%Hcases; [by apply Hres|done].
Qed.

(** An entry that lets go of its container *)
Lemma ownership_drop (h h' : gmap loc obj) self ent :
  (∀ l, l ≠ self → entry_at h' l = entry_at h l) →
  entry_at h' self = Some ent → _resource ent = None →
  dom h ⊆ dom h' →
  containers_live h → exclusively_owned h →
  containers_live h' ∧ exclusively_owned h'.
Proof.
  intros Hothers Hself Hres Hdom Hlive Hexcl.
  assert (∀ e c, holds h' e c → e ≠ self ∧ holds h e c) as Hcases.
  { intros e c (ent' & He & Hc). destruct (decide (e = self)) as [->|Hne].
    - congruence.
    - split; [done|]. exists ent'. by rewrite <-Hothers. }
  split.
  - intros e c [_ Hh]%Hcases. specialize (Hlive e c Hh). set_solver.
  - intros e1 e2 c [_ Ha]%Hcases [_ Hb]%Hcases. by apply (Hexcl e1 e2 c).
Qed.

Lemma set_resource_spec self v (h : gmap loc obj) u h' :
  FhirBundleEntry.set_resource self v h = Some (u, h') →
  ∃ e, entry_at h self = Some e ∧
    let assigned r :=
      OEntry {| _resource := r; request := request e; response := response e;
                fullUrl := fullUrl e; link := link e; search := search e;
                storage_mode := storage_mode e |} in
    match v with
    | FhirBundleEntry.ResNone => h' = <[self := assigned None]> h
    | FhirBundleEntry.ResContainer c => h' = <[self := assigned (Some c)]> h
    | FhirBundleEntry.ResDict d =>
        match _resource e with
        | Some c => ∃ r r', resource_at h c = Some r ∧
                            CompressedDict.replace r d = Some r' ∧
                            h' = <[c := OResource r']> h
        | None => ∃ c r, CompressedDict.construct d (storage_mode e) = Some r ∧
                         h !! c = None ∧
                         h' = <[self := assigned (Some c)]> (<[c := OResource r]> h)
        end
    end.
Proof.
  unfold FhirBundleEntry.set_resource. intros Hc.
  apply bind_Some in Hc as (e & ? & [He ->]%read_Some & Hc).
  exists e. split; [done|]. cbv zeta.
  destruct v as [|d|c0].
  - by apply write_Some in Hc as [_ ->].
  - destruct (_resource e) as [c|].
    + apply bind_Some in Hc as (r & ? & [Hr ->]%read_Some & Hc).
      apply bind_Some in Hc as (r' & ? & [Hr' ->]%lift_Some & Hc).
      apply write_Some in Hc as [_ ->]. by exists r, r'.
    + apply bind_Some in Hc as (c & ha & Ha & Hc).
      apply FhirResource_spec in Ha as (r & Hr & Hn & ->).
      apply write_Some in Hc as [_ ->]. by exists c, r.
  - by apply write_Some in Hc as [_ ->].
Qed.

End ownership_facts.

(** ** [from_dict] *)

Section from_dict_facts.
Context `{Codec} `{!EntryDtos} `{!CompressedDictStorageMode.Default}.
Import Heap.

Lemma build_links_spec (vs : list value) (h : gmap loc obj) ls h1 :
  FhirBundleEntry.for_each
    (λ v, x <- lift (mbind (M:=option) (dto_from_dict (T:=FhirLink))
                       (FhirBundleEntry.as_mapping v)) ;;
          alloc (OLink x)) vs h = Some (ls, h1) →
  h ⊆ h1 ∧
  Forall2 (λ v i, ∃ x, (m ← FhirBundleEntry.as_mapping v; dto_from_dict m)
                         = Some x ∧
                       link_at h1 i = Some x) vs ls.
Proof.
  revert h ls h1. induction vs as [|v vs IH]; intros h ls h1 Hc; simpl in Hc.
  - apply ret_Some in Hc as [-> ->]. split; [done|constructor].
  - apply bind_Some in Hc as (l' & ha & Hstep & Hc).
    apply bind_Some in Hstep as (x & ? & [Hx ->]%lift_Some & Ha).
    apply bind_Some in Hc as (ls' & hb & Hrest & [-> ->]%ret_Some).
    apply alloc_spec in Ha as (Hn & Hl & Hsub & _).
    apply IH in Hrest as [Hsub' Hall]. split; [by etrans|].
    constructor; [|done]. exists x. split; [done|].
    apply (link_at_weaken ha); [done|]. unfold link_at. by rewrite Hl.
Qed.

Lemma from_dict_spec d m (h : gmap loc obj) self h' :
  FhirBundleEntry.from_dict d m h = Some (self, h') →
  ∃ e, entry_at h' self = Some e ∧ h ⊆ h' ∧ (self ∉ dom h) ∧
       built_from d m (dom h) h' e.
Proof.
  unfold FhirBundleEntry.from_dict. intros Hc. cbv zeta in Hc.
  apply bind_Some in Hc as (ra & h1 & Hres & Hc).
  apply bind_Some in Hc as (rq & h2 & Hreq & Hc).
  apply bind_Some in Hc as (rp & h3 & Hresp & Hc).
  apply bind_Some in Hc as (ln & h4 & Hlnk & Hc).
  apply bind_Some in Hc as (sr & h5 & Hsrch & Hc).
  assert (h ⊆ h1 ∧
          if contains d "resource"
          then ∃ c rd r, ra = FhirBundleEntry.ResContainer c ∧ (c ∉ dom h) ∧
                 FhirBundleEntry.item_as Some d "resource" = Some rd ∧
                 CompressedDict.construct rd m = Some r ∧
                 resource_at h1 c = Some r
          else ra = FhirBundleEntry.ResNone) as [S1 Hra].
  { destruct (contains d "resource").
    - apply bind_Some in Hres as (rd & ? & [Hrd ->]%lift_Some & Hres).
      apply bind_Some in Hres as (c & ? & Ha & [-> ->]%ret_Some).
      apply FhirResource_spec in Ha as (r & Hr & Hn & ->).
      split; [by apply insert_subseteq|]. exists c, rd, r.
      split; [done|]. split; [by apply not_elem_of_dom|].
      split; [done|]. split; [done|].
      unfold resource_at. by rewrite lookup_insert_eq.
    - by apply ret_Some in Hres as [-> ->]. }
  assert (h1 ⊆ h2 ∧
          if contains d "request"
          then ∃ l r, rq = Some l ∧
                 FhirBundleEntry.item_as FhirBundleEntryRequest.from_dict d "request"
                   = Some r ∧ request_at h2 l = Some r
          else rq = None) as [S2 Hrq].
  { destruct (contains d "request").
    - apply bind_Some in Hreq as (r & ? & [Hr ->]%lift_Some & Hreq).
      apply bind_Some in Hreq as (l & ? & Ha & [-> ->]%ret_Some).
      apply alloc_spec in Ha as (Hn & Hl & Hsub & _).
      split; [done|]. exists l, r. split; [done|]. split; [done|].
      unfold request_at. by rewrite Hl.
    - by apply ret_Some in Hreq as [-> ->]. }
  assert (h2 ⊆ h3 ∧
          if contains d "response"
          then ∃ l r, rp = Some l ∧
                 FhirBundleEntry.item_with FhirBundleEntryResponse.from_dict_any
                   d "response" = Some r ∧ response_at h3 l = Some r
          else rp = None) as [S3 Hrp].
  { destruct (contains d "response").
    - apply bind_Some in Hresp as (r & ? & [Hr ->]%lift_Some & Hresp).
      apply bind_Some in Hresp as (l & ? & Ha & [-> ->]%ret_Some).
      apply alloc_spec in Ha as (Hn & Hl & Hsub & _).
      split; [done|]. exists l, r. split; [done|]. split; [done|].
      unfold response_at. by rewrite Hl.
    - by apply ret_Some in Hresp as [-> ->]. }
  assert (h3 ⊆ h4 ∧
          if contains d "link"
          then ∃ l vs items, ln = Some l ∧
                 (v ← getitem d "link"; FhirBundleEntry.iterate v) = Some vs ∧
                 list_at h4 l = Some items ∧
                 Forall2 (λ v i, ∃ x,
                   (m ← FhirBundleEntry.as_mapping v; dto_from_dict m) = Some x ∧
                   link_at h4 i = Some x) vs items
          else ln = None) as [S4 Hln].
  { destruct (contains d "link").
    - apply bind_Some in Hlnk as (vs & ? & [Hvs ->]%lift_Some & Hlnk).
      apply bind_Some in Hlnk as (items & ha & Hitems & Hlnk).
      apply bind_Some in Hlnk as (l & ? & Ha & [-> ->]%ret_Some).
      apply build_links_spec in Hitems as [Hsub Hall].
      apply alloc_spec in Ha as (Hn & Hl & Hsub' & _).
      split; [by etrans|]. exists l, vs, items.
      split; [done|]. split; [done|]. split.
      + unfold list_at. by rewrite Hl.
      + eapply Forall2_impl; [exact Hall|]. simpl.
        intros v i (y & Hy & Hi). exists y. split; [done|].
        by apply (link_at_weaken ha).
    - by apply ret_Some in Hlnk as [-> ->]. }
  assert (h4 ⊆ h5 ∧
          if contains d "search"
          then ∃ l s, sr = Some l ∧
                 FhirBundleEntry.item_as dto_from_dict d "search" = Some s ∧
                 search_at h5 l = Some s
          else sr = None) as [S5 Hsr].
  { destruct (contains d "search").
    - apply bind_Some in Hsrch as (s & ? & [Hs ->]%lift_Some & Hsrch).
      apply bind_Some in Hsrch as (l & ? & Ha & [-> ->]%ret_Some).
      apply alloc_spec in Ha as (Hn & Hl & Hsub & _).
      split; [done|]. exists l, s. split; [done|]. split; [done|].
      unfold search_at. by rewrite Hl.
    - by apply ret_Some in Hsrch as [-> ->]. }
  apply init_spec in Hc as (res & hx & Hn & -> & Hc). simpl in Hc.
  assert (res = match ra with
                | FhirBundleEntry.ResContainer c' => Some c' | _ => None
                end ∧ hx = h5) as [-> ->].
  { destruct ra as [|rd|c']; try (by destruct Hc).
    exfalso. destruct (contains d "resource"); [|done].
    by destruct Hra as (? & ? & ? & ? & _). }
  clear Hc.
  set (e := {| _resource := _ |}).
  assert (h5 ⊆ <[self:=OEntry e]> h5) as U5 by (by apply insert_subseteq).
  set (h' := <[self:=_]> h5) in *.
  assert (h4 ⊆ h') as U4 by (by etrans).
  assert (h3 ⊆ h') as U3 by (by etrans).
  assert (h2 ⊆ h') as U2 by (by etrans).
  assert (h1 ⊆ h') as U1 by (by etrans).
  assert (h ⊆ h2) as T2 by (by etrans).
  assert (h ⊆ h3) as T3 by (by etrans).
  assert (h ⊆ h4) as T4 by (by etrans).
  assert (h ⊆ h5) as T5 by (by etrans).
  exists e. split; [apply entry_at_insert_entry|].
  split; [by etrans|]. split.
  { eapply not_elem_of_dom_weaken; [exact T5|]. by apply not_elem_of_dom. }
  unfold built_from, e; simpl. split; [done|]. split; [done|].
  split; [|split; [|split; [|split]]].
  - destruct (contains d "resource"); [|by subst].
    destruct Hra as (c & rd & r & -> & Hf & Hrd & Hr & Hc).
    exists c, rd, r. eauto 10 using resource_at_weaken.
  - destruct (contains d "request"); [|done].
    destruct Hrq as (l & r & -> & Hr & Hl).
    exists l, r. eauto using request_at_weaken.
  - destruct (contains d "response"); [|done].
    destruct Hrp as (l & r & -> & Hr & Hl).
    exists l, r. eauto using response_at_weaken.
  - destruct (contains d "link"); [|done].
    destruct Hln as (l & vs & items & -> & Hvs & Hl & Hall).
    exists l, vs, items. split; [done|]. split; [done|].
    split; [by apply (list_at_weaken h4)|].
    eapply Forall2_impl; [exact Hall|]. simpl.
    intros v i (y & Hy & Hi). exists y. split; [done|].
    by apply (link_at_weaken h4).
  - destruct (contains d "search"); [|done].
    destruct Hsr as (l & s & -> & Hs & Hl).
    exists l, s. eauto using search_at_weaken.
Qed.

End from_dict_facts.

(** ** Ownership of the container *)

Section ownership_theorems.
Context `{Codec} `{!EntryDtos} `{!CompressedDictStorageMode.Default}.
Import Heap.

Lemma ownership_same (h h' : gmap loc obj) :
  (∀ l, entry_at h' l = entry_at h l) → dom h ⊆ dom h' →
  containers_live h → exclusively_owned h →
  containers_live h' ∧ exclusively_owned h'.
Proof.
  intros Hsame Hdom Hlive Hexcl.
  assert (∀ e c, holds h' e c → holds h e c) as Hh.
  { intros e c (ent & He & Hc). exists ent. by rewrite <-Hsame. }
  split.
  - intros e c Hx%Hh. specialize (Hlive e c Hx). set_solver.
  - intros e1 e2 c Ha%Hh Hb%Hh. by apply (Hexcl e1 e2 c).
Qed.

Lemma holds_weaken (h h' : gmap loc obj) e c :
  h ⊆ h' → holds h e c → holds h' e c.
Proof. intros Hsub (ent & He & Hc). exists ent. eauto using entry_at_weaken. Qed.

Lemma init_subseteq fu ra rq rp ln sr sm (h : gmap loc obj) self h' :
  FhirBundleEntry.init fu ra rq rp ln sr sm h = Some (self, h') →
  h ⊆ h' ∧ (self ∉ dom h).
Proof.
  intros (res & h1 & Hn & -> & Hra)%init_spec.
  assert (h ⊆ h1) as Hsub.
  { destruct ra as [|d|c].
    - by destruct Hra as [_ ->].
    - destruct Hra as (c & r & _ & _ & Hc & ->). by apply insert_subseteq.
    - by destruct Hra as [_ ->]. }
  split.
  - etrans; [exact Hsub|]. by apply insert_subseteq.
  - eapply not_elem_of_dom_weaken; [exact Hsub|]. by apply not_elem_of_dom.
Qed.

(** C5, as the code has it. An entry owns its container exclusively when the
    entry creates it: after the constructor called with a plain mapping (or
    [None]), after [from_dict], after [copy()] and after a plain mapping (or
    [None]) is assigned to the [resource] property, no container is held by
    two entries, given that this was so before, and the container of the new
    entry is an object that did not exist before the call, so that no caller
    holds it. A container instance passed to the constructor or assigned to
    the property is stored as it is: the entry holds that very instance,
    along with the entries that already held it. *)
Theorem container_owned_when_created :
  (∀ fu ra rq rp ln sr sm (h : gmap loc obj) self h',
     (∀ c, ra ≠ FhirBundleEntry.ResContainer c) →
     containers_live h → exclusively_owned h →
     FhirBundleEntry.init fu ra rq rp ln sr sm h = Some (self, h') →
     containers_live h' ∧ exclusively_owned h' ∧
     ∀ c, holds h' self c → c ∉ dom h) ∧
  (∀ d m (h : gmap loc obj) self h',
     containers_live h → exclusively_owned h →
     FhirBundleEntry.from_dict d m h = Some (self, h') →
     containers_live h' ∧ exclusively_owned h' ∧
     ∀ c, holds h' self c → c ∉ dom h) ∧
  (∀ self (h : gmap loc obj) c h',
     containers_live h → exclusively_owned h →
     FhirBundleEntry.copy self h = Some (c, h') →
     containers_live h' ∧ exclusively_owned h' ∧
     ∀ c', holds h' c c' → c' ∉ dom h) ∧
  (∀ self v (h : gmap loc obj) u h',
     (∀ c, v ≠ FhirBundleEntry.ResContainer c) →
     containers_live h → exclusively_owned h →
     FhirBundleEntry.set_resource self v h = Some (u, h') →
     containers_live h' ∧ exclusively_owned h') ∧
  (∀ fu c rq rp ln sr sm (h : gmap loc obj) self h',
     FhirBundleEntry.init fu (FhirBundleEntry.ResContainer c) rq rp ln sr sm h
       = Some (self, h') →
     holds h' self c ∧ ∀ e, holds h e c → holds h' e c) ∧
  (∀ self c (h : gmap loc obj) u h',
     FhirBundleEntry.set_resource self (FhirBundleEntry.ResContainer c) h
       = Some (u, h') →
     holds h' self c ∧ ∀ e, e ≠ self → holds h e c → holds h' e c).
Proof.
  split; [|split; [|split; [|split; [|split]]]].
  - intros fu ra rq rp ln sr sm h self h' Hra Hlive Hexcl Hc.
    pose proof (init_adds_entry _ _ _ _ _ _ _ _ _ _ Hc) as Hothers.
    destruct (init_subseteq _ _ _ _ _ _ _ _ _ _ Hc) as [Hsub Hself].
    apply init_spec in Hc as (res & h1 & Hn & -> & Hres).
    eapply (ownership_add h _ self);
      [done|apply entry_at_insert_entry|by apply subseteq_dom| |done|done].
    simpl. intros c ->. destruct ra as [|d|c0].
    + by destruct Hres.
    + destruct Hres as (c1 & r & [= <-] & _ & Hf & ->).
      split; [by apply not_elem_of_dom|].
      rewrite !dom_insert_L. set_solver.
    + by destruct (Hra c0).
  - intros d m h self h' Hlive Hexcl Hc.
    pose proof (from_dict_adds_entry _ _ _ _ _ Hc) as Hothers.
    apply from_dict_spec in Hc as (e & He & Hsub & Hself & Hb).
    eapply (ownership_add h _ self);
      [done|exact He|by apply subseteq_dom| |done|done].
    intros c Hc. destruct Hb as (_ & _ & Hres & _).
    destruct (contains d "resource"); [|congruence].
    destruct Hres as (c1 & rd & r & Hc1 & Hf & _ & _ & Hr).
    assert (c = c1) as -> by congruence.
    split; [done|]. apply at_Some_dom. eauto.
  - intros self h c h' Hlive Hexcl Hc. unfold FhirBundleEntry.copy in Hc.
    pose proof (deepcopy_adds_entry _ _ _ _ Hc) as Hothers.
    apply deepcopy_spec in Hc as (e & e' & He & He' & Hsub & Hself & Hcp & _).
    eapply (ownership_add h _ c);
      [done|exact He'|by apply subseteq_dom| |done|done].
    intros c' Hc'. apply (copied_refs_fresh _ _ e e' c' Hcp).
    apply elem_of_refs. eauto.
  - intros self v h u h' Hv Hlive Hexcl Hc.
    apply set_resource_spec in Hc as (e & He & Hc). cbv zeta in Hc.
    destruct v as [|d|c0]; [| |by destruct (Hv c0)].
    + subst h'.
      eapply (ownership_drop h _ self);
        [intros l Hl; by apply entry_at_insert_ne
        |apply entry_at_insert_entry
        |done
        |rewrite dom_insert_L; set_solver
        |done|done].
    + destruct (_resource e) as [c|] eqn:Hres.
      * destruct Hc as (r & r' & Hr & _ & ->).
        apply (ownership_same h); [| |done|done].
        -- intros l. apply entry_at_insert_resource.
           by eapply resource_at_entry_at.
        -- rewrite dom_insert_L. set_solver.
      * destruct Hc as (c & r & _ & Hf & ->).
        assert (self ≠ c) as Hne.
        { intros ->. unfold entry_at in He. by rewrite Hf in He. }
        match goal with
        | |- containers_live ?x ∧ _ =>
            cut (containers_live x ∧ exclusively_owned x ∧
                 ∀ c1, holds x self c1 → c1 ∉ dom h);
              [intros (? & ? & _); by split|]
        end.
        eapply (ownership_add h _ self);
          [|apply entry_at_insert_entry| | |done|done].
        -- intros l Hl. rewrite entry_at_insert_ne by done.
           apply entry_at_insert_resource. by apply entry_at_None_fresh.
        -- rewrite !dom_insert_L. set_solver.
        -- simpl. intros c1 [= <-]. split; [by apply not_elem_of_dom|].
           rewrite !dom_insert_L. set_solver.
  - intros fu c rq rp ln sr sm h self h' Hc.
    destruct (init_subseteq _ _ _ _ _ _ _ _ _ _ Hc) as [Hsub _].
    apply init_spec in Hc as (res & h1 & Hn & -> & [-> ->]).
    split; [|intros e; by apply holds_weaken].
    eexists. split; [apply entry_at_insert_entry|done].
  - intros self c h u h' Hc.
    apply set_resource_spec in Hc as (e & He & ->). cbv zeta.
    split.
    + eexists. split; [apply entry_at_insert_entry|done].
    + intros e0 Hne (ent & He0 & Hc0). exists ent.
      by rewrite entry_at_insert_ne.
Qed.

End ownership_theorems.

(** ** The storage mode of the container *)

Section storage_mode_theorems.
Context `{Codec} `{!EntryDtos} `{!CompressedDictStorageMode.Default}.
Import Heap.

Lemma construct_mode (d : odict) m r :
  CompressedDict.construct d m = Some r → CompressedDict.storage_mode r = m.
Proof.
  unfold CompressedDict.construct. destruct (supported d); [|done].
  by intros [= <-].
Qed.

Lemma resource_at_insert_eq (h : gmap loc obj) c r :
  resource_at (<[c:=OResource r]> h) c = Some r.
Proof. unfold resource_at. by rewrite lookup_insert_eq. Qed.

Lemma resource_at_insert_ne (h : gmap loc obj) l o c :
  c ≠ l → resource_at (<[l:=o]> h) c = resource_at h c.
Proof. intros Hne. unfold resource_at. by rewrite lookup_insert_ne. Qed.

(** The entry and the container that the constructor leaves for a plain
    mapping *)
Lemma init_dict_spec fu d rq rp ln sr sm (h : gmap loc obj) self h' :
  FhirBundleEntry.init fu (FhirBundleEntry.ResDict d) rq rp ln sr sm h
    = Some (self, h') →
  let m := from_option id CompressedDictStorageMode.default sm in
  ∃ c r,
    entry_at h' self
      = Some {| _resource := Some c; request := rq; response := rp;
                fullUrl := fu; link := ln; search := sr; storage_mode := m |} ∧
    CompressedDict.construct d m = Some r ∧
    resource_at h' c = Some r ∧ (c ∉ dom h).
Proof.
  intros (res & h1 & Hn & -> & c & r & -> & Hr & Hf & ->)%init_spec. cbv zeta.
  exists c, r. split; [apply entry_at_insert_entry|]. split; [done|].
  split; [|by apply not_elem_of_dom].
  rewrite resource_at_insert_ne; [apply resource_at_insert_eq|].
  intros ->. by rewrite lookup_insert_eq in Hn.
Qed.

(** C6, as the code has it. The container that an entry creates gets the
    entry's own storage mode: in the constructor called with a plain mapping,
    in [from_dict], and in the setter of [resource] when the entry holds no
    container. [__deepcopy__] gives the copy the storage mode of the original
    entry, and the copied container keeps the mode of the container it was
    copied from: the container of the copy has the mode of the copy whenever
    that holds of the original. *)
Theorem storage_mode_inherited_when_created :
  (∀ fu d rq rp ln sr sm (h : gmap loc obj) self h',
     FhirBundleEntry.init fu (FhirBundleEntry.ResDict d) rq rp ln sr sm h
       = Some (self, h') →
     mode_inherited h' self) ∧
  (∀ d m (h : gmap loc obj) self h',
     FhirBundleEntry.from_dict d m h = Some (self, h') →
     mode_inherited h' self ∧
     ∃ e, entry_at h' self = Some e ∧ storage_mode e = m) ∧
  (∀ self d (h : gmap loc obj) u h' e,
     entry_at h self = Some e → _resource e = None →
     FhirBundleEntry.set_resource self (FhirBundleEntry.ResDict d) h
       = Some (u, h') →
     mode_inherited h' self ∧
     ∃ e', entry_at h' self = Some e' ∧ storage_mode e' = storage_mode e) ∧
  (∀ self (h : gmap loc obj) c h',
     FhirBundleEntry.deepcopy self h = Some (c, h') →
     ∃ e e',
       entry_at h self = Some e ∧ entry_at h' c = Some e' ∧
       storage_mode e' = storage_mode e ∧
       (∀ c' r', _resource e' = Some c' → resource_at h' c' = Some r' →
          ∃ c0 r, _resource e = Some c0 ∧ resource_at h c0 = Some r ∧
                  CompressedDict.storage_mode r' = CompressedDict.storage_mode r) ∧
       (mode_inherited h self → mode_inherited h' c)).
Proof.
  split; [|split; [|split]].
  - intros fu d rq rp ln sr sm h self h' (c & r & He & Hr & Hc & _)%init_dict_spec.
    intros ent c' r' He' Hc' Hr'. rewrite He in He'. injection He' as <-.
    simpl in *. injection Hc' as <-.
    assert (r' = r) as -> by congruence. by eapply construct_mode.
  - intros d m h self h' (e & He & _ & _ & Hb)%from_dict_spec.
    destruct Hb as (_ & Hm & Hres & _). split; [|eauto].
    intros ent c r He' Hc Hr. assert (ent = e) as -> by congruence.
    destruct (contains d "resource"); [|congruence].
    destruct Hres as (c1 & rd & r1 & Hc1 & _ & _ & Hr1 & Hat).
    assert (c = c1) as -> by congruence.
    assert (r = r1) as -> by congruence.
    rewrite Hm. by eapply construct_mode.
  - intros self d h u h' e He Hres (e0 & He0 & Hc)%set_resource_spec.
    assert (e0 = e) as -> by congruence. cbv zeta in Hc. rewrite Hres in Hc.
    destruct Hc as (c & r & Hr & Hf & ->).
    assert (self ≠ c) as Hne.
    { intros ->. unfold entry_at in He. by rewrite Hf in He. }
    split; [|eexists; split; [apply entry_at_insert_entry|done]].
    intros ent c' r' He' Hc' Hr'. rewrite entry_at_insert_entry in He'.
    injection He' as <-. simpl in *. injection Hc' as <-.
    rewrite resource_at_insert_ne, resource_at_insert_eq in Hr' by done.
    injection Hr' as <-. by eapply construct_mode.
  - intros self h c h' (e & e' & He & He' & Hsub & Hself & Hcp & Hdom)%deepcopy_spec.
    exists e, e'. split; [done|]. split; [done|].
    destruct Hcp as (_ & Hm & Hres & _). split; [done|].
    assert (∀ c' r', _resource e' = Some c' → resource_at h' c' = Some r' →
          ∃ c0 r, _resource e = Some c0 ∧ resource_at h c0 = Some r ∧
                  CompressedDict.storage_mode r' = CompressedDict.storage_mode r)
      as Hkeep.
    { intros c' r' Hc' Hr'. unfold resource_copied in Hres.
      destruct (_resource e) as [c0|] eqn:Hc0; [|congruence].
      destruct Hres as (r & Hr & Hres). exists c0, r. split; [done|].
      assert (resource_at h c0 = Some r) as Hr0.
      { rewrite <-Hr. symmetry. apply resource_at_agree.
        specialize (Hdom c0 eq_refl). apply elem_of_dom in Hdom as [o Ho].
        rewrite Ho. by apply (lookup_weaken h). }
      split; [done|]. destruct (CompressedDict.bool r); [|congruence].
      destruct Hres as (c1 & Hc1 & Hr1 & _).
      assert (c' = c1) as -> by congruence.
      assert (r' = CompressedDict.deep_copy r) as -> by congruence. done. }
    split; [done|].
    intros Hinh ent c' r' Hent Hc' Hr'. assert (ent = e') as -> by congruence.
    destruct (Hkeep c' r' Hc' Hr') as (c0 & r & Hc0 & Hr & ->).
    rewrite Hm. by apply (Hinh e c0 r).
Qed.

(** C7, as the code has it. An entry constructed without [storage_mode],
    through [__init__] or [construct], stores the process-wide default; the
    container that the constructor creates from a plain mapping has that
    mode. A container instance passed as [resource] is stored as it is, with
    the mode it has. *)
Theorem default_mode_when_omitted :
  ∀ make, make = FhirBundleEntry.init ∨ make = FhirBundleEntry.construct →
  ∀ fu ra rq rp ln sr (h : gmap loc obj) self h',
    make fu ra rq rp ln sr None h = Some (self, h') →
    ∃ e, entry_at h' self = Some e ∧
         storage_mode e = CompressedDictStorageMode.default ∧
         (∀ d, ra = FhirBundleEntry.ResDict d →
            ∃ c r, _resource e = Some c ∧ resource_at h' c = Some r ∧
                   CompressedDict.storage_mode r
                     = CompressedDictStorageMode.default) ∧
         (∀ c, ra = FhirBundleEntry.ResContainer c →
            _resource e = Some c ∧ (c ∈ dom h → h' !! c = h !! c)).
Proof.
  intros make Hmake fu ra rq rp ln sr h self h' Hc.
  assert (FhirBundleEntry.init fu ra rq rp ln sr None h = Some (self, h'))
    as Hinit by (by destruct Hmake as [-> | ->]).
  clear Hc Hmake.
  destruct (init_subseteq _ _ _ _ _ _ _ _ _ _ Hinit) as [Hsub _].
  pose proof Hinit as (res & h1 & Hn & -> & Hra)%init_spec. simpl in Hra.
  eexists. split; [apply entry_at_insert_entry|]. simpl. split; [done|].
  split.
  - intros d ->.
    apply init_dict_spec in Hinit as (c & r & He & Hr & Hc & _).
    rewrite entry_at_insert_entry in He. injection He as ->.
    exists c, r. split; [done|]. split; [done|]. by eapply construct_mode.
  - intros c ->. destruct Hra as [-> ->]. split; [done|].
    intros [o Ho]%elem_of_dom. rewrite Ho. by apply (lookup_weaken h).
Qed.

End storage_mode_theorems.

(** ** The round trip through [from_dict] and [dict()] *)

Section roundtrip_pure.
Context `{DatetimeOps}.

Lemma request_roundtrip q :
  request_valid q = true →
  ∃ r, FhirBundleEntryRequest.from_dict (request_mapping q) = Some r ∧
       FhirBundleEntryRequest.dict r = request_mapping q.
Proof.
  destruct q as [u m ims inm ine]. unfold request_valid; simpl.
  rewrite !andb_true_iff, !negb_true_iff. intros [[Hu Hm] Hims].
  destruct u as [|a u]; [done|]. destruct m as [|b m]; [done|].
  unfold FhirBundleEntryRequest.from_dict,
    FhirBundleEntryRequest.parse_timestamp, item_or, request_mapping.
  destruct ims as [s|], inm as [x|], ine as [y|]; simpl in *;
    try (unfold iso_canonical in Hims;
         destruct (fromisoformat s) as [t|] eqn:Ht; [|done];
         apply bool_decide_eq_true in Hims);
    (eexists; split; [reflexivity|]);
    unfold FhirBundleEntryRequest.dict; simpl; rewrite ?Hims; reflexivity.
Qed.

Lemma response_roundtrip p :
  response_valid p = true →
  ∃ r, FhirBundleEntryResponse.from_dict (response_mapping p) = Some r ∧
       FhirBundleEntryResponse.dict r = response_mapping p.
Proof.
  destruct p as [st lm e l]. unfold response_valid; simpl.
  rewrite !andb_true_iff, !negb_true_iff. intros [Hs Hlm].
  destruct st as [|a st]; [done|].
  unfold FhirBundleEntryResponse.from_dict,
    FhirBundleEntryRequest.parse_timestamp, item_or, response_mapping.
  destruct lm as [s|], e as [x|], l as [y|]; simpl in *;
    try (unfold iso_canonical in Hlm;
         destruct (fromisoformat s) as [t|] eqn:Ht; [|done];
         apply bool_decide_eq_true in Hlm);
    (eexists; split; [reflexivity|]);
    unfold FhirBundleEntryResponse.dict; simpl; rewrite ?Hlm; reflexivity.
Qed.

Lemma clean_request_mapping q : clean (VDict (request_mapping q)) = true.
Proof. by destruct q as [u m [s|] [x|] [y|]]. Qed.

Lemma clean_response_mapping p : clean (VDict (response_mapping p)) = true.
Proof. by destruct p as [st [s|] [x|] [y|]]. Qed.

(** What [from_dict] finds in a mapping of the declared shape *)
Lemma entry_mapping_lookup (s : entry_shape) :
  let d := entry_mapping s in
  (contains d "fullUrl" = bool_decide (is_Some (s_fullUrl s)) ∧
   item_or d "fullUrl" VNone = from_option VStr VNone (s_fullUrl s)) ∧
  (contains d "resource" = bool_decide (is_Some (s_resource s)) ∧
   getitem d "resource" = VDict <$> s_resource s) ∧
  (contains d "request" = bool_decide (is_Some (s_request s)) ∧
   getitem d "request" = (λ q, VDict (request_mapping q)) <$> s_request s) ∧
  (contains d "response" = bool_decide (is_Some (s_response s)) ∧
   getitem d "response" = (λ p, VDict (response_mapping p)) <$> s_response s) ∧
  (contains d "link" = bool_decide (is_Some (s_link s)) ∧
   getitem d "link" = (λ ls, VList (VDict <$> ls)) <$> s_link s) ∧
  (contains d "search" = bool_decide (is_Some (s_search s)) ∧
   getitem d "search" = VDict <$> s_search s).
Proof.
  destruct s as [[fu|] [r|] [q|] [p|] [ls|] [sr|]]; by vm_compute.
Qed.

End roundtrip_pure.

(** ** The container: encoding and materializing *)

Section container_roundtrip.
Context `{Codec} `{!CodecLossless}.

Lemma at_rest_dict (d : odict) m n :
  supported d = true →
  CompressedDict.dict
    {| CompressedDict.state := CompressedDict.at_rest m d;
       CompressedDict.storage_mode := m; CompressedDict.pins := n |} = Some d.
Proof.
  intros Hd. unfold CompressedDict.dict, CompressedDict.at_rest; simpl.
  destruct m; simpl; [done|by apply decode_encode..].
Qed.

Lemma construct_dict (d : odict) m r :
  CompressedDict.construct d m = Some r → CompressedDict.dict r = Some d.
Proof.
  unfold CompressedDict.construct. destruct (supported d) eqn:Hd; [|done].
  intros [= <-]. by apply at_rest_dict.
Qed.

Lemma construct_keys (d : odict) m r :
  CompressedDict.construct d m = Some r → CompressedDict.get_keys r = keys d.
Proof.
  unfold CompressedDict.construct. destruct (supported d) eqn:Hd; [|done].
  intros [= <-]. by destruct m.
Qed.

(** C8. For every supported JSON-like document [d] and every storage mode
    [m], the container constructed from [d] under [m] materializes to [d]
    itself, an equality of ordered mappings, so with the key order and the
    values at every depth; the cached key index lists the keys of [d]; and
    the document survives a transaction scope that is entered and left,
    which decodes the content and encodes it again. The codec is any codec
    that keeps its contract [decode(encode(x)) == x]. *)
Theorem materialize_encode_roundtrip (d : odict) (m : storage_mode_t) :
  supported d = true →
  ∃ r, CompressedDict.construct d m = Some r ∧
       CompressedDict.dict r = Some d ∧
       CompressedDict.get_keys r = keys d ∧
       ∃ r1 r2, CompressedDict.enter r = Some r1 ∧
                CompressedDict.dict r1 = Some d ∧
                CompressedDict.exit r1 = Some r2 ∧
                CompressedDict.dict r2 = Some d ∧
                CompressedDict.state r2 = CompressedDict.state r.
Proof.
  intros Hd.
  destruct (CompressedDict.construct d m) as [r|] eqn:Hr;
    [|unfold CompressedDict.construct in Hr; by rewrite Hd in Hr].
  exists r. split; [done|].
  pose proof (construct_dict _ _ _ Hr) as Hdict.
  split; [done|]. split; [by eapply construct_keys|].
  unfold CompressedDict.construct in Hr. rewrite Hd in Hr. injection Hr as <-.
  unfold CompressedDict.enter. rewrite Hdict. simpl.
  eexists _, _. split; [done|]. split; [done|].
  unfold CompressedDict.exit; simpl. split; [done|].
  split; [by apply at_rest_dict|done].
Qed.

End container_roundtrip.

(** ** [from_dict] returns on the mappings of the declared shape *)

Section totality.
Context `{Codec} `{!EntryDtos} `{!CompressedDictStorageMode.Default}.
Import Heap.

Lemma total_ret {A} (a : A) : total (ret a).
Proof. intros h. by eexists. Qed.

Lemma total_lift {A} (o : option A) : is_Some o → total (lift o).
Proof. intros [a ->] h. by eexists. Qed.

Lemma total_alloc o : total (alloc o).
Proof. intros h. by eexists. Qed.

Lemma total_bind {A B} (c : M A) (k : A → M B) :
  total c → (∀ a, total (k a)) → total (bind c k).
Proof.
  intros Hc Hk h. destruct (Hc h) as [[a h1] Ha]. unfold bind. rewrite Ha.
  apply Hk.
Qed.

Lemma total_bind_lift {A B} (o : option A) a (k : A → M B) :
  o = Some a → total (k a) → total (bind (lift o) k).
Proof. intros -> Hk h. apply Hk. Qed.

Lemma total_bind_post {A B} (P : A → Prop) (c : M A) (k : A → M B) :
  (∀ h, ∃ a h1, c h = Some (a, h1) ∧ P a) → (∀ a, P a → total (k a)) →
  total (bind c k).
Proof.
  intros Hc Hk h. destruct (Hc h) as (a & h1 & Ha & HP). unfold bind.
  rewrite Ha. by apply Hk.
Qed.

Lemma total_for_each {A B} (f : A → M B) l :
  Forall (λ x, total (f x)) l → total (FhirBundleEntry.for_each f l).
Proof.
  induction 1 as [|x l Hx _ IH]; simpl; [apply total_ret|].
  apply total_bind; [done|]. intros y.
  apply total_bind; [done|]. intros ys. apply total_ret.
Qed.

Lemma total_FhirResource (d : odict) m :
  supported d = true → total (FhirBundleEntry.FhirResource d m).
Proof.
  intros Hd. unfold FhirBundleEntry.FhirResource.
  apply total_bind; [|intros ?; apply total_alloc].
  apply total_lift. unfold CompressedDict.construct. rewrite Hd. eauto.
Qed.

Lemma total_init fu ra rq rp ln sr sm :
  (∀ d, ra = FhirBundleEntry.ResDict d → supported d = true) →
  total (FhirBundleEntry.init fu ra rq rp ln sr sm).
Proof.
  intros Hra. unfold FhirBundleEntry.init.
  apply total_bind; [|intros ?; apply total_alloc].
  destruct ra as [|d|c]; [apply total_ret| |apply total_ret].
  apply total_bind; [|intros ?; apply total_ret].
  apply total_FhirResource. by apply Hra.
Qed.

Lemma from_dict_total (s : entry_shape) m :
  entry_valid s → total (FhirBundleEntry.from_dict (entry_mapping s) m).
Proof.
  intros (Vres & Vreq & Vresp & Vlnk & Vsrch).
  destruct (entry_mapping_lookup s)
    as ((_ & _) & (C2 & G2) & (C3 & G3) & (C4 & G4) & (C5 & G5) & (C6 & G6)).
  unfold FhirBundleEntry.from_dict. cbv zeta.
  unfold FhirBundleEntry.item_as, FhirBundleEntry.item_with.
  rewrite C2, C3, C4, C5, C6, G2, G3, G4, G5, G6.
  apply (total_bind_post (λ ra, ∀ d, ra ≠ FhirBundleEntry.ResDict d));
    [|intros ra Hra].
  { intros h. destruct (s_resource s) as [r|]; simpl; [|by eexists _, _].
    destruct Vres as [Hsup _].
    unfold bind, lift, FhirBundleEntry.FhirResource, CompressedDict.construct.
    rewrite Hsup. simpl. by eexists _, _. }
  apply total_bind; [|intros rq].
  { destruct (s_request s) as [q|]; simpl; [|apply total_ret].
    destruct (request_roundtrip q Vreq) as (r & Hr & _).
    eapply total_bind_lift; [exact Hr|].
    apply total_bind; [apply total_alloc|intros ?]. apply total_ret. }
  apply total_bind; [|intros rp].
  { destruct (s_response s) as [p|]; simpl; [|apply total_ret].
    destruct (response_roundtrip p Vresp) as (r & Hr & _).
    rewrite <- response_from_dict_any_mapping in Hr.
    eapply total_bind_lift; [exact Hr|].
    apply total_bind; [apply total_alloc|intros ?]. apply total_ret. }
  apply total_bind; [|intros ln].
  { destruct (s_link s) as [ls|]; simpl; [|apply total_ret].
    destruct Vlnk as [_ Hls].
    eapply total_bind_lift; [done|].
    apply total_bind; [|intros ?].
    - apply total_for_each. apply Forall_fmap.
      eapply Forall_impl; [exact Hls|]. simpl.
      intros l (_ & x & Hx & _).
      eapply total_bind_lift; [exact Hx|]. apply total_alloc.
    - apply total_bind; [apply total_alloc|intros ?]. apply total_ret. }
  apply total_bind; [|intros sr].
  { destruct (s_search s) as [sd|]; simpl; [|apply total_ret].
    destruct Vsrch as (_ & x & Hx & _).
    eapply total_bind_lift; [exact Hx|].
    apply total_bind; [apply total_alloc|intros ?]. apply total_ret. }
  apply total_init. intros d ->. by destruct (Hra d).
Qed.

End totality.

(** ** The round trip of an entry *)

Section entry_roundtrip.
Context `{Codec} `{!CodecLossless} `{!EntryDtos}
  `{!CompressedDictStorageMode.Default}.
Import Heap.

Lemma field_emitted_clean k (o : option value) :
  from_option (λ v, clean v = true) True o →
  from_option (emitted k) [] o = field k o.
Proof. destruct o as [v|]; simpl; [apply emitted_clean|done]. Qed.

Lemma links_value (h : gmap loc obj) (ls : list odict) items :
  Forall (reproduced FhirLink) ls →
  Forall2 (λ v i, ∃ x, (m ← FhirBundleEntry.as_mapping v; dto_from_dict m)
                         = Some x ∧ link_at h i = Some x)
    (VDict <$> ls) items →
  mapM (λ i, x ← link_at h i; Some (VDict (dto_dict x))) items
    = Some (VDict <$> ls).
Proof.
  intros Hls. revert items.
  induction Hls as [|l ls Hl _ IH]; intros items Hall.
  - by inversion Hall.
  - destruct Hl as (_ & x & Hx & Hd). rewrite fmap_cons in Hall.
    inversion Hall as [|? i ? items' (y & Hy & Hi) Hall']; subst.
    simpl in Hy. assert (y = x) as -> by congruence.
    simpl. rewrite Hi. simpl. by rewrite (IH _ Hall').
Qed.

Lemma clean_links (ls : list odict) :
  ls ≠ [] → Forall (reproduced FhirLink) ls →
  clean (VList (VDict <$> ls)) = true.
Proof.
  intros Hne Hls.
  assert (forallb clean (VDict <$> ls) = true) as Hall.
  { induction Hls as [|l ls Hl _ IH]; [done|]. destruct Hl as [Hl _].
    rewrite fmap_cons. simpl. simpl in Hl. rewrite Hl. simpl.
    destruct ls; [done|]. by apply IH. }
  destruct ls; [done|]. exact Hall.
Qed.

(** C1, as the code has it. For every mapping of the declared shape that has
    its keys in the declared order, no [None] or empty element, a request
    with non-empty [url] and [method], a response with a non-empty [status],
    its timestamps in the ISO text that [isoformat] gives back, and links
    and a search block that their classes reproduce, and for every storage
    mode and store: [from_dict] returns an entry, and [dict()] of that entry
    is the mapping itself. *)
Theorem from_dict_dict_roundtrip (s : entry_shape) (m : storage_mode_t)
    (h : gmap loc obj) :
  entry_valid s →
  ∃ self h',
    FhirBundleEntry.from_dict (entry_mapping s) m h = Some (self, h') ∧
    FhirBundleEntry.dict h' self = Some (entry_mapping s).
Proof.
  intros Hv. destruct (from_dict_total s m Hv h) as [[self h'] Hc].
  exists self, h'. split; [done|].
  apply from_dict_spec in Hc as (e & He & _ & _ & Hb).
  destruct Hv as (Vres & Vreq & Vresp & Vlnk & Vsrch).
  destruct Hb as (Hfu & _ & Hres & Hreq & Hresp & Hlnk & Hsrch).
  destruct (entry_mapping_lookup s)
    as ((_ & G1) & (C2 & G2) & (C3 & G3) & (C4 & G4) & (C5 & G5) & (C6 & G6)).
  cbv zeta in *.
  unfold FhirBundleEntry.item_as, FhirBundleEntry.item_with in *.
  rewrite C2, G2 in Hres. rewrite C3, G3 in Hreq. rewrite C4, G4 in Hresp.
  rewrite C5, G5 in Hlnk. rewrite C6, G6 in Hsrch. rewrite G1 in Hfu.
  clear C2 C3 C4 C5 C6 G1 G2 G3 G4 G5 G6.
  assert (emitted "fullUrl" (fullUrl e) = field "fullUrl" (VStr <$> s_fullUrl s))
    as E1.
  { rewrite Hfu. by destruct (s_fullUrl s). }
  assert (slot_ok (_resource e) (resource_value h' (_resource e)) = true ∧
          from_option (emitted "resource") [] (resource_value h' (_resource e))
            = field "resource" (VDict <$> s_resource s)) as [O2 E2].
  { destruct (s_resource s) as [r|]; simpl in Hres; [|by rewrite Hres].
    destruct Hres as (c & rd & r0 & -> & _ & [= <-] & Hr0 & Hat).
    simpl. rewrite Hat. simpl. rewrite (construct_dict _ _ _ Hr0). simpl.
    split; [done|]. apply emitted_clean. by destruct Vres. }
  assert (slot_ok (request e) (request_value h' (request e)) = true ∧
          from_option (emitted "request") [] (request_value h' (request e))
            = field "request" ((λ q, VDict (request_mapping q)) <$> s_request s))
    as [O3 E3].
  { destruct (s_request s) as [q|]; simpl in Hreq; [|by rewrite Hreq].
    destruct Hreq as (l & r & -> & Hr & Hat).
    destruct (request_roundtrip q Vreq) as (r' & Hr' & Hd).
    assert (r' = r) as -> by congruence.
    simpl. rewrite Hat. simpl. rewrite Hd. split; [done|].
    apply emitted_clean, clean_request_mapping. }
  assert (slot_ok (response e) (response_value h' (response e)) = true ∧
          from_option (emitted "response") [] (response_value h' (response e))
            = field "response"
                ((λ p, VDict (response_mapping p)) <$> s_response s))
    as [O4 E4].
  { destruct (s_response s) as [p|]; simpl in Hresp; [|by rewrite Hresp].
    destruct Hresp as (l & r & -> & Hr & Hat).
    rewrite response_from_dict_any_mapping in Hr.
    destruct (response_roundtrip p Vresp) as (r' & Hr' & Hd).
    assert (r' = r) as -> by congruence.
    simpl. rewrite Hat. simpl. rewrite Hd. split; [done|].
    apply emitted_clean, clean_response_mapping. }
  assert (slot_ok (link e) (link_value h' (link e)) = true ∧
          from_option (emitted "link") [] (link_value h' (link e))
            = field "link" ((λ ls, VList (VDict <$> ls)) <$> s_link s))
    as [O5 E5].
  { destruct (s_link s) as [ls|]; simpl in Hlnk; [|by rewrite Hlnk].
    destruct Hlnk as (l & vs & items & -> & [= <-] & Hat & Hall).
    destruct Vlnk as [Hne Hls].
    simpl. rewrite Hat. simpl. rewrite (links_value _ _ _ Hls Hall). simpl.
    split; [done|]. by apply emitted_clean, clean_links. }
  assert (slot_ok (search e) (search_value h' (search e)) = true ∧
          from_option (emitted "search") [] (search_value h' (search e))
            = field "search" (VDict <$> s_search s)) as [O6 E6].
  { destruct (s_search s) as [sd|]; simpl in Hsrch; [|by rewrite Hsrch].
    destruct Hsrch as (l & x & -> & Hx & Hat).
    destruct Vsrch as (Hcl & x' & Hx' & Hd).
    assert (x' = x) as -> by congruence.
    simpl. rewrite Hat. simpl. rewrite Hd. split; [done|].
    by apply emitted_clean. }
  rewrite entry_dict_unfold, He. simpl.
  unfold readable. rewrite O2, O3, O4, O5, O6. simpl.
  unfold entry_emitted, entry_mapping. by rewrite E1, E2, E3, E4, E5, E6.
Qed.

End entry_roundtrip.

(** ** Requests and responses: reading, copying, and the way back *)

Section request_response_more.
Context `{DatetimeOps}.
Import FhirClientJsonHelpers.

Lemma request_from_dict_getitem (d : odict) :
  FhirBundleEntryRequest.from_dict d =
    ims ← FhirBundleEntryRequest.parse_timestamp d "ifModifiedSince";
    Some (FhirBundleEntryRequest.init
            (default (VStr "https://example.com") (getitem d "url"))
            (default (VStr "GET") (getitem d "method"))
            (default VNone (getitem d "ifNoneMatch"))
            ims
            (default VNone (getitem d "ifNoneExist"))).
Proof.
  unfold FhirBundleEntryRequest.from_dict. by rewrite !item_or_getitem.
Qed.

Lemma response_from_dict_getitem (d : odict) :
  FhirBundleEntryResponse.from_dict d =
    lm ← FhirBundleEntryRequest.parse_timestamp d "lastModified";
    Some (FhirBundleEntryResponse.init
            (default (VStr "200") (getitem d "status"))
            (default VNone (getitem d "etag"))
            lm
            (default VNone (getitem d "location"))).
Proof.
  unfold FhirBundleEntryResponse.from_dict. by rewrite !item_or_getitem.
Qed.

(** X1. [FhirBundleEntryRequest.from_dict] raises in one case only: the item
    under ["ifModifiedSince"] is a string that [datetime.fromisoformat]
    rejects. A [datetime] is stored as it is, a string that parses is stored
    parsed, and with any other item (or none) the call returns with the
    field unset. *)
Theorem request_from_dict_timestamp (d : odict) :
  match getitem d "ifModifiedSince" with
  | Some (VDatetime t) =>
      ∃ r, FhirBundleEntryRequest.from_dict d = Some r ∧
           FhirBundleEntryRequest.ifModifiedSince r = Some t
  | Some (VStr s) =>
      match fromisoformat s with
      | Some t => ∃ r, FhirBundleEntryRequest.from_dict d = Some r ∧
                       FhirBundleEntryRequest.ifModifiedSince r = Some t
      | None => FhirBundleEntryRequest.from_dict d = None
      end
  | _ =>
      ∃ r, FhirBundleEntryRequest.from_dict d = Some r ∧
           FhirBundleEntryRequest.ifModifiedSince r = None
  end.
Proof.
  rewrite request_from_dict_getitem, parse_timestamp_getitem.
  destruct (getitem d "ifModifiedSince") as [[| | | |s|t| |]|]; simpl;
    try (eexists; split; reflexivity).
  destruct (fromisoformat s) as [t|]; simpl; [|done].
  eexists; split; reflexivity.
Qed.


(** X3. [FhirBundleEntryRequest.from_dict] reads the mapping by key, and the
    five declared keys only: two mappings with the same items under [url],
    [method], [ifModifiedSince], [ifNoneMatch] and [ifNoneExist] give the
    same outcome, whatever the order of their keys and whatever other keys
    they have. *)
Theorem request_from_dict_reads_declared_keys (d d' : odict) :
  (∀ k, k ∈ request_keys → getitem d k = getitem d' k) →
  FhirBundleEntryRequest.from_dict d = FhirBundleEntryRequest.from_dict d'.
Proof.
  intros Hk. rewrite !request_from_dict_getitem, !parse_timestamp_getitem.
  by rewrite !Hk by (unfold request_keys; set_solver).
Qed.

(** X4. [FhirBundleEntryResponse.from_dict] reads the mapping by key, and the
    four declared keys only: two mappings with the same items under
    [status], [lastModified], [etag] and [location] give the same outcome,
    whatever the order of their keys and whatever other keys they have. *)
Theorem response_from_dict_reads_declared_keys (d d' : odict) :
  (∀ k, k ∈ response_keys → getitem d k = getitem d' k) →
  FhirBundleEntryResponse.from_dict d = FhirBundleEntryResponse.from_dict d'.
Proof.
  intros Hk. rewrite !response_from_dict_getitem, !parse_timestamp_getitem.
  by rewrite !Hk by (unfold response_keys; set_solver).
Qed.

Lemma py_or_falsy a b : truthy a = false → py_or a b = b.
Proof. unfold py_or. by intros ->. Qed.

(** X5. [FhirBundleEntryRequest.__deepcopy__] goes through the constructor,
    so the copy is equal to the original, slot for slot, exactly when [url]
    and [method] of the original are truthy; that is the case for every
    request that the constructor or [from_dict] returned. A falsy [url] or
    [method] (assigned after construction) is replaced by the default in the
    copy. The other three slots are always carried over. *)
Theorem request_deepcopy_equal_iff :
  (∀ r, FhirBundleEntryRequest.deepcopy r = r ↔
        truthy (FhirBundleEntryRequest.url r) = true ∧
        truthy (FhirBundleEntryRequest.method r) = true) ∧
  (∀ u m inm ims ine,
     let r := FhirBundleEntryRequest.init u m inm ims ine in
     FhirBundleEntryRequest.deepcopy r = r) ∧
  (∀ d r, FhirBundleEntryRequest.from_dict d = Some r →
          FhirBundleEntryRequest.deepcopy r = r) ∧
  (∀ r, let r' := FhirBundleEntryRequest.deepcopy r in
        (truthy (FhirBundleEntryRequest.url r) = false →
           FhirBundleEntryRequest.url r' = VStr "https://example.com") ∧
        (truthy (FhirBundleEntryRequest.method r) = false →
           FhirBundleEntryRequest.method r' = VStr "GET") ∧
        FhirBundleEntryRequest.ifModifiedSince r'
          = FhirBundleEntryRequest.ifModifiedSince r ∧
        FhirBundleEntryRequest.ifNoneMatch r'
          = FhirBundleEntryRequest.ifNoneMatch r ∧
        FhirBundleEntryRequest.ifNoneExist r'
          = FhirBundleEntryRequest.ifNoneExist r).
Proof.
  assert (∀ r, FhirBundleEntryRequest.deepcopy r = r ↔
               truthy (FhirBundleEntryRequest.url r) = true ∧
               truthy (FhirBundleEntryRequest.method r) = true) as Hiff.
  { intros [u m ims inm ine]; simpl. split.
    - unfold FhirBundleEntryRequest.deepcopy, FhirBundleEntryRequest.init; simpl.
      intros [= Hu Hm]. split.
      + destruct (truthy u) eqn:E; [done|].
        rewrite (py_or_falsy _ _ E) in Hu. by rewrite <- Hu in E.
      + destruct (truthy m) eqn:E; [done|].
        rewrite (py_or_falsy _ _ E) in Hm. by rewrite <- Hm in E.
    - intros [Hu Hm].
      unfold FhirBundleEntryRequest.deepcopy, FhirBundleEntryRequest.init; simpl.
      by rewrite !py_or_truthy. }
  split; [exact Hiff|]. split; [|split].
  - intros u m inm ims ine r. apply Hiff. split; by apply truthy_py_or.
  - intros d r (ims & ->)%request_from_dict_init.
    apply Hiff. split; by apply truthy_py_or.
  - intros r r'. split; [|split; [|done]].
    + intros E. unfold r'; simpl. by rewrite py_or_falsy.
    + intros E. unfold r'; simpl. by rewrite py_or_falsy.
Qed.


Lemma getitem_emitted_scalar k v :
  is_scalar v = true → v ≠ VNone → getitem (emitted k v) k = Some v.
Proof.
  intros Hs Hv. rewrite emitted_scalar by done.
  apply is_not_none_true in Hv as ->. simpl. by case_decide.
Qed.

(** X7. A set optional field of a request is emitted by [dict()]: the
    timestamp always, as its [isoformat()] text, and [ifNoneMatch] and
    [ifNoneExist] with the stored value whenever that is not [None] (and no
    list or mapping, which the removal of empty elements may change). *)
Theorem request_set_fields_emitted (r : FhirBundleEntryRequest.t) :
  let od := FhirBundleEntryRequest.dict r in
  getitem od "ifModifiedSince"
    = (λ t, VStr (isoformat t)) <$> FhirBundleEntryRequest.ifModifiedSince r ∧
  (is_scalar (FhirBundleEntryRequest.ifNoneMatch r) = true →
   FhirBundleEntryRequest.ifNoneMatch r ≠ VNone →
     getitem od "ifNoneMatch" = Some (FhirBundleEntryRequest.ifNoneMatch r)) ∧
  (is_scalar (FhirBundleEntryRequest.ifNoneExist r) = true →
   FhirBundleEntryRequest.ifNoneExist r ≠ VNone →
     getitem od "ifNoneExist" = Some (FhirBundleEntryRequest.ifNoneExist r)).
Proof.
  intros od. unfold od. rewrite request_dict_emitted.
  split; [|split].
  - rewrite !getitem_app, !getitem_emitted_ne by done.
    rewrite getitem_timestamp.
    by destruct (FhirBundleEntryRequest.ifModifiedSince r).
  - intros Hs Hv.
    rewrite !getitem_app, !(getitem_emitted_ne "ifNoneMatch" "url"),
      !(getitem_emitted_ne "ifNoneMatch" "method") by done.
    rewrite getitem_timestamp. simpl.
    by rewrite getitem_emitted_scalar.
  - intros Hs Hv.
    rewrite !getitem_app, !(getitem_emitted_ne "ifNoneExist" "url"),
      !(getitem_emitted_ne "ifNoneExist" "method"),
      !(getitem_emitted_ne "ifNoneExist" "ifNoneMatch") by done.
    rewrite getitem_timestamp. simpl.
    by rewrite getitem_emitted_scalar.
Qed.

(** X8. A set optional field of a response is emitted by [dict()]: the
    timestamp always, as its [isoformat()] text, and [etag] and [location]
    with the stored value whenever that is not [None] (and no list or
    mapping). *)
Theorem response_set_fields_emitted (r : FhirBundleEntryResponse.t) :
  let od := FhirBundleEntryResponse.dict r in
  getitem od "lastModified"
    = (λ t, VStr (isoformat t)) <$> FhirBundleEntryResponse.lastModified r ∧
  (is_scalar (FhirBundleEntryResponse.etag r) = true →
   FhirBundleEntryResponse.etag r ≠ VNone →
     getitem od "etag" = Some (FhirBundleEntryResponse.etag r)) ∧
  (is_scalar (FhirBundleEntryResponse.location r) = true →
   FhirBundleEntryResponse.location r ≠ VNone →
     getitem od "location" = Some (FhirBundleEntryResponse.location r)).
Proof.
  intros od. unfold od. rewrite response_dict_emitted.
  split; [|split].
  - rewrite !getitem_app, !getitem_emitted_ne by done.
    rewrite getitem_timestamp.
    by destruct (FhirBundleEntryResponse.lastModified r).
  - intros Hs Hv.
    rewrite !getitem_app, !(getitem_emitted_ne "etag" "status") by done.
    rewrite getitem_timestamp. simpl.
    by rewrite getitem_emitted_scalar.
  - intros Hs Hv.
    rewrite !getitem_app, !(getitem_emitted_ne "location" "status"),
      !(getitem_emitted_ne "location" "etag") by done.
    rewrite getitem_timestamp. simpl.
    by rewrite getitem_emitted_scalar.
Qed.

Lemma default_getitem_emitted k v :
  is_scalar v = true → default VNone (getitem (emitted k v) k) = v.
Proof.
  intros Hs. rewrite emitted_scalar by done.
  destruct (is_not_none v) eqn:E; simpl.
  - by case_decide.
  - by apply is_not_none_false in E.
Qed.

(** X9. From a request to its mapping and back: for a request with truthy
    [url] and [method], as every constructed request has them, whose slots
    hold no list or mapping and whose timestamp, if any, is one that
    [fromisoformat] reads back from its [isoformat()] text,
    [from_dict(r.dict())] returns a request equal to [r] slot for slot. *)
Theorem request_from_dict_of_dict (r : FhirBundleEntryRequest.t) :
  truthy (FhirBundleEntryRequest.url r) = true →
  truthy (FhirBundleEntryRequest.method r) = true →
  is_scalar (FhirBundleEntryRequest.url r) = true →
  is_scalar (FhirBundleEntryRequest.method r) = true →
  is_scalar (FhirBundleEntryRequest.ifNoneMatch r) = true →
  is_scalar (FhirBundleEntryRequest.ifNoneExist r) = true →
  (∀ t, FhirBundleEntryRequest.ifModifiedSince r = Some t →
        fromisoformat (isoformat t) = Some t) →
  FhirBundleEntryRequest.from_dict (FhirBundleEntryRequest.dict r) = Some r.
Proof.
  destruct r as [u m ims inm ine]; simpl.
  intros Htu Htm Hsu Hsm Hsa Hsb Hiso.
  rewrite request_from_dict_getitem, parse_timestamp_getitem.
  rewrite request_dict_emitted; simpl.
  rewrite !(emitted_truthy_scalar _ u), !(emitted_truthy_scalar _ m) by done.
  rewrite !getitem_app, !getitem_timestamp,
    !(getitem_emitted_ne "ifModifiedSince"),
    !(getitem_emitted_ne "ifNoneMatch" "ifNoneExist"),
    !(getitem_emitted_ne "ifNoneExist" "ifNoneMatch") by done.
  simpl.
  assert (∀ o : option value,
            match o with Some v => Some v | None => None end = o) as Hid
    by (by intros []).
  rewrite ?Hid, !default_getitem_emitted by done.
  unfold FhirBundleEntryRequest.init. rewrite !py_or_truthy by done.
  destruct ims as [t|]; simpl; [|done].
  by rewrite (Hiso t eq_refl).
Qed.

(** X10. From a response to its mapping and back: for a response whose
    [status] is truthy and no [int], as every constructed response has it,
    whose slots hold no list or mapping and whose timestamp, if any, is one
    that [fromisoformat] reads back from its [isoformat()] text,
    [from_dict(r.dict())] returns a response equal to [r] slot for slot. *)
Theorem response_from_dict_of_dict (r : FhirBundleEntryResponse.t) :
  truthy (FhirBundleEntryResponse.status r) = true →
  isinstance_int (FhirBundleEntryResponse.status r) = false →
  is_scalar (FhirBundleEntryResponse.status r) = true →
  is_scalar (FhirBundleEntryResponse.etag r) = true →
  is_scalar (FhirBundleEntryResponse.location r) = true →
  (∀ t, FhirBundleEntryResponse.lastModified r = Some t →
        fromisoformat (isoformat t) = Some t) →
  FhirBundleEntryResponse.from_dict (FhirBundleEntryResponse.dict r) = Some r.
Proof.
  destruct r as [s lm e l]; simpl.
  intros Hts Hns Hss Hse Hsl Hiso.
  rewrite response_from_dict_getitem, parse_timestamp_getitem.
  rewrite response_dict_emitted; simpl.
  rewrite !(emitted_truthy_scalar _ s) by done.
  rewrite !getitem_app, !getitem_timestamp,
    !(getitem_emitted_ne "lastModified"),
    !(getitem_emitted_ne "etag" "location"),
    !(getitem_emitted_ne "location" "etag") by done.
  simpl.
  assert (∀ o : option value,
            match o with Some v => Some v | None => None end = o) as Hid
    by (by intros []).
  rewrite ?Hid, !default_getitem_emitted by done.
  assert (∀ lm0, FhirBundleEntryResponse.init s e lm0 l
                 = FhirBundleEntryResponse.mk s lm0 e l) as Hinit.
  { intros lm0. unfold FhirBundleEntryResponse.init.
    by rewrite Hns, py_or_truthy. }
  destruct lm as [t|]; simpl; [|by rewrite Hinit].
  rewrite (Hiso t eq_refl); simpl. by rewrite Hinit.
Qed.

End request_response_more.

(** ** The setter of [resource] *)

Section setter_facts.
Context `{Codec} `{!EntryDtos} `{!CompressedDictStorageMode.Default}.
Import Heap FhirClientJsonHelpers.

Lemma same_dtos_refl (h : gmap loc obj) : same_dtos h h.
Proof. unfold same_dtos. by split_and!. Qed.

Lemma same_dtos_trans (h1 h2 h3 : gmap loc obj) :
  same_dtos h1 h2 → same_dtos h2 h3 → same_dtos h1 h3.
Proof.
  intros (A1 & A2 & A3 & A4 & A5) (B1 & B2 & B3 & B4 & B5).
  unfold same_dtos. split_and!; intros l;
    [by rewrite B1|by rewrite B2|by rewrite B3|by rewrite B4|by rewrite B5].
Qed.

Lemma same_dtos_insert (h : gmap loc obj) l o :
  (match h !! l with
   | None | Some (OResource _) | Some (OEntry _) => True
   | _ => False
   end) →
  (match o with OResource _ | OEntry _ => True | _ => False end) →
  same_dtos h (<[l:=o]> h).
Proof.
  intros Hl Ho.
  unfold same_dtos. split_and!; intros l0;
    unfold request_at, response_at, link_at, search_at, list_at;
    (destruct (decide (l0 = l)) as [->|Hne];
     [rewrite lookup_insert_eq; destruct (h !! l) as [[]|], o; done
     |by rewrite lookup_insert_ne]).
Qed.

Lemma same_dtos_values (h h' : gmap loc obj) slot :
  same_dtos h h' →
  request_value h' slot = request_value h slot ∧
  response_value h' slot = response_value h slot ∧
  link_value h' slot = link_value h slot ∧
  search_value h' slot = search_value h slot.
Proof.
  intros (A1 & A2 & A3 & A4 & A5).
  unfold request_value, response_value, link_value, search_value.
  destruct slot as [l|]; simpl; [|done].
  rewrite A1, A2, A4, A5. split_and!; try done.
  destruct (list_at h l) as [items|]; simpl; [|done].
  assert (mapM (λ i, x ← link_at h' i; Some (VDict (dto_dict x))) items =
          mapM (λ i, x ← link_at h i; Some (VDict (dto_dict x))) items) as ->;
    [|done].
  induction items as [|i items IH]; [done|]. simpl. by rewrite A3, IH.
Qed.

Lemma entry_at_lookup (h : gmap loc obj) l e :
  entry_at h l = Some e ↔ h !! l = Some (OEntry e).
Proof.
  unfold entry_at. destruct (h !! l) as [[]|]; split; congruence.
Qed.

Lemma resource_at_lookup (h : gmap loc obj) l r :
  resource_at h l = Some r ↔ h !! l = Some (OResource r).
Proof.
  unfold resource_at. destruct (h !! l) as [[]|]; split; congruence.
Qed.

Lemma getitem_slot_ne k k' (o : option value) :
  k ≠ k' → getitem (from_option (emitted k') [] o) k = None.
Proof. intros Hk. destruct o; simpl; [by apply getitem_emitted_ne|done]. Qed.

(** What an assignment to [resource] does to the store *)
Lemma set_resource_effect self v (h : gmap loc obj) u h' :
  FhirBundleEntry.set_resource self v h = Some (u, h') →
  ∃ e res,
    entry_at h self = Some e ∧
    entry_at h' self
      = Some {| _resource := res; request := request e; response := response e;
                fullUrl := fullUrl e; link := link e; search := search e;
                storage_mode := storage_mode e |} ∧
    (∀ l, l ≠ self → entry_at h' l = entry_at h l) ∧
    same_dtos h h'.
Proof.
  intros Hc. apply set_resource_spec in Hc as (e & He & Hc). cbv zeta in Hc.
  pose proof (proj1 (entry_at_lookup _ _ _) He) as Hs.
  assert (∀ ha o, ha !! self = Some (OEntry e) →
            same_dtos ha (<[self:=OEntry o]> ha)) as Hsame.
  { intros ha o Ha. apply same_dtos_insert; [by rewrite Ha|done]. }
  destruct v as [|d|c0].
  - subst h'. eexists e, _. split; [done|].
    split; [apply entry_at_insert_entry|].
    split; [intros l Hl; by apply entry_at_insert_ne|]. by apply Hsame.
  - destruct (_resource e) as [c|] eqn:Hres.
    + destruct Hc as (r & r' & Hr & Hr' & ->).
      pose proof (resource_at_entry_at _ _ _ Hr) as Hce.
      exists e, (Some c). split; [done|]. split.
      { rewrite entry_at_insert_resource by done. rewrite He.
        destruct e; simpl in *; by subst. }
      split; [intros l Hl; by apply entry_at_insert_resource|].
      apply same_dtos_insert; [|done].
      apply resource_at_lookup in Hr. by rewrite Hr.
    + destruct Hc as (c & r & Hr & Hn & ->).
      assert (c ≠ self) as Hne by (intros ->; congruence).
      eexists e, _. split; [done|].
      split; [apply entry_at_insert_entry|]. split.
      { intros l Hl. rewrite entry_at_insert_ne by done.
        apply entry_at_insert_resource. by apply entry_at_None_fresh. }
      eapply same_dtos_trans.
      * apply (same_dtos_insert h c (OResource r)); [by rewrite Hn|done].
      * apply Hsame. by rewrite lookup_insert_ne.
  - subst h'. eexists e, _. split; [done|].
    split; [apply entry_at_insert_entry|].
    split; [intros l Hl; by apply entry_at_insert_ne|]. by apply Hsame.
Qed.

(** X11. An assignment to the [resource] property changes the container
    slot of that entry and nothing else of the DTO layer: the other six
    slots of the entry, every other entry, and every request, response,
    link, search block and list are as before, and [dict()] of the entry
    has the same item as before under every key but ["resource"]. *)
Theorem set_resource_changes_resource_only self v (h : gmap loc obj) u h' :
  FhirBundleEntry.set_resource self v h = Some (u, h') →
  ∃ e e',
    entry_at h self = Some e ∧ entry_at h' self = Some e' ∧
    request e' = request e ∧ response e' = response e ∧
    fullUrl e' = fullUrl e ∧ link e' = link e ∧ search e' = search e ∧
    storage_mode e' = storage_mode e ∧
    (∀ l, l ≠ self → entry_at h' l = entry_at h l) ∧
    same_dtos h h' ∧
    (∀ od od',
       FhirBundleEntry.dict h self = Some od →
       FhirBundleEntry.dict h' self = Some od' →
       ∀ k, k ≠ "resource" → getitem od' k = getitem od k).
Proof.
  intros (e & res & He & He' & Hother & Hsame)%set_resource_effect.
  eexists e, _. split; [done|]. split; [exact He'|]. simpl.
  do 6 (split; [done|]). split; [done|]. split; [done|].
  intros od od' (e1 & He1 & ->)%entry_dict_emitted
    (e2 & He2 & ->)%entry_dict_emitted k Hk.
  rewrite He in He1. injection He1 as <-.
  rewrite He' in He2. injection He2 as <-.
  unfold entry_emitted; simpl.
  destruct (same_dtos_values h h' (request e) Hsame) as (-> & _).
  destruct (same_dtos_values h h' (response e) Hsame) as (_ & -> & _).
  destruct (same_dtos_values h h' (link e) Hsame) as (_ & _ & -> & _).
  destruct (same_dtos_values h h' (search e) Hsame) as (_ & _ & _ & ->).
  rewrite !getitem_app, !(getitem_slot_ne k "resource") by done. done.
Qed.

End setter_facts.

Section setter_roundtrip.
Context `{Codec} `{!CodecLossless} `{!EntryDtos}
  `{!CompressedDictStorageMode.Default}.
Import Heap FhirClientJsonHelpers.

Lemma replace_dict (r : CompressedDict.t) (d : odict) r' :
  CompressedDict.replace r d = Some r' →
  CompressedDict.dict r' = Some d ∧
  CompressedDict.get_keys r' = keys d ∧
  CompressedDict.storage_mode r' = CompressedDict.storage_mode r ∧
  CompressedDict.pins r' = CompressedDict.pins r.
Proof.
  unfold CompressedDict.replace.
  destruct (supported d) eqn:Hd; [|done]. intros [= <-].
  split; [|split; [|done]].
  - destruct (CompressedDict.pins r); [by apply at_rest_dict|done].
  - unfold CompressedDict.get_keys; simpl.
    destruct (CompressedDict.pins r); [|done].
    by destruct (CompressedDict.storage_mode r).
Qed.

(** X12. Assignment to the [resource] property, then a read of it.
    Assigning [None] leaves [resource] at [None]; assigning a container
    leaves that same container object; assigning a plain mapping [d] of the
    supported values leaves a container whose [dict()] is [d] and whose key
    index lists the keys of [d]. The assignment returns for every entry
    (whose container, if it has one and a mapping is assigned, is an object
    of the store). *)
Theorem resource_set_then_get self v (h : gmap loc obj) e :
  entry_at h self = Some e →
  (∀ d, v = FhirBundleEntry.ResDict d →
        supported d = true ∧
        ∀ c, _resource e = Some c → is_Some (resource_at h c)) →
  ∃ h', FhirBundleEntry.set_resource self v h = Some (tt, h') ∧
    match v with
    | FhirBundleEntry.ResNone => FhirBundleEntry.resource h' self = Some None
    | FhirBundleEntry.ResContainer c =>
        FhirBundleEntry.resource h' self = Some (Some c)
    | FhirBundleEntry.ResDict d =>
        ∃ c r, FhirBundleEntry.resource h' self = Some (Some c) ∧
               resource_at h' c = Some r ∧
               CompressedDict.dict r = Some d ∧
               CompressedDict.get_keys r = keys d
    end.
Proof.
  intros He Hv.
  pose proof (proj1 (entry_at_lookup _ _ _) He) as Hs.
  assert (∃ h', FhirBundleEntry.set_resource self v h = Some (tt, h'))
    as [h' Hc].
  { unfold FhirBundleEntry.set_resource, bind, read, lift. rewrite He.
    destruct v as [|d|c0].
    - unfold write. rewrite Hs. by eexists.
    - destruct (Hv d eq_refl) as [Hd Hlive].
      destruct (_resource e) as [c|].
      + destruct (Hlive c eq_refl) as [r Hr]. rewrite Hr.
        unfold CompressedDict.replace. rewrite Hd. unfold write.
        apply resource_at_lookup in Hr. rewrite Hr. by eexists.
      + unfold FhirBundleEntry.FhirResource, bind, lift,
          CompressedDict.construct, alloc.
        rewrite Hd. unfold write. rewrite lookup_insert_ne.
        * rewrite Hs. by eexists.
        * intros Heq. pose proof (fresh_None h) as Hf.
          rewrite Heq in Hf. congruence.
    - unfold write. rewrite Hs. by eexists. }
  exists h'. split; [done|].
  pose proof (set_resource_spec _ _ _ _ _ Hc) as (e0 & He0 & Hspec).
  rewrite He in He0. injection He0 as <-. cbv zeta in Hspec.
  unfold FhirBundleEntry.resource.
  destruct v as [|d|c0].
  - subst h'. by rewrite entry_at_insert_entry.
  - destruct (_resource e) as [c|] eqn:Hres.
    + destruct Hspec as (r & r' & Hr & Hr' & ->).
      exists c, r'. split.
      { rewrite entry_at_insert_resource
          by (by eapply resource_at_entry_at).
        rewrite He; simpl. by rewrite Hres. }
      split; [apply resource_at_insert_eq|].
      apply replace_dict in Hr' as (? & ? & _). done.
    + destruct Hspec as (c & r & Hr & Hn & ->).
      exists c, r. split; [by rewrite entry_at_insert_entry|].
      split.
      { rewrite resource_at_insert_ne by (intros ->; congruence).
        apply resource_at_insert_eq. }
      split; [by eapply construct_dict|by eapply construct_keys].
  - subst h'. by rewrite entry_at_insert_entry.
Qed.

(** X13. When the entry already holds a container, assigning a plain
    mapping replaces the content of that same container object: no object
    is created and no other object changes, the entry is as before, the
    container keeps its own storage mode (the mode of the entry is not
    applied) and its pins, its [dict()] is the new mapping, and every entry
    that held the container still holds it, and so reads the new content. *)
Theorem set_resource_replaces_in_place self d (h : gmap loc obj) u h' e c r :
  entry_at h self = Some e → _resource e = Some c →
  resource_at h c = Some r →
  FhirBundleEntry.set_resource self (FhirBundleEntry.ResDict d) h
    = Some (u, h') →
  dom h' = dom h ∧
  (∀ l, l ≠ c → h' !! l = h !! l) ∧
  entry_at h' self = Some e ∧
  (∃ r', resource_at h' c = Some r' ∧
         CompressedDict.storage_mode r' = CompressedDict.storage_mode r ∧
         CompressedDict.pins r' = CompressedDict.pins r ∧
         CompressedDict.dict r' = Some d) ∧
  (∀ e2, holds h e2 c → holds h' e2 c).
Proof.
  intros He Hres Hr Hc.
  apply set_resource_spec in Hc as (e0 & He0 & Hspec).
  rewrite He in He0. injection He0 as <-. cbv zeta in Hspec.
  rewrite Hres in Hspec. destruct Hspec as (r0 & r' & Hr0 & Hr' & ->).
  rewrite Hr in Hr0. injection Hr0 as <-.
  pose proof (resource_at_entry_at _ _ _ Hr) as Hce.
  apply replace_dict in Hr' as (Hd & _ & Hm & Hp).
  split.
  { rewrite dom_insert_L. apply resource_at_lookup in Hr.
    assert (c ∈ dom h) by (apply elem_of_dom; eauto). set_solver. }
  split; [intros l Hl; by rewrite lookup_insert_ne|].
  split; [by rewrite entry_at_insert_resource|].
  split; [exists r'; by rewrite resource_at_insert_eq|].
  intros e2 (ent & Hent & Hh). exists ent.
  by rewrite entry_at_insert_resource.
Qed.

End setter_roundtrip.

(** ** [from_dict]: what it rejects, and the mapping without keys *)

Section from_dict_more.
Context `{Codec} `{!EntryDtos} `{!CompressedDictStorageMode.Default}.
Import Heap FhirClientJsonHelpers.

Lemma bind_raises {A B} (c : M A) (k : A → M B) (h : gmap loc obj) :
  (∀ a h1, c h = Some (a, h1) → k a h1 = None) → bind c k h = None.
Proof.
  intros Hk. unfold bind. destruct (c h) as [[a h1]|] eqn:E; [|done].
  by apply Hk.
Qed.

Lemma getitem_contains (d : odict) k v :
  getitem d k = Some v → contains d k = true.
Proof. intros Hv. apply contains_getitem. by rewrite Hv. Qed.

Lemma response_item_raises (v : value) :
  FhirBundleEntry.iterate v = None ∨
  (∃ k, FhirBundleEntry.as_mapping v = None ∧ k ∈ response_keys ∧
        py_in k v = Some true) ∨
  (∃ p, v = VDict p ∧ FhirBundleEntryResponse.from_dict p = None) →
  FhirBundleEntryResponse.from_dict_any v = None.
Proof.
  rewrite response_from_dict_any_cases.
  intros [Hi|[(k & Hm & Hk & Hin)|(p & -> & Hp)]].
  - by destruct v.
  - assert (existsb (λ k, default false (py_in k v)) response_keys = true)
      as Hex.
    { apply existsb_exists. exists k. split; [by apply list_elem_of_In|].
      by rewrite Hin. }
    destruct v; try done; by rewrite Hex.
  - done.
Qed.

(** X14. [FhirBundleEntry.from_dict] raises when the item under
    ["request"] is present and is not a mapping ([None] included: a key
    with a null value is not taken as absent) or is a mapping on which the
    [from_dict] of the request raises; when the item under ["response"] is
    present and is no container ([None], a number, a [datetime]), or is a
    string or a list in which one of the four keys of the response occurs,
    or is a mapping on which the [from_dict] of the response raises; and
    when the item under ["link"] is present and not iterable. *)
Theorem entry_from_dict_raises (d : odict) m (h : gmap loc obj) :
  (∃ v, getitem d "request" = Some v ∧ FhirBundleEntry.as_mapping v = None) ∨
  (∃ q, getitem d "request" = Some (VDict q) ∧
        FhirBundleEntryRequest.from_dict q = None) ∨
  (∃ v, getitem d "response" = Some v ∧ FhirBundleEntry.iterate v = None) ∨
  (∃ v k, getitem d "response" = Some v ∧
          FhirBundleEntry.as_mapping v = None ∧
          k ∈ response_keys ∧ py_in k v = Some true) ∨
  (∃ p, getitem d "response" = Some (VDict p) ∧
        FhirBundleEntryResponse.from_dict p = None) ∨
  (∃ v, getitem d "link" = Some v ∧ FhirBundleEntry.iterate v = None) →
  FhirBundleEntry.from_dict d m h = None.
Proof.
  intros Hbad. unfold FhirBundleEntry.from_dict.
  apply bind_raises. intros res h1 _.
  assert ((∃ v, getitem d "request" = Some v ∧
                FhirBundleEntry.as_mapping v = None) ∨
          (∃ q, getitem d "request" = Some (VDict q) ∧
                FhirBundleEntryRequest.from_dict q = None) →
          contains d "request" = true ∧
          FhirBundleEntry.item_as FhirBundleEntryRequest.from_dict d "request"
            = None) as Hreq.
  { intros [(v & Hv & Hm)|(q & Hv & Hq)];
      (split; [by eapply getitem_contains|]);
      unfold FhirBundleEntry.item_as; rewrite Hv; simpl; [by rewrite Hm|done]. }
  assert (∀ v, getitem d "response" = Some v →
            FhirBundleEntryResponse.from_dict_any v = None →
            contains d "response" = true ∧
            FhirBundleEntry.item_with FhirBundleEntryResponse.from_dict_any
              d "response" = None) as Hresp.
  { intros v Hv Hr. split; [by eapply getitem_contains|].
    unfold FhirBundleEntry.item_with. by rewrite Hv. }
  destruct Hbad
    as [Hq|[Hq|[(v & Hv & Hi)|[(v & k & Hv & Hk)|[(p & Hv & Hp)|(v & Hv & Hi)]]]]].
  - destruct Hreq as [-> Hr]; [by left|].
    unfold bind at 1 2. by rewrite Hr.
  - destruct Hreq as [-> Hr]; [by right|].
    unfold bind at 1 2. by rewrite Hr.
  - apply bind_raises. intros req h2 _.
    destruct (Hresp v Hv) as [-> Hr];
      [apply response_item_raises; by left|].
    unfold bind at 1 2. by rewrite Hr.
  - apply bind_raises. intros req h2 _.
    destruct (Hresp v Hv) as [-> Hr];
      [apply response_item_raises; right; left; by exists k|].
    unfold bind at 1 2. by rewrite Hr.
  - apply bind_raises. intros req h2 _.
    destruct (Hresp _ Hv) as [-> Hr];
      [apply response_item_raises; right; right; by exists p|].
    unfold bind at 1 2. by rewrite Hr.
  - apply bind_raises. intros req h2 _.
    apply bind_raises. intros resp h3 _.
    rewrite (getitem_contains _ _ _ Hv), Hv. simpl. rewrite Hi.
    reflexivity.
Qed.

(** X15. [FhirBundleEntry.from_dict] on a mapping with none of the six keys,
    the empty mapping for one: it returns a new entry, the only object it
    creates, with every slot unset and the given storage mode, and [dict()]
    of that entry is the empty mapping. *)
Theorem entry_from_dict_without_keys (d : odict) m (h : gmap loc obj) :
  (∀ k, k ∈ entry_keys → contains d k = false) →
  ∃ self,
    FhirBundleEntry.from_dict d m h
      = Some (self,
              <[self := OEntry {| _resource := None; request := None;
                                  response := None; fullUrl := VNone;
                                  link := None; search := None;
                                  storage_mode := m |}]> h) ∧
    h !! self = None ∧
    FhirBundleEntry.dict
      (<[self := OEntry {| _resource := None; request := None;
                           response := None; fullUrl := VNone;
                           link := None; search := None;
                           storage_mode := m |}]> h) self = Some [].
Proof.
  intros Hk. exists (fresh (dom h)).
  split; [|split; [apply fresh_None|]].
  - unfold FhirBundleEntry.from_dict, item_or.
    rewrite !Hk by (unfold entry_keys; set_solver). reflexivity.
  - rewrite entry_dict_unfold, entry_at_insert_entry. reflexivity.
Qed.

End from_dict_more.

(** ** What [dict()] of an entry holds under each key *)

Section nesting_helper.
Context `{DatetimeOps}.
Import FhirClientJsonHelpers.

Lemma forallb_Forall_true {A} (f : A → bool) (l : list A) :
  Forall (λ x, f x = true) l → forallb f l = true.
Proof. induction 1 as [|x l Hx _ IH]; simpl; [done|]. by rewrite Hx, IH. Qed.

(** What the helper returns has no empty element left, unless it is empty
    itself *)
Lemma remove_empty_elements_is_clean v :
  empty (remove_empty_elements v) = false →
  clean (remove_empty_elements v) = true.
Proof.
  induction v as [| | | | | |xs IH|kvs IH] using value_ind'; try done.
  - simpl. intros Hne.
    assert (Forall (λ y, clean y = true)
              (filter (λ x, negb (empty x)) (remove_empty_elements <$> xs)))
      as Hall.
    { apply Forall_forall. intros y [Hy (x & -> & Hx)%list_elem_of_fmap]%list_elem_of_filter.
      rewrite Forall_forall in IH. apply IH; [done|].
      by apply negb_true_iff, Is_true_true. }
    destruct (filter _ _) as [|y l]; [done|].
    simpl. apply andb_true_iff. apply Forall_cons in Hall as [-> Hall].
    split; [done|]. by apply forallb_Forall_true.
  - simpl. intros Hne.
    assert (Forall (λ kv, clean kv.2 = true)
              (filter (λ kv, negb (empty kv.2))
                 ((λ kv, (kv.1, remove_empty_elements kv.2)) <$> kvs)))
      as Hall.
    { apply Forall_forall.
      intros y [Hy (x & -> & Hx)%list_elem_of_fmap]%list_elem_of_filter.
      simpl in *. rewrite Forall_forall in IH. apply IH; [done|].
      by apply negb_true_iff, Is_true_true. }
    destruct (filter _ _) as [|y l]; [done|].
    simpl. apply andb_true_iff. apply Forall_cons in Hall as [-> Hall].
    split; [done|]. by apply forallb_Forall_true.
Qed.

(** A mapping that the helper returned is emitted as it is when nested *)
Lemma emitted_cleaned k (d : odict) :
  emitted k (VDict (remove_empty_elements_from_ordered_dict d)) =
    match remove_empty_elements_from_ordered_dict d with
    | [] => []
    | d' => [(k, VDict d')]
    end.
Proof.
  change (VDict (remove_empty_elements_from_ordered_dict d))
    with (remove_empty_elements (VDict d)).
  destruct (empty (remove_empty_elements (VDict d))) eqn:He.
  - simpl in He. unfold remove_empty_elements_from_ordered_dict.
    simpl. destruct (filter _ _); [done|done].
  - rewrite emitted_clean by (by apply remove_empty_elements_is_clean).
    simpl in *. unfold remove_empty_elements_from_ordered_dict.
    by destruct (filter _ _).
Qed.

Lemma getitem_emitted_cleaned k (d : odict) :
  getitem (emitted k (VDict (remove_empty_elements_from_ordered_dict d))) k
    = nested (remove_empty_elements_from_ordered_dict d).
Proof.
  rewrite emitted_cleaned.
  destruct (remove_empty_elements_from_ordered_dict d); simpl; [done|].
  by case_decide.
Qed.

End nesting_helper.

Section entry_items.
Context `{Codec} `{!CodecLossless} `{!EntryDtos}
  `{!CompressedDictStorageMode.Default}.
Import Heap FhirClientJsonHelpers.

Lemma getitem_emitted_dict k (d : odict) :
  getitem (emitted k (VDict d)) k
    = nested (remove_empty_elements_from_ordered_dict d).
Proof.
  rewrite getitem_emitted_eq.
  change (remove_empty_elements (VDict d))
    with (VDict (remove_empty_elements_from_ordered_dict d)).
  by destruct (remove_empty_elements_from_ordered_dict d).
Qed.

Lemma option_match_id {A} (o : option A) :
  match o with Some v => Some v | None => None end = o.
Proof. by destruct o. Qed.

Lemma request_dict_nonempty (r : FhirBundleEntryRequest.t) :
  is_scalar (FhirBundleEntryRequest.url r) = true →
  truthy (FhirBundleEntryRequest.url r) = true →
  nested (FhirBundleEntryRequest.dict r)
    = Some (VDict (FhirBundleEntryRequest.dict r)).
Proof.
  intros Hs Ht. rewrite request_dict_emitted.
  rewrite (emitted_truthy_scalar _ _ Hs Ht). reflexivity.
Qed.

Lemma response_dict_nonempty (r : FhirBundleEntryResponse.t) :
  is_scalar (FhirBundleEntryResponse.status r) = true →
  truthy (FhirBundleEntryResponse.status r) = true →
  nested (FhirBundleEntryResponse.dict r)
    = Some (VDict (FhirBundleEntryResponse.dict r)).
Proof.
  intros Hs Ht. rewrite response_dict_emitted.
  rewrite (emitted_truthy_scalar _ _ Hs Ht). reflexivity.
Qed.

(** X16. What [dict()] of an entry holds under each key. Under
    ["request"] and ["response"] it holds [dict()] of the request and of
    the response as they are, which are never empty for a request with a
    truthy [url] and a response with a truthy [status] (no list or
    mapping), as the constructors leave them; under ["resource"] the
    content of the container with the empty elements removed; under
    ["fullUrl"] the stored value, unless that is [None]. A part that is
    left empty has no key, and neither has an empty list of links. *)
Theorem entry_dict_items (h : gmap loc obj) self e od :
  entry_at h self = Some e →
  FhirBundleEntry.dict h self = Some od →
  (is_scalar (fullUrl e) = true →
     getitem od "fullUrl"
       = if is_not_none (fullUrl e) then Some (fullUrl e) else None) ∧
  (∀ c r d, _resource e = Some c → resource_at h c = Some r →
            CompressedDict.dict r = Some d →
     getitem od "resource"
       = nested (remove_empty_elements_from_ordered_dict d)) ∧
  (∀ l r, request e = Some l → request_at h l = Some r →
     getitem od "request" = nested (FhirBundleEntryRequest.dict r) ∧
     (is_scalar (FhirBundleEntryRequest.url r) = true →
      truthy (FhirBundleEntryRequest.url r) = true →
        getitem od "request" = Some (VDict (FhirBundleEntryRequest.dict r)))) ∧
  (∀ l r, response e = Some l → response_at h l = Some r →
     getitem od "response" = nested (FhirBundleEntryResponse.dict r) ∧
     (is_scalar (FhirBundleEntryResponse.status r) = true →
      truthy (FhirBundleEntryResponse.status r) = true →
        getitem od "response"
          = Some (VDict (FhirBundleEntryResponse.dict r)))) ∧
  (∀ l, link e = Some l → list_at h l = Some [] → getitem od "link" = None).
Proof.
  intros He (e0 & He0 & ->)%entry_dict_emitted.
  rewrite He in He0. injection He0 as <-.
  unfold entry_emitted. split; [|split; [|split; [|split]]].
  - intros Hs. rewrite !getitem_app.
    rewrite !(getitem_slot_ne "fullUrl") by done.
    rewrite option_match_id, emitted_scalar by done.
    by destruct (is_not_none (fullUrl e)).
  - intros c r d Hc Hr Hd. unfold resource_value.
    rewrite Hc; simpl. rewrite Hr; simpl. rewrite Hd; simpl.
    rewrite !getitem_app, (getitem_emitted_ne "resource" "fullUrl") by done.
    rewrite !(getitem_slot_ne "resource") by done.
    by rewrite option_match_id, getitem_emitted_dict.
  - intros l r Hl Hr.
    assert (getitem
              (emitted "fullUrl" (fullUrl e) ++
               from_option (emitted "resource") [] (resource_value h (_resource e)) ++
               from_option (emitted "request") [] (request_value h (request e)) ++
               from_option (emitted "response") [] (response_value h (response e)) ++
               from_option (emitted "link") [] (link_value h (link e)) ++
               from_option (emitted "search") [] (search_value h (search e)))
              "request" = nested (FhirBundleEntryRequest.dict r)) as Hq.
    { unfold request_value at 1. rewrite Hl; simpl. rewrite Hr; simpl.
      rewrite !getitem_app, (getitem_emitted_ne "request" "fullUrl") by done.
      rewrite !(getitem_slot_ne "request") by done.
      rewrite option_match_id. unfold FhirBundleEntryRequest.dict.
      by rewrite getitem_emitted_cleaned. }
    split; [exact Hq|]. intros Hs Ht. rewrite Hq.
    by apply request_dict_nonempty.
  - intros l r Hl Hr.
    assert (getitem
              (emitted "fullUrl" (fullUrl e) ++
               from_option (emitted "resource") [] (resource_value h (_resource e)) ++
               from_option (emitted "request") [] (request_value h (request e)) ++
               from_option (emitted "response") [] (response_value h (response e)) ++
               from_option (emitted "link") [] (link_value h (link e)) ++
               from_option (emitted "search") [] (search_value h (search e)))
              "response" = nested (FhirBundleEntryResponse.dict r)) as Hq.
    { unfold response_value at 1. rewrite Hl; simpl. rewrite Hr; simpl.
      rewrite !getitem_app, (getitem_emitted_ne "response" "fullUrl") by done.
      rewrite !(getitem_slot_ne "response") by done.
      rewrite option_match_id. unfold FhirBundleEntryResponse.dict.
      by rewrite getitem_emitted_cleaned. }
    split; [exact Hq|]. intros Hs Ht. rewrite Hq.
    by apply response_dict_nonempty.
  - intros l Hl Hitems. unfold link_value at 1.
    rewrite Hl; simpl. rewrite Hitems; simpl.
    rewrite !getitem_app, (getitem_emitted_ne "link" "fullUrl") by done.
    by rewrite !(getitem_slot_ne "link") by done.
Qed.

(** X17. The constructor called with a plain mapping of the supported
    values, then [dict()]: the call returns, and [dict()] of the new entry
    holds [fullUrl], the mapping under ["resource"], and [dict()] of the
    request and of the response that were passed, in that order, each with
    the empty elements removed. With nothing but a resource without empty
    elements, [dict()] is the one entry [{"resource": d}]; with a [fullUrl]
    string, a resource without empty elements, a request and a response
    whose [dict()] is not empty, it is the four entries as they were
    passed. *)
Theorem constructed_entry_dict fu (d : odict) rq rp sm (h : gmap loc obj) :
  supported d = true →
  (∀ l, rq = Some l → is_Some (request_at h l)) →
  (∀ l, rp = Some l → is_Some (response_at h l)) →
  ∃ self h',
    FhirBundleEntry.init fu (FhirBundleEntry.ResDict d) rq rp None None sm h
      = Some (self, h') ∧
    FhirBundleEntry.dict h' self =
      Some (emitted "fullUrl" fu ++ emitted "resource" (VDict d)
            ++ from_option (emitted "request") [] (request_value h rq)
            ++ from_option (emitted "response") [] (response_value h rp)) ∧
    (clean (VDict d) = true → fu = VNone → rq = None → rp = None →
       FhirBundleEntry.dict h' self = Some [("resource", VDict d)]) ∧
    (∀ lq q lp p,
       clean (VDict d) = true → is_scalar fu = true → fu ≠ VNone →
       rq = Some lq → request_at h lq = Some q →
       FhirBundleEntryRequest.dict q ≠ [] →
       rp = Some lp → response_at h lp = Some p →
       FhirBundleEntryResponse.dict p ≠ [] →
       FhirBundleEntry.dict h' self =
         Some [("fullUrl", fu); ("resource", VDict d);
               ("request", VDict (FhirBundleEntryRequest.dict q));
               ("response", VDict (FhirBundleEntryResponse.dict p))]).
Proof.
  intros Hd Hrq Hrp.
  set (m := from_option id CompressedDictStorageMode.default sm).
  set (r := {| CompressedDict.state := CompressedDict.at_rest m d;
               CompressedDict.storage_mode := m; CompressedDict.pins := 0 |}).
  set (c := fresh (dom h)).
  set (h1 := <[c := OResource r]> h).
  set (self := fresh (dom h1)).
  set (ent := {| _resource := Some c; request := rq; response := rp;
                 fullUrl := fu; link := None; search := None;
                 storage_mode := m |}).
  exists self, (<[self := OEntry ent]> h1).
  assert (FhirBundleEntry.init fu (FhirBundleEntry.ResDict d) rq rp None None
            sm h = Some (self, <[self := OEntry ent]> h1)) as Hinit.
  { unfold FhirBundleEntry.init, FhirBundleEntry.FhirResource, bind, lift,
      CompressedDict.construct, alloc, ret.
    fold m. rewrite Hd. reflexivity. }
  split; [exact Hinit|].
  assert (same_dtos h (<[self := OEntry ent]> h1)) as Hsame.
  { eapply same_dtos_trans.
    - apply (same_dtos_insert h c (OResource r)); [|done].
      unfold c. by rewrite fresh_None.
    - apply same_dtos_insert; [|done]. unfold self. by rewrite fresh_None. }
  assert (c ≠ self) as Hne.
  { intros Heq. pose proof (fresh_None h1) as Hf. fold self in Hf.
    rewrite <- Heq in Hf. unfold h1 in Hf. by rewrite lookup_insert_eq in Hf. }
  assert (resource_value (<[self := OEntry ent]> h1) (Some c)
          = Some (VDict d)) as Hres.
  { unfold resource_value; simpl.
    rewrite resource_at_insert_ne by done.
    unfold h1. rewrite resource_at_insert_eq; simpl.
    unfold r. by rewrite at_rest_dict. }
  assert (FhirBundleEntry.dict (<[self := OEntry ent]> h1) self =
            Some (emitted "fullUrl" fu ++ emitted "resource" (VDict d)
                  ++ from_option (emitted "request") [] (request_value h rq)
                  ++ from_option (emitted "response") [] (response_value h rp)))
    as Hdict.
  { rewrite entry_dict_unfold, entry_at_insert_entry; simpl.
    unfold readable, entry_emitted; simpl.
    unfold resource_value in Hres; simpl in Hres. rewrite Hres; simpl.
    destruct (same_dtos_values _ _ rq Hsame) as (-> & _).
    destruct (same_dtos_values _ _ rp Hsame) as (_ & -> & _).
    assert (slot_ok rq (request_value h rq) = true) as ->.
    { destruct rq as [l|]; [|done]. destruct (Hrq l eq_refl) as [q Hq].
      unfold request_value; simpl. by rewrite Hq. }
    assert (slot_ok rp (response_value h rp) = true) as ->.
    { destruct rp as [l|]; [|done]. destruct (Hrp l eq_refl) as [p Hp].
      unfold response_value; simpl. by rewrite Hp. }
    simpl. by rewrite !app_nil_r. }
  split; [exact Hdict|]. split.
  - intros Hc -> -> ->. rewrite Hdict; simpl.
    by rewrite emitted_clean.
  - intros lq q lp p Hc Hs Hfu -> Hq Hqne -> Hp Hpne.
    rewrite Hdict. unfold request_value, response_value; simpl.
    rewrite Hq, Hp; simpl.
    rewrite (emitted_clean _ _ Hc).
    rewrite emitted_scalar by done.
    apply is_not_none_true in Hfu as ->.
    unfold FhirBundleEntryRequest.dict at 1.
    unfold FhirBundleEntryResponse.dict at 1.
    rewrite !emitted_cleaned.
    fold (FhirBundleEntryRequest.dict q). fold (FhirBundleEntryResponse.dict p).
    destruct (FhirBundleEntryRequest.dict q) eqn:Eq; [done|].
    destruct (FhirBundleEntryResponse.dict p) eqn:Ep; [done|].
    reflexivity.
Qed.

End entry_items.

(** ** [__deepcopy__]: the parts it drops, and when it returns *)

Section deepcopy_more.
Context `{Codec} `{!EntryDtos} `{!CompressedDictStorageMode.Default}.
Import Heap FhirClientJsonHelpers.

Lemma list_at_alloc o (h : gmap loc obj) l0 h1 :
  alloc o h = Some (l0, h1) → (∀ items, o ≠ OList items) →
  ∀ l, list_at h1 l = list_at h l.
Proof.
  intros Ha Ho l. pose proof (alloc_spec _ _ _ _ Ha) as (Hn & Hl & _ & _).
  apply alloc_Some in Ha as [-> ->]. unfold list_at.
  destruct (decide (l = fresh (dom h))) as [->|Hne].
  - rewrite Hn, Hl. destruct o; try done. by destruct (Ho items).
  - by rewrite lookup_insert_ne.
Qed.

Lemma deepcopy_slot_lists {A} (at_ : gmap loc obj → loc → option A)
    (copy_of : A → obj) slot (h : gmap loc obj) o h1 :
  (∀ x items, copy_of x ≠ OList items) →
  FhirBundleEntry.deepcopy_slot at_ copy_of slot h = Some (o, h1) →
  ∀ l, list_at h1 l = list_at h l.
Proof.
  intros Hco. unfold FhirBundleEntry.deepcopy_slot.
  destruct slot as [l0|]; intros Hc.
  - apply bind_Some in Hc as (x & ? & [Hx ->]%read_Some & Hc).
    apply bind_Some in Hc as (l' & ? & Ha & [-> ->]%ret_Some).
    eapply list_at_alloc; [exact Ha|]. apply Hco.
  - by apply ret_Some in Hc as [-> ->].
Qed.

(** X18. [__deepcopy__] tests the parts of the entry for their truth value,
    not for [None]: the copy has no resource when the original has none or
    holds a container without keys, and no list of links when the original
    has none or holds the empty list; a request, a response and a search
    block are objects without a length and are always copied. So an empty
    container and an empty list of links are not carried over to the
    copy. *)
Theorem deepcopy_drops_empty_parts self (h : gmap loc obj) c h' :
  FhirBundleEntry.deepcopy self h = Some (c, h') →
  ∃ e e',
    entry_at h self = Some e ∧ entry_at h' c = Some e' ∧
    (_resource e' = None ↔
       _resource e = None ∨
       ∃ c0 r, _resource e = Some c0 ∧ resource_at h c0 = Some r ∧
               CompressedDict.bool r = false) ∧
    (link e' = None ↔
       link e = None ∨ ∃ l, link e = Some l ∧ list_at h l = Some []) ∧
    (request e' = None ↔ request e = None) ∧
    (response e' = None ↔ response e = None) ∧
    (search e' = None ↔ search e = None).
Proof.
  unfold FhirBundleEntry.deepcopy. intros Hc.
  apply bind_Some in Hc as (e & ? & [He ->]%read_Some & Hc).
  apply bind_Some in Hc as (ra & h1 & Hres & Hc).
  apply bind_Some in Hc as (rq & h2 & Hreq & Hc).
  apply bind_Some in Hc as (rp & h3 & Hresp & Hc).
  apply bind_Some in Hc as (ln & h4 & Hlnk & Hc).
  apply bind_Some in Hc as (sr & h5 & Hsrch & Hc).
  assert (∀ l, list_at h3 l = list_at h l) as Hlists.
  { assert (∀ l, list_at h3 l = list_at h2 l) as L3
      by (eapply deepcopy_slot_lists; [|exact Hresp]; done).
    assert (∀ l, list_at h2 l = list_at h1 l) as L2
      by (eapply deepcopy_slot_lists; [|exact Hreq]; done).
    intros l. rewrite L3, L2.
    destruct (_resource e) as [c0|].
    - apply bind_Some in Hres as (r & ? & [Hr ->]%read_Some & Hres).
      destruct (CompressedDict.bool r).
      + apply bind_Some in Hres as (c' & ? & Ha & [-> ->]%ret_Some).
        by eapply list_at_alloc.
      + by apply ret_Some in Hres as [-> ->].
    - by apply ret_Some in Hres as [-> ->]. }
  apply deepcopy_slot_spec in Hreq as [_ Hreq].
  apply deepcopy_slot_spec in Hresp as [_ Hresp].
  apply deepcopy_slot_spec in Hsrch as [_ Hsrch].
  apply init_spec in Hc as (res & hx & _ & -> & Hra).
  eexists e, _. split; [done|]. split; [apply entry_at_insert_entry|].
  simpl. split; [|split; [|split; [|split]]].
  - destruct (_resource e) as [c0|].
    + apply bind_Some in Hres as (r & ? & [Hr ->]%read_Some & Hres).
      destruct (CompressedDict.bool r) eqn:Eb.
      * apply bind_Some in Hres as (c' & ? & Ha & [-> ->]%ret_Some).
        destruct Hra as [-> _]. split; [done|].
        intros [?|(c1 & r1 & [= <-] & Hr1 & Hk)]; [done|].
        rewrite Hr in Hr1. injection Hr1 as <-. congruence.
      * apply ret_Some in Hres as [-> ->]. destruct Hra as [-> _].
        split; [|done]. intros _. right. by exists c0, r.
    + apply ret_Some in Hres as [-> ->]. destruct Hra as [-> _].
      split; [by left|done].
  - destruct (link e) as [l|].
    + apply bind_Some in Hlnk as (items & ? & [Hl ->]%read_Some & Hlnk).
      rewrite Hlists in Hl.
      destruct items as [|i items].
      * apply ret_Some in Hlnk as [-> ->]. split; [|done].
        intros _. right. by exists l.
      * apply bind_Some in Hlnk as (ls & ? & _ & Hlnk).
        apply bind_Some in Hlnk as (l' & ? & _ & [-> ->]%ret_Some).
        split; [done|]. intros [?|(l1 & [= <-] & Hl1)]; [done|]. congruence.
    + apply ret_Some in Hlnk as [-> ->]. split; [by left|done].
  - destruct (request e); [|by subst].
    destruct Hreq as (l' & x & -> & _). done.
  - destruct (response e); [|by subst].
    destruct Hresp as (l' & x & -> & _). done.
  - destruct (search e); [|by subst].
    destruct Hsrch as (l' & x & -> & _). done.
Qed.





End deepcopy_more.

(** ** [from_dict]: the parts it builds *)

Section from_dict_parts.
Context `{Codec} `{!CodecLossless} `{!EntryDtos}
  `{!CompressedDictStorageMode.Default}.
Import Heap FhirClientJsonHelpers.

Lemma item_as_Some {A} (parse : odict → option A) (d : odict) k x :
  FhirBundleEntry.item_as parse d k = Some x ↔
  ∃ q, getitem d k = Some (VDict q) ∧ parse q = Some x.
Proof.
  unfold FhirBundleEntry.item_as. split.
  - destruct (getitem d k) as [[]|]; simpl; try done. intros Hp. by eexists.
  - intros (q & -> & Hp). done.
Qed.

Lemma response_item_returns (v : value) r :
  FhirBundleEntryResponse.from_dict_any v = Some r →
  match v with
  | VDict p => FhirBundleEntryResponse.from_dict p = Some r
  | VStr _ | VList _ =>
      (∀ k, k ∈ response_keys → py_in k v = Some false) ∧
      r = FhirBundleEntryResponse.init (VStr "200") VNone None VNone
  | _ => False
  end.
Proof.
  rewrite response_from_dict_any_cases.
  assert (∀ w, is_Some (py_in "status" w) →
            existsb (λ k, default false (py_in k w)) response_keys = false →
            ∀ k, k ∈ response_keys → py_in k w = Some false) as Hnone.
  { intros w Hw Hex k Hk.
    assert (default false (py_in k w) = false) as Hd.
    { destruct (default false (py_in k w)) eqn:E; [|done].
      assert (existsb (λ k, default false (py_in k w)) response_keys = true)
        as Hex'; [|congruence].
      apply existsb_exists. exists k. split; [by apply list_elem_of_In|done]. }
    destruct w; try (by destruct Hw); simpl in *; by rewrite Hd. }
  destruct v as [| | | |s| |xs|p]; try done.
  - destruct (existsb _ response_keys) eqn:Hex; [done|]. intros [= <-].
    split; [|done]. apply Hnone; [by eexists|done].
  - destruct (existsb _ response_keys) eqn:Hex; [done|]. intros [= <-].
    split; [|done]. apply Hnone; [by eexists|done].
Qed.

(** X20. [FhirBundleEntry.from_dict] builds each part of the entry from the
    item under its key. The entry has the given storage mode, and
    [fullUrl] is the item under ["fullUrl"] ([None] without the key); the
    item under ["resource"] is a mapping, and the entry holds a container
    of the given mode whose [dict()] is that mapping; the items under
    ["request"] and ["search"] are mappings, and the entry holds what
    [from_dict] of the class returns on them; the item under ["response"]
    is a mapping, on which the entry holds what [from_dict] of the response
    returns, or a string or a list in which none of the four keys of the
    response occurs, on which the entry holds the response of the empty
    mapping, with status ["200"]; the item under ["link"] is iterable, its
    elements are mappings, and the entry holds the list of what
    [FhirLink.from_dict] returns on them, in their order. A part whose key
    the mapping does not have is unset. *)
Theorem entry_from_dict_parts (d : odict) m (h : gmap loc obj) self h' :
  FhirBundleEntry.from_dict d m h = Some (self, h') →
  ∃ e,
    entry_at h' self = Some e ∧ storage_mode e = m ∧
    fullUrl e = default VNone (getitem d "fullUrl") ∧
    match getitem d "resource" with
    | Some v => ∃ rd c r, v = VDict rd ∧ _resource e = Some c ∧
                          resource_at h' c = Some r ∧
                          CompressedDict.dict r = Some rd ∧
                          CompressedDict.storage_mode r = m
    | None => _resource e = None
    end ∧
    match getitem d "request" with
    | Some v => ∃ q l r, v = VDict q ∧ request e = Some l ∧
                         request_at h' l = Some r ∧
                         FhirBundleEntryRequest.from_dict q = Some r
    | None => request e = None
    end ∧
    match getitem d "response" with
    | Some v =>
        ∃ l r, response e = Some l ∧ response_at h' l = Some r ∧
          match v with
          | VDict p => FhirBundleEntryResponse.from_dict p = Some r
          | VStr _ | VList _ =>
              (∀ k, k ∈ response_keys → py_in k v = Some false) ∧
              r = FhirBundleEntryResponse.init (VStr "200") VNone None VNone
          | _ => False
          end
    | None => response e = None
    end ∧
    match getitem d "link" with
    | Some v => ∃ vs l items,
                  FhirBundleEntry.iterate v = Some vs ∧ link e = Some l ∧
                  list_at h' l = Some items ∧
                  Forall2 (λ v i, ∃ q x, v = VDict q ∧
                                         dto_from_dict q = Some x ∧
                                         link_at h' i = Some x) vs items
    | None => link e = None
    end ∧
    match getitem d "search" with
    | Some v => ∃ q l s, v = VDict q ∧ search e = Some l ∧
                         search_at h' l = Some s ∧
                         dto_from_dict q = Some s
    | None => search e = None
    end.
Proof.
  intros (e & He & _ & _ & Hb)%from_dict_spec.
  destruct Hb as (Hfu & Hm & Hres & Hreq & Hresp & Hlnk & Hsrch).
  exists e. split; [done|]. split; [done|].
  split; [by rewrite Hfu, item_or_getitem|].
  split; [|split; [|split; [|split]]].
  - destruct (getitem d "resource") as [v|] eqn:Hv.
    + rewrite (getitem_contains _ _ _ Hv) in Hres.
      destruct Hres as (c & rd & r & Hc & _ & (q & Hq & [= <-])%item_as_Some
                        & Hcon & Hr).
      rewrite Hv in Hq. injection Hq as ->.
      exists q, c, r. split; [done|]. split; [done|]. split; [done|].
      split; [by eapply construct_dict|by eapply construct_mode].
    + apply contains_false_getitem in Hv. by rewrite Hv in Hres.
  - destruct (getitem d "request") as [v|] eqn:Hv.
    + rewrite (getitem_contains _ _ _ Hv) in Hreq.
      destruct Hreq as (l & r & Hl & (q & Hq & Hp)%item_as_Some & Hr).
      rewrite Hv in Hq. injection Hq as ->. by exists q, l, r.
    + apply contains_false_getitem in Hv. by rewrite Hv in Hreq.
  - destruct (getitem d "response") as [v|] eqn:Hv.
    + rewrite (getitem_contains _ _ _ Hv) in Hresp.
      destruct Hresp as (l & r & Hl & Hp & Hr).
      unfold FhirBundleEntry.item_with in Hp. rewrite Hv in Hp. simpl in Hp.
      exists l, r. split; [done|]. split; [done|].
      by apply response_item_returns.
    + apply contains_false_getitem in Hv. by rewrite Hv in Hresp.
  - destruct (getitem d "link") as [v|] eqn:Hv.
    + rewrite (getitem_contains _ _ _ Hv) in Hlnk.
      destruct Hlnk as (l & vs & items & Hl & Hvs & Hitems & Hall).
      simpl in Hvs. exists vs, l, items.
      split; [done|]. split; [done|]. split; [done|].
      eapply Forall2_impl; [exact Hall|].
      intros w i (x & Hx & Hi). destruct w; try done. simpl in Hx.
      by eexists _, x.
    + apply contains_false_getitem in Hv. by rewrite Hv in Hlnk.
  - destruct (getitem d "search") as [v|] eqn:Hv.
    + rewrite (getitem_contains _ _ _ Hv) in Hsrch.
      destruct Hsrch as (l & r & Hl & (q & Hq & Hp)%item_as_Some & Hr).
      rewrite Hv in Hq. injection Hq as ->. by exists q, l, r.
    + apply contains_false_getitem in Hv. by rewrite Hv in Hsrch.
Qed.

End from_dict_parts.

(** * The theorems at concrete inputs *)

#[local] Existing Instances iso_text_datetime identity_codec
  identity_codec_lossless mapping_dtos compressed_by_default.
Import Heap CompressedDictStorageMode.

Lemma request_url_method_never_empty_witness :
  let d : odict := [("ifNoneMatch", VStr "W/1"); ("url", VStr "")] in
  ∃ r, FhirBundleEntryRequest.from_dict  d = Some r ∧
       getitem (FhirBundleEntryRequest.dict r) "url"
         = Some (VStr "https://example.com") ∧
       getitem (FhirBundleEntryRequest.dict r) "method" = Some (VStr "GET").
Proof.
  intros d. eexists. split; [reflexivity|].
  eapply (proj2 (request_url_method_never_empty ) d);
    reflexivity.
Defined.





Lemma demo_built_eq :
  FhirBundleEntry.from_dict full_entry_dict Compressed ∅
    = Some (demo_self, demo_store).
Proof. vm_compute; reflexivity. Qed.

Lemma demo_entry_eq : entry_at demo_store demo_self = Some demo_entry.
Proof. vm_compute; reflexivity. Qed.

Lemma demo_dict_eq :
  FhirBundleEntry.dict demo_store demo_self =
    Some [("fullUrl", VStr "https://example.com/Patient/123");
          ("resource", VDict [("resourceType", VStr "Patient"); ("id", VStr "123")]);
          ("request", VDict [("url", VStr "https://example.com");
                             ("method", VStr "GET")]);
          ("response", VDict [("status", VStr "200");
                              ("lastModified", VStr "2024-05-17T08:30:00");
                              ("etag", VStr "W/abc")])].
Proof. vm_compute; reflexivity. Qed.

Lemma dict_keys_in_declared_order_witness :
  FhirBundleEntry.dict demo_store demo_self = Some full_entry_dict ∧
  keys full_entry_dict `sublist_of`
    ["fullUrl"; "resource"; "request"; "response"; "link"; "search"].
Proof.
  split; [exact demo_dict_eq|].
  exact (proj2 (proj2 dict_keys_in_declared_order) _ _ _ demo_dict_eq).
Defined.

Lemma absent_optional_fields_omitted_witness :
  entry_at demo_store demo_self = Some demo_entry ∧
  FhirBundleEntry.dict demo_store demo_self = Some full_entry_dict ∧
  link demo_entry = None ∧ ("link" ∉ keys full_entry_dict) ∧
  ∀ k v, (k, v) ∈ full_entry_dict → FhirClientJsonHelpers.empty v = false.
Proof.
  split; [exact demo_entry_eq|]. split; [exact demo_dict_eq|].
  split; [reflexivity|].
  destruct (proj2 (proj2 absent_optional_fields_omitted) _ _ _ _
              demo_entry_eq demo_dict_eq)
    as (_ & _ & _ & _ & Hlink & _ & Hne).
  split; [|exact Hne]. intros Hk. by apply Hlink.
Defined.

Lemma demo_copied_eq :
  FhirBundleEntry.copy demo_self demo_store = Some (demo_copy, demo_store_copied).
Proof. vm_compute; reflexivity. Qed.

Lemma demo_written_eq :
  transaction_setitem 1%positive "id" (VStr "456") demo_store_copied
    = Some (tt, demo_store_written).
Proof. vm_compute; reflexivity. Qed.

Lemma copy_is_independent_duplicate_witness :
  FhirBundleEntry.copy demo_self demo_store = Some (demo_copy, demo_store_copied) ∧
  transaction_setitem 1%positive "id" (VStr "456") demo_store_copied
    = Some (tt, demo_store_written) ∧
  FhirBundleEntry.dict demo_store_written demo_copy
    = FhirBundleEntry.dict demo_store demo_self ∧
  FhirBundleEntry.dict demo_store_written demo_self
    ≠ FhirBundleEntry.dict demo_store demo_self.
Proof.
  split; [exact demo_copied_eq|]. split; [exact demo_written_eq|].
  split; [|by vm_compute].
  destruct (copy_is_independent_duplicate _ _ _ _ demo_copied_eq)
    as (e & e' & He & _ & _ & _ & _ & _ & _ & _ & Htx & _).
  assert (e = demo_entry) as -> by (rewrite demo_entry_eq in He; congruence).
  destruct (Htx _ _ _ _ _ eq_refl demo_written_eq) as [_ ->].
  vm_compute; reflexivity.
Defined.

(** ** The shared container *)

Lemma empty_store_owned :
  containers_live (∅ : gmap loc obj) ∧ exclusively_owned (∅ : gmap loc obj).
Proof.
  assert (∀ e c, ¬ holds (∅ : gmap loc obj) e c) as Hnone.
  { intros e c (ent & He & _). unfold entry_at in He.
    by rewrite lookup_empty in He. }
  split; [intros e c Hh|intros e1 e2 c Hh]; by destruct (Hnone _ _ Hh).
Qed.

Lemma shared_one_built :
  (c <- FhirBundleEntry.FhirResource patient Raw ;;
   FhirBundleEntry.init VNone (FhirBundleEntry.ResContainer c)
     None None None None (Some Compressed)) ∅
  = Some (2%positive, shared_store_one).
Proof. vm_compute; reflexivity. Qed.

Lemma shared_two_built :
  FhirBundleEntry.init VNone (FhirBundleEntry.ResContainer 1%positive)
    None None None None None shared_store_one
  = Some (3%positive, shared_store_two).
Proof. vm_compute; reflexivity. Qed.

Lemma shared_copied_built :
  FhirBundleEntry.copy 2%positive shared_store_one
  = Some (4%positive, shared_store_copied).
Proof. vm_compute; reflexivity. Qed.

Lemma shared_one_holders e c :
  holds shared_store_one e c → e = 2%positive ∧ c = 1%positive.
Proof.
  intros (ent & He & Hc).
  assert (e ∈ dom shared_store_one) as Hd by (apply at_Some_dom; eauto 10).
  assert (dom shared_store_one = {[1%positive; 2%positive]}) as Hdom
    by (vm_compute; reflexivity).
  rewrite Hdom in Hd.
  apply elem_of_union in Hd as [->%elem_of_singleton | ->%elem_of_singleton].
  - vm_compute in He. discriminate.
  - vm_compute in He. injection He as <-. simpl in Hc. by injection Hc as <-.
Qed.

Lemma shared_one_owned : exclusively_owned shared_store_one.
Proof.
  intros e1 e2 c [-> _]%shared_one_holders [-> _]%shared_one_holders. done.
Qed.

(** C5 fails when a container instance is passed to the constructor: the
    caller's container [1], already held by entry [2], is held by the new
    entry [3] as well. *)
Lemma container_shared_counterexample :
  exclusively_owned shared_store_one ∧
  FhirBundleEntry.init VNone (FhirBundleEntry.ResContainer 1%positive)
    None None None None None shared_store_one
  = Some (3%positive, shared_store_two) ∧
  1%positive ∈ dom shared_store_one ∧
  holds shared_store_two 2%positive 1%positive ∧
  holds shared_store_two 3%positive 1%positive ∧
  ¬ exclusively_owned shared_store_two.
Proof.
  assert (holds shared_store_two 2%positive 1%positive) as H2
    by (eexists; split; [vm_compute; reflexivity|reflexivity]).
  assert (holds shared_store_two 3%positive 1%positive) as H3
    by (eexists; split; [vm_compute; reflexivity|reflexivity]).
  split; [exact shared_one_owned|]. split; [exact shared_two_built|].
  split; [by vm_compute|]. split; [done|]. split; [done|].
  intros Hexcl. by specialize (Hexcl _ _ _ H2 H3).
Qed.

Lemma container_owned_when_created_witness :
  (exclusively_owned demo_store ∧
   ∀ c, holds demo_store demo_self c → c ∉ dom (∅ : gmap loc obj)) ∧
  holds shared_store_two 3%positive 1%positive.
Proof.
  destruct empty_store_owned as [Hlive Hexcl].
  destruct container_owned_when_created as (_ & Hfrom & _ & _ & Hpass & _).
  split.
  - by destruct (Hfrom _ _ _ _ _ Hlive Hexcl demo_built_eq) as (_ & ? & ?).
  - by destruct (Hpass _ _ _ _ _ _ _ _ _ _ shared_two_built) as [? _].
Defined.

(** C6 fails in [__deepcopy__] for an entry whose container was passed to the
    constructor with another mode: the copy [4] has the mode [Compressed] of
    the original entry and its container [3] the mode [Raw] of the original
    container. *)
Lemma copy_mode_counterexample :
  FhirBundleEntry.copy 2%positive shared_store_one
    = Some (4%positive, shared_store_copied) ∧
  (∃ e r, entry_at shared_store_copied 4%positive = Some e ∧
          _resource e = Some 3%positive ∧
          resource_at shared_store_copied 3%positive = Some r ∧
          storage_mode e = Compressed ∧ CompressedDict.storage_mode r = Raw) ∧
  ¬ mode_inherited shared_store_copied 4%positive.
Proof.
  split; [exact shared_copied_built|].
  assert (∃ e r, entry_at shared_store_copied 4%positive = Some e ∧
          _resource e = Some 3%positive ∧
          resource_at shared_store_copied 3%positive = Some r ∧
          storage_mode e = Compressed ∧ CompressedDict.storage_mode r = Raw)
    as Hex.
  { eexists _, _. split; [vm_compute; reflexivity|].
    split; [reflexivity|]. split; [vm_compute; reflexivity|]. by split. }
  split; [exact Hex|].
  destruct Hex as (e & r & He & Hc & Hr & Hme & Hmr). intros Hinh.
  specialize (Hinh e _ r He Hc Hr). congruence.
Qed.

Lemma storage_mode_inherited_when_created_witness :
  mode_inherited demo_store demo_self ∧
  (mode_inherited demo_store demo_self →
   mode_inherited demo_store_copied demo_copy).
Proof.
  destruct storage_mode_inherited_when_created as (_ & Hfrom & _ & Hcopy).
  split.
  - by destruct (Hfrom _ _ _ _ _ demo_built_eq) as [? _].
  - by destruct (Hcopy _ _ _ _ demo_copied_eq) as (? & ? & _ & _ & _ & _ & ?).
Defined.

(** C7 fails for the container when a container instance is passed: the
    entry [3], constructed without [storage_mode], stores the default mode
    [Compressed], and the container [1] it holds has the mode [Raw]. *)
Lemma default_mode_counterexample :
  FhirBundleEntry.init VNone (FhirBundleEntry.ResContainer 1%positive)
    None None None None None shared_store_one
  = Some (3%positive, shared_store_two) ∧
  ∃ e r, entry_at shared_store_two 3%positive = Some e ∧
         _resource e = Some 1%positive ∧
         resource_at shared_store_two 1%positive = Some r ∧
         storage_mode e = CompressedDictStorageMode.default ∧
         CompressedDict.storage_mode r ≠ CompressedDictStorageMode.default.
Proof.
  split; [exact shared_two_built|].
  eexists _, _. split; [vm_compute; reflexivity|].
  split; [reflexivity|]. split; [vm_compute; reflexivity|]. by split.
Qed.

Lemma defaulted_built :
  FhirBundleEntry.init VNone (FhirBundleEntry.ResDict patient)
    None None None None None ∅
  = Some (2%positive, defaulted_store).
Proof. vm_compute; reflexivity. Qed.

Lemma default_mode_when_omitted_witness :
  ∃ e c r, entry_at defaulted_store 2%positive = Some e ∧
           storage_mode e = Compressed ∧
           _resource e = Some c ∧ resource_at defaulted_store c = Some r ∧
           CompressedDict.storage_mode r = Compressed.
Proof.
  destruct (default_mode_when_omitted FhirBundleEntry.init (or_introl eq_refl)
              _ _ _ _ _ _ _ _ _ defaulted_built)
    as (e & He & Hm & Hd & _).
  destruct (Hd patient eq_refl) as (c & r & Hc & Hr & Hmr).
  by exists e, c, r.
Defined.

(** ** The round trips *)

(** C1 fails for a mapping whose request has no [method]: [from_dict]
    defaults it and [dict()] returns the mapping with ["method": "GET"]
    added. *)
Lemma from_dict_dict_counterexample :
  FhirBundleEntry.from_dict partial_request_dict Compressed ∅
    = Some (2%positive, defaulting_store) ∧
  FhirBundleEntry.dict defaulting_store 2%positive
    = Some [("request", VDict [("url", VStr "Patient/1");
                               ("method", VStr "GET")])] ∧
  FhirBundleEntry.dict defaulting_store 2%positive ≠ Some partial_request_dict.
Proof.
  assert (FhirBundleEntry.dict defaulting_store 2%positive
          = Some [("request", VDict [("url", VStr "Patient/1");
                                     ("method", VStr "GET")])]) as Hd
    by (vm_compute; reflexivity).
  split; [vm_compute; reflexivity|]. split; [exact Hd|].
  rewrite Hd. discriminate.
Qed.

Lemma linked_entry_valid : entry_valid linked_entry_shape.
Proof.
  split; [by split|]. split; [by vm_compute|]. split; [by vm_compute|].
  split.
  - split; [done|]. constructor; [|constructor].
    split; [done|]. by eexists.
  - split; [done|]. by eexists.
Qed.

Lemma from_dict_dict_roundtrip_witness :
  ∃ self h',
    FhirBundleEntry.from_dict (entry_mapping linked_entry_shape) Compressed ∅
      = Some (self, h') ∧
    FhirBundleEntry.dict h' self = Some (entry_mapping linked_entry_shape).
Proof.
  exact (from_dict_dict_roundtrip linked_entry_shape Compressed ∅
           linked_entry_valid).
Defined.

Lemma materialize_encode_roundtrip_witness :
  ∃ r, CompressedDict.construct patient Compressed = Some r ∧
       CompressedDict.dict r = Some patient.
Proof.
  destruct (materialize_encode_roundtrip patient Compressed eq_refl)
    as (r & Hr & Hd & _).
  by exists r.
Defined.

(** * The further properties at concrete inputs *)

(** ** Requests and responses *)

Lemma request_from_dict_reads_declared_keys_witness :
  FhirBundleEntryRequest.from_dict
    [("url", VStr "Patient/1"); ("method", VStr "PUT")]
  = FhirBundleEntryRequest.from_dict
      [("id", VInt 7); ("method", VStr "PUT"); ("url", VStr "Patient/1")].
Proof.
  apply request_from_dict_reads_declared_keys.
  intros k Hk. unfold request_keys in Hk.
  repeat (apply elem_of_cons in Hk as [->|Hk]; [reflexivity|]).
  by apply elem_of_nil in Hk.
Defined.

Lemma response_from_dict_reads_declared_keys_witness :
  FhirBundleEntryResponse.from_dict
    [("status", VInt 201); ("etag", VStr "W/1")]
  = FhirBundleEntryResponse.from_dict
      [("etag", VStr "W/1"); ("outcome", VNone); ("status", VInt 201)].
Proof.
  apply response_from_dict_reads_declared_keys.
  intros k Hk. unfold response_keys in Hk.
  repeat (apply elem_of_cons in Hk as [->|Hk]; [reflexivity|]).
  by apply elem_of_nil in Hk.
Defined.

Lemma request_deepcopy_equal_iff_witness :
  let d : odict := [("url", VStr ""); ("ifNoneExist", VStr "identifier=1")] in
  ∃ r, FhirBundleEntryRequest.from_dict d = Some r ∧
       FhirBundleEntryRequest.deepcopy r = r.
Proof.
  intros d. eexists. split; [reflexivity|].
  eapply (proj1 (proj2 (proj2 request_deepcopy_equal_iff)) d). reflexivity.
Defined.


Lemma request_set_fields_emitted_witness :
  let r := FhirBundleEntryRequest.init (VStr "Patient/1") (VStr "PUT")
             (VStr "W/3") (Some "2024-05-17T08:30:00") VNone in
  getitem (FhirBundleEntryRequest.dict r) "ifNoneMatch" = Some (VStr "W/3").
Proof.
  intros r.
  apply (proj1 (proj2 (request_set_fields_emitted r))); [reflexivity|done].
Defined.

Lemma response_set_fields_emitted_witness :
  let r := FhirBundleEntryResponse.init (VInt 201) (VStr "W/3") None
             (VStr "Patient/1/_history/3") in
  getitem (FhirBundleEntryResponse.dict r) "location"
    = Some (VStr "Patient/1/_history/3").
Proof.
  intros r.
  apply (proj2 (proj2 (response_set_fields_emitted r))); [reflexivity|done].
Defined.

Lemma request_from_dict_of_dict_witness :
  let r := FhirBundleEntryRequest.init (VStr "Patient/1") (VStr "")
             (VStr "W/3") (Some "2024-05-17T08:30:00") VNone in
  FhirBundleEntryRequest.from_dict (FhirBundleEntryRequest.dict r) = Some r.
Proof.
  intros r. apply request_from_dict_of_dict; try reflexivity.
  intros t [= <-]. reflexivity.
Defined.

Lemma response_from_dict_of_dict_witness :
  let r := FhirBundleEntryResponse.init (VInt 201) (VStr "W/3")
             (Some "2024-05-17T08:30:00") VNone in
  FhirBundleEntryResponse.from_dict (FhirBundleEntryResponse.dict r) = Some r.
Proof.
  intros r. apply response_from_dict_of_dict; try reflexivity.
  intros t [= <-]. reflexivity.
Defined.

(** ** The setter of [resource] *)

Lemma demo_cleared_eq :
  FhirBundleEntry.set_resource demo_self FhirBundleEntry.ResNone demo_store
    = Some (tt, demo_store_cleared).
Proof. vm_compute; reflexivity. Qed.

Lemma demo_replaced_eq :
  FhirBundleEntry.set_resource demo_self
    (FhirBundleEntry.ResDict patient_renamed) demo_store
    = Some (tt, demo_store_replaced).
Proof. vm_compute; reflexivity. Qed.

Lemma demo_container_eq : resource_at demo_store 1%positive = Some demo_container.
Proof. vm_compute; reflexivity. Qed.

Lemma demo_cleared_dict_eq :
  FhirBundleEntry.dict demo_store_cleared demo_self =
    Some [("fullUrl", VStr "https://example.com/Patient/123");
          ("request", VDict [("url", VStr "https://example.com");
                             ("method", VStr "GET")]);
          ("response", VDict [("status", VStr "200");
                              ("lastModified", VStr "2024-05-17T08:30:00");
                              ("etag", VStr "W/abc")])].
Proof. vm_compute; reflexivity. Qed.

Lemma set_resource_changes_resource_only_witness :
  ∃ od', FhirBundleEntry.dict demo_store_cleared demo_self = Some od' ∧
         getitem od' "response" = getitem full_entry_dict "response" ∧
         getitem od' "resource" ≠ getitem full_entry_dict "resource".
Proof.
  eexists. split; [exact demo_cleared_dict_eq|]. split; [|done].
  destruct (set_resource_changes_resource_only _ _ _ _ _ demo_cleared_eq)
    as (e & e' & _ & _ & _ & _ & _ & _ & _ & _ & _ & _ & Hd).
  apply (Hd _ _ demo_dict_eq demo_cleared_dict_eq). done.
Defined.

Lemma resource_set_then_get_witness :
  ∃ h', FhirBundleEntry.set_resource demo_self
          (FhirBundleEntry.ResDict patient_renamed) demo_store = Some (tt, h') ∧
    ∃ c r, FhirBundleEntry.resource h' demo_self = Some (Some c) ∧
           resource_at h' c = Some r ∧
           CompressedDict.dict r = Some patient_renamed ∧
           CompressedDict.get_keys r = keys patient_renamed.
Proof.
  apply (resource_set_then_get demo_self
           (FhirBundleEntry.ResDict patient_renamed) demo_store demo_entry
           demo_entry_eq).
  intros d [= <-]. split; [reflexivity|].
  intros c [= <-]. rewrite demo_container_eq. by eexists.
Defined.

Lemma set_resource_replaces_in_place_witness :
  dom demo_store_replaced = dom demo_store ∧
  (∀ l, l ≠ 1%positive → demo_store_replaced !! l = demo_store !! l) ∧
  entry_at demo_store_replaced demo_self = Some demo_entry ∧
  (∃ r', resource_at demo_store_replaced 1%positive = Some r' ∧
         CompressedDict.storage_mode r' = Compressed ∧
         CompressedDict.pins r' = 0 ∧
         CompressedDict.dict r' = Some patient_renamed) ∧
  (∀ e2, holds demo_store e2 1%positive → holds demo_store_replaced e2 1%positive).
Proof.
  exact (set_resource_replaces_in_place demo_self patient_renamed demo_store
           tt demo_store_replaced demo_entry 1%positive demo_container
           demo_entry_eq eq_refl demo_container_eq demo_replaced_eq).
Defined.

(** ** [from_dict] *)

Lemma entry_from_dict_raises_witness :
  FhirBundleEntry.from_dict
    [("fullUrl", VStr "urn:uuid:1"); ("response", VNone)] Raw ∅ = None.
Proof.
  apply entry_from_dict_raises. right. right. left.
  exists VNone. split; reflexivity.
Defined.

Lemma entry_from_dict_without_keys_witness :
  ∃ self,
    FhirBundleEntry.from_dict [("id", VStr "1")] Raw ∅
      = Some (self,
              <[self := OEntry {| _resource := None; request := None;
                                  response := None; fullUrl := VNone;
                                  link := None; search := None;
                                  storage_mode := Raw |}]> ∅) ∧
    (∅ : gmap loc obj) !! self = None ∧
    FhirBundleEntry.dict
      (<[self := OEntry {| _resource := None; request := None;
                           response := None; fullUrl := VNone;
                           link := None; search := None;
                           storage_mode := Raw |}]> ∅) self = Some [].
Proof.
  apply entry_from_dict_without_keys.
  intros k Hk. unfold entry_keys in Hk.
  repeat (apply elem_of_cons in Hk as [->|Hk]; [reflexivity|]).
  by apply elem_of_nil in Hk.
Defined.

Lemma status_text_built :
  FhirBundleEntry.from_dict status_text_dict Raw ∅
    = Some (2%positive, status_text_store).
Proof. vm_compute; reflexivity. Qed.

Lemma entry_from_dict_parts_witness :
  (∃ e, entry_at demo_store demo_self = Some e ∧
        fullUrl e = VStr "https://example.com/Patient/123" ∧
        ∃ c r, _resource e = Some c ∧ resource_at demo_store c = Some r ∧
               CompressedDict.dict r = Some patient ∧
               CompressedDict.storage_mode r = Compressed) ∧
  (∃ e l, entry_at status_text_store 2%positive = Some e ∧
          response e = Some l ∧
          response_at status_text_store l
            = Some (FhirBundleEntryResponse.init (VStr "200") VNone None VNone)).
Proof.
  split.
  - destruct (entry_from_dict_parts _ _ _ _ _ demo_built_eq)
      as (e & He & _ & Hfu & Hres & _).
    exists e. split; [exact He|]. split; [exact Hfu|].
    simpl in Hres. destruct Hres as (rd & c & r & [= <-] & Hc & Hr & Hd & Hm).
    by exists c, r.
  - destruct (entry_from_dict_parts _ _ _ _ _ status_text_built)
      as (e & He & _ & _ & _ & _ & Hresp & _).
    simpl in Hresp. destruct Hresp as (l & r & Hl & Hr & _ & ->).
    by exists e, l.
Defined.

(** ** [dict()] *)

Lemma entry_dict_items_witness :
  getitem full_entry_dict "request"
    = Some (VDict (FhirBundleEntryRequest.dict
                     (FhirBundleEntryRequest.init (VStr "https://example.com")
                        (VStr "GET") VNone None VNone))).
Proof.
  destruct (entry_dict_items _ _ _ _ demo_entry_eq demo_dict_eq)
    as (_ & _ & Hreq & _ & _).
  assert (request_at demo_store 2%positive
          = Some (FhirBundleEntryRequest.init (VStr "https://example.com")
                    (VStr "GET") VNone None VNone)) as Hr
    by (vm_compute; reflexivity).
  destruct (Hreq 2%positive _ eq_refl Hr) as [_ Hq].
  apply Hq; reflexivity.
Defined.

Lemma constructed_entry_dict_witness :
  ∃ self h',
    FhirBundleEntry.init VNone (FhirBundleEntry.ResDict patient) None None
      None None (Some Compressed) ∅ = Some (self, h') ∧
    FhirBundleEntry.dict h' self = Some [("resource", VDict patient)].
Proof.
  destruct (constructed_entry_dict VNone patient None None (Some Compressed) ∅)
    as (self & h' & Hinit & _ & Hmin & _);
    [reflexivity|by intros ? [=]|by intros ? [=]|].
  exists self, h'. split; [exact Hinit|]. by apply Hmin.
Defined.

(** ** [__deepcopy__] *)

Lemma unlinked_built :
  FhirBundleEntry.from_dict unlinked_dict Raw ∅ = Some (2%positive, unlinked_store).
Proof. vm_compute; reflexivity. Qed.

Lemma unlinked_copied :
  FhirBundleEntry.deepcopy 2%positive unlinked_store
    = Some (3%positive, unlinked_store_copied).
Proof. vm_compute; reflexivity. Qed.

Lemma deepcopy_drops_empty_parts_witness :
  ∃ e e', entry_at unlinked_store 2%positive = Some e ∧
          entry_at unlinked_store_copied 3%positive = Some e' ∧
          link e = Some 1%positive ∧ link e' = None.
Proof.
  destruct (deepcopy_drops_empty_parts _ _ _ _ unlinked_copied)
    as (e & e' & He & He' & _ & Hl & _).
  exists e, e'. split; [exact He|]. split; [exact He'|].
  assert (link e = Some 1%positive) as Hlink.
  { vm_compute in He. by injection He as <-. }
  split; [exact Hlink|]. apply Hl. right. exists 1%positive.
  split; [exact Hlink|]. vm_compute; reflexivity.
Defined.

